(** * GraphStorm SageMaker training entry point

    A shallow embedding of
    [python/graphstorm/sagemaker/sagemaker_train.py]: the command
    assembly and child supervision of [launch_train_task], and the
    master / worker orchestration of [run_train].

    The Python code is effectful: it talks to sockets, threads, a queue,
    the file system and a child process.  The embedding threads an
    explicit [state] (the observable trace of calls, the result queue,
    the [err_code] variable) through a small monad whose outcomes are a
    normal return, a raised exception, [sys.exit] or a call that never
    returns.  Everything the environment decides (name resolution, the
    order in which workers dial in, the child's exit status, faults of
    library calls) is read from a [world] record. *)

From Stdlib Require Import ZArith String List Ascii Bool Lia.
From stdpp Require Import base tactics option list strings pretty.

Local Open Scope Z_scope.
Local Open Scope string_scope.
Local Open Scope list_scope.

(** ** Python values used by the module *)

Module Py.

(** Strings hold ASCII characters: host names, paths, S3 locations,
    level names.  Characters above 127 are carried along unchanged. *)

(** The exception classes the module raises or handles.  All of them
    derive from [Exception]; [SystemExit] is an outcome of its own.
    [OtherException] is an instance of any other class, given by the
    name of the class and by whether the class derives from
    [RuntimeError] (as [NotImplementedError] and [RecursionError]
    do). *)
Inductive exn : Type :=
| CalledProcessError (returncode : Z)
| RuntimeError (msg : string)
| KeyError (key : string)
| ValueError (msg : string)
| OSError (msg : string)
| OtherException (name : string) (derives_RuntimeError : bool).

(** [isinstance(e, RuntimeError)], the test of [except RuntimeError]. *)
Definition is_RuntimeError (e : exn) : bool :=
  match e with
  | RuntimeError _ => true
  | OtherException _ derived => derived
  | _ => false
  end.

Definition is_CalledProcessError (e : exn) : bool :=
  match e with CalledProcessError _ => true | _ => false end.

(** Truth value of an [Optional[str]]: [None] and [''] are false. *)
Definition truthy (o : option string) : bool :=
  match o with
  | None => false
  | Some s => negb (String.eqb s "")
  end.

(** [s.rstrip(c)] for a one-character argument. *)
Fixpoint rstrip (c : ascii) (s : string) : string :=
  match s with
  | EmptyString => EmptyString
  | String a s' =>
      let r := rstrip c s' in
      if Ascii.eqb a c && String.eqb r "" then EmptyString else String a r
  end.

Definition ends_with_slash (s : string) : bool :=
  match String.rev s with
  | String a _ => Ascii.eqb a "/"
  | EmptyString => false
  end.

Definition starts_with_slash (s : string) : bool :=
  match s with
  | String a _ => Ascii.eqb a "/"
  | EmptyString => false
  end.

(** [os.path.join(a, b)] on POSIX, two components. *)
Definition path_join (a b : string) : string :=
  if starts_with_slash b then b
  else if String.eqb a "" || ends_with_slash a then a +:+ b
  else a +:+ "/" +:+ b.

(** [str(n)] and the f-string rendering of an [int]. *)
Definition str_int (n : Z) : string := pretty n.

(** [l.index(x)]: position of the first occurrence, [ValueError]
    when there is none. *)
Fixpoint index (x : string) (l : list string) : option nat :=
  match l with
  | [] => None
  | y :: l' => if String.eqb y x then Some 0%nat else S <$> index x l'
  end.

(** [range(a, b)] *)
Definition range (a b : nat) : list nat := seq a (b - a).

Definition squote : ascii := ascii_of_nat 39.
Definition dquote : ascii := ascii_of_nat 34.
Definition backslash : ascii := ascii_of_nat 92.

Fixpoint has_char (c : ascii) (s : string) : bool :=
  match s with
  | EmptyString => false
  | String a s' => Ascii.eqb a c || has_char c s'
  end.

Definition hex_digit (n : nat) : ascii :=
  if (n <? 10)%nat then ascii_of_nat (48 + n) else ascii_of_nat (87 + n).

(** One character inside [repr(s)]: the enclosing quote and the
    backslash are escaped, tab, line feed and carriage return are
    written [\t], [\n], [\r], other control characters [\xhh]. *)
Definition repr_char (quote c : ascii) : string :=
  let n := nat_of_ascii c in
  if Ascii.eqb c quote || Ascii.eqb c backslash
  then String backslash (String c EmptyString)
  else if (n =? 9)%nat then String backslash "t"
  else if (n =? 10)%nat then String backslash "n"
  else if (n =? 13)%nat then String backslash "r"
  else if (n <? 32)%nat || (n =? 127)%nat
  then String backslash
         (String "x"%char
            (String (hex_digit (n / 16)%nat)
               (String (hex_digit (n mod 16)%nat) EmptyString)))
  else String c EmptyString.

Fixpoint repr_chars (quote : ascii) (s : string) : string :=
  match s with
  | EmptyString => EmptyString
  | String c s' => repr_char quote c +:+ repr_chars quote s'
  end.

(** [repr(s)] of a [str]: single quotes, unless the string holds a
    single quote and no double quote. *)
Definition repr_str (s : string) : string :=
  let quote :=
    if has_char squote s && negb (has_char dquote s) then dquote
    else squote in
  String quote (repr_chars quote s +:+ String quote EmptyString).

(** Rendering of a list of strings inside an f-string: [str(l)],
    which shows each item by its [repr]. *)
Definition repr_list (l : list string) : string :=
  "[" +:+ String.concat ", " (map repr_str l) +:+ "]".

(** [s.upper()] *)
Definition upper_char (c : ascii) : ascii :=
  let n := nat_of_ascii c in
  if (97 <=? n)%nat && (n <=? 122)%nat then ascii_of_nat (n - 32) else c.

Fixpoint upper (s : string) : string :=
  match s with
  | EmptyString => EmptyString
  | String c s' => String (upper_char c) (upper s')
  end.

(** The attributes of the [logging] module whose name is in upper
    case: the eight level numbers, the default format string and the
    table of format styles. *)
Inductive logging_attr : Type :=
| AttrInt (n : Z)
| AttrStr (s : string)
| AttrDict.

(** [getattr(logging, name, None)] *)
Definition logging_getattr (name : string) : option logging_attr :=
  if String.eqb name "CRITICAL" then Some (AttrInt 50)
  else if String.eqb name "FATAL" then Some (AttrInt 50)
  else if String.eqb name "ERROR" then Some (AttrInt 40)
  else if String.eqb name "WARNING" then Some (AttrInt 30)
  else if String.eqb name "WARN" then Some (AttrInt 30)
  else if String.eqb name "INFO" then Some (AttrInt 20)
  else if String.eqb name "DEBUG" then Some (AttrInt 10)
  else if String.eqb name "NOTSET" then Some (AttrInt 0)
  else if String.eqb name "BASIC_FORMAT"
    then Some (AttrStr "%(levelname)s:%(name)s:%(message)s")
  else if String.eqb name "_STYLES" then Some AttrDict
  else None.

Definition level_names : list string :=
  ["CRITICAL"; "FATAL"; "ERROR"; "WARN"; "WARNING"; "INFO"; "DEBUG"; "NOTSET"].

(** What [logging.basicConfig(level=v, ...)] raises.  [None] leaves
    the level of the root logger alone; otherwise [Logger.setLevel]
    takes an [int] or a [str] that names a level, and raises
    [ValueError] on another string and [TypeError] on anything else. *)
Definition set_level_error (v : option logging_attr) : option exn :=
  match v with
  | None | Some (AttrInt _) => None
  | Some (AttrStr s) =>
      if existsb (String.eqb s) level_names then None
      else Some (ValueError ("Unknown level: " +:+ repr_str s))
  | Some AttrDict => Some (OtherException "TypeError" false)
  end.

(** The line feed the f-string [f"{ip}\n"] ends with. *)
Definition newline : string := String (ascii_of_nat 10) EmptyString.

End Py.
Import Py.

(** ** Constants imported from [graphstorm.config] *)

Record config : Type := {
  BUILTIN_TASK_NODE_CLASSIFICATION : string;
  BUILTIN_TASK_NODE_REGRESSION : string;
  BUILTIN_TASK_EDGE_CLASSIFICATION : string;
  BUILTIN_TASK_EDGE_REGRESSION : string;
  BUILTIN_TASK_LINK_PREDICTION : string;
  BUILTIN_TASK_MULTI_TASK : string
}.

Definition builtin_tasks (cfg : config) : list string :=
  [ BUILTIN_TASK_NODE_CLASSIFICATION cfg;
    BUILTIN_TASK_NODE_REGRESSION cfg;
    BUILTIN_TASK_EDGE_CLASSIFICATION cfg;
    BUILTIN_TASK_EDGE_REGRESSION cfg;
    BUILTIN_TASK_LINK_PREDICTION cfg;
    BUILTIN_TASK_MULTI_TASK cfg ].

(** The values the constants have in graphstorm's [config] module; used
    only to run the model on concrete inputs. *)
Definition graphstorm_config : config := {|
  BUILTIN_TASK_NODE_CLASSIFICATION := "node_classification";
  BUILTIN_TASK_NODE_REGRESSION := "node_regression";
  BUILTIN_TASK_EDGE_CLASSIFICATION := "edge_classification";
  BUILTIN_TASK_EDGE_REGRESSION := "edge_regression";
  BUILTIN_TASK_LINK_PREDICTION := "link_prediction";
  BUILTIN_TASK_MULTI_TASK := "multi_task"
|}.

(** ** Inputs *)

(** [json.loads(args.sm_dist_env)], already decoded. *)
Record train_env : Type := {
  hosts : list string;
  current_host : string;
  job_name : string
}.

Record args : Type := {
  task_type : string;
  graph_name : string;
  graph_data_s3 : string;
  train_yaml_s3 : string;
  model_artifact_s3 : option string;
  model_checkpoint_to_load : option string;
  custom_script : option string;
  data_path : string;
  num_gpus : Z;
  sm_dist_env : train_env;
  region : string;
  master_addr : string;
  log_level : string
}.

(** A socket handed out by [accept]. *)
Definition conn : Type := nat.

(** Exit of the child started by [subprocess.check_call]: it ran to an
    exit status, or starting / waiting for it raised. *)
Inductive child_result : Type :=
| Exited (returncode : Z)
| Unsupervised (e : exn).

(** Calls into code outside this file that may raise. *)
Inductive site : Type :=
| SiteMakedirs | SiteSshStart | SiteSocket | SiteBind | SiteAccept
| SiteOpenIpList
| SiteSession | SiteDownloadYaml | SiteDownloadGraph | SiteDownloadModel
| SiteBarrierMaster | SiteKeepAliveStart | SiteQueue | SiteRunStart
| SiteRunJoin | SiteQueueGet | SiteEventSet | SiteKeepAliveJoin
| SiteTerminateWorkers | SiteBarrier | SiteWaitForExit | SiteSockClose
| SiteUpload.

Record world : Type := {
  (** [socket.gethostbyname]; [None] when the lookup raises *)
  gethostbyname : string -> option string;
  (** [utils.get_job_port] *)
  get_job_port : string -> Z;
  (** sockets of the workers that dial in, in arrival order *)
  arrivals : list conn;
  (** does the n-th [sock.connect] of a worker succeed *)
  connect_ok : nat -> bool;
  (** [os.environ['LD_LIBRARY_PATH']], [None] when unset *)
  environ_LD_LIBRARY_PATH : option string;
  (** what happens to the launched workload *)
  child : child_result;
  (** [os.path.exists] *)
  path_exists : string -> bool;
  (** local paths returned by the download helpers *)
  yaml_config_path : string;
  graph_config_path : string;
  (** exception an outside call raises, if any; it is given per call
      site, the same at every call made from that site *)
  fault : site -> option exn
}.

(** ** Observable trace *)

Inductive loglevel : Type := DEBUG | INFO | ERROR.

Inductive event : Type :=
| EvMakedirs (path : string)
| EvServiceSshStart
| EvSetEnviron (key value : string)
| EvLoggingBasicConfig (host : string)
| EvLog (level : loglevel) (fmt : string)
| EvPrint (e : exn)
| EvSocket
| EvSockBind (addr : string) (port : Z)
| EvSockListen (backlog : nat)
| EvSockAccept (client : conn)
| EvSockConnect (addr : string) (port : Z) (ok : bool)
| EvSleep (milliseconds : N)
| EvOpen (path : string)
| EvWrite (path : string) (text : string)
| EvSession (region_name : string)
| EvDownloadYamlConfig (s3 local : string)
| EvDownloadGraph (s3 name : string) (rank world_size : nat) (local : string)
| EvDownloadModel (s3 : string) (local : option string)
| EvBarrierMaster (client_list : list (option conn)) (world_size : nat)
| EvKeepAliveStart (client_list : list (option conn)) (world_size : nat)
| EvQueueNew
| EvRunStart (launch_cmd : list string)
| EvRunJoin
| EvQueuePut (v : Z)
| EvQueueGet (v : Z)
| EvTaskEndSet
| EvKeepAliveJoin
| EvTerminateWorkers (client_list : list (option conn)) (world_size : nat)
| EvBarrier
| EvWaitForExit
| EvSockClose
| EvUploadModelArtifacts (s3 path : string).

(** ** State and the execution monad *)

Record state : Type := {
  trace : list event;      (* calls made so far, oldest first *)
  state_q : list Z;        (* the result queue, head is next out *)
  err_code : Z;            (* the variable of [run_train] *)
  accepted : nat;          (* inbound connections consumed *)
  dialled : nat            (* connect attempts made *)
}.

Definition init_state : state :=
  {| trace := []; state_q := []; err_code := 0; accepted := 0; dialled := 0 |}.

(** How a computation ends when it does not return. *)
Inductive stop : Type :=
| Raise (e : exn)        (* an exception propagates *)
| SysExit (code : Z)     (* [sys.exit(code)] *)
| Blocked.               (* a blocking call never returns *)

Inductive outcome (A : Type) : Type :=
| Return (a : A)
| Stop (s : stop).
Arguments Return {A} a.
Arguments Stop {A} s.

Definition M (A : Type) : Type := state -> outcome A * state.

Definition ret {A} (a : A) : M A := fun st => (Return a, st).

Definition bind {A B} (m : M A) (k : A -> M B) : M B :=
  fun st =>
    match m st with
    | (Return a, st') => k a st'
    | (Stop s, st') => (Stop s, st')
    end.

Declare Scope py_scope.
Delimit Scope py_scope with py.
Notation "x <- m ;; k" := (bind m (fun x => k))
  (at level 100, m at next level, right associativity) : py_scope.
Notation "m ;; k" := (bind m (fun _ => k))
  (at level 100, right associativity) : py_scope.
Local Open Scope py_scope.

Definition raise {A} (e : exn) : M A := fun st => (Stop (Raise e), st).

Definition sys_exit {A} (code : Z) : M A := fun st => (Stop (SysExit code), st).

(** State updates. *)
Definition record (e : event) (st : state) : state :=
  {| trace := trace st ++ [e]; state_q := state_q st;
     err_code := err_code st; accepted := accepted st;
     dialled := dialled st |}.

Definition with_state_q (q : list Z) (st : state) : state :=
  {| trace := trace st; state_q := q; err_code := err_code st;
     accepted := accepted st; dialled := dialled st |}.

Definition with_err_code (v : Z) (st : state) : state :=
  {| trace := trace st; state_q := state_q st; err_code := v;
     accepted := accepted st; dialled := dialled st |}.

Definition with_accepted (n : nat) (st : state) : state :=
  {| trace := trace st; state_q := state_q st; err_code := err_code st;
     accepted := n; dialled := dialled st |}.

Definition with_dialled (n : nat) (st : state) : state :=
  {| trace := trace st; state_q := state_q st; err_code := err_code st;
     accepted := accepted st; dialled := n |}.

Definition emit (e : event) : M unit := fun st => (Return tt, record e st).

Definition logging (level : loglevel) (fmt : string) : M unit :=
  emit (EvLog level fmt).

(** [try: m  except C: h]: [handler e] is [Some h] when [e] is an
    instance of a class the clause names. *)
Definition try_except {A} (m : M A) (handler : exn -> option (M A)) : M A :=
  fun st =>
    match m st with
    | (Stop (Raise e), st') =>
        match handler e with
        | Some h => h st'
        | None => (Stop (Raise e), st')
        end
    | r => r
    end.

(** [try: m  except: h], which also stops [SystemExit]. *)
Definition try_bare {A} (m : M A) (h : M A) : M A :=
  fun st =>
    match m st with
    | (Stop (Raise _), st') => h st'
    | (Stop (SysExit _), st') => h st'
    | r => r
    end.

(** Exit status the operating system sees. *)
Definition exit_status {A} (o : outcome A) : option Z :=
  match o with
  | Return _ => Some 0
  | Stop (Raise _) => Some 1
  | Stop (SysExit c) => Some (Z.land c 255)
  | Stop Blocked => None
  end.

(** ** The program *)

Section Program.

Variable cfg : config.
Variable w : world.

(** *** Primitive calls *)

(** A call into outside code: it raises what the world says, or
    happens and is recorded. *)
Definition ext (s : site) (e : event) : M unit :=
  match fault w s with
  | Some x => raise x
  | None => emit e
  end.

Definition set_err_code (v : Z) : M unit :=
  fun st => (Return tt, with_err_code v st).

Definition get_err_code : M Z := fun st => (Return (err_code st), st).

(** [queue.Queue()] *)
Definition queue_new : M unit :=
  match fault w SiteQueue with
  | Some x => raise x
  | None => fun st => (Return tt, with_state_q [] (record EvQueueNew st))
  end.

(** [state_q.put(v)]: the queue is unbounded, the call cannot block. *)
Definition queue_put (v : Z) : M unit :=
  fun st =>
    (Return tt, with_state_q (state_q st ++ [v]) (record (EvQueuePut v) st)).

(** [state_q.get()]: blocks for ever on an empty queue once the only
    producer has finished. *)
Definition queue_get : M Z :=
  match fault w SiteQueueGet with
  | Some x => raise x
  | None =>
      fun st =>
        match state_q st with
        | [] => (Stop Blocked, st)
        | v :: q => (Return v, with_state_q q (record (EvQueueGet v) st))
        end
  end.

(** [os.environ['LD_LIBRARY_PATH']] *)
Definition environ_LD : M string :=
  match environ_LD_LIBRARY_PATH w with
  | Some v => ret v
  | None => raise (KeyError "LD_LIBRARY_PATH")
  end.

(** [socket.gethostbyname(host)]; [gaierror] is an [OSError]. *)
Definition resolve (host : string) : M string :=
  match gethostbyname w host with
  | Some ip => ret ip
  | None => raise (OSError "gaierror")
  end.

(** [sock.accept()]: the next worker that dials in; blocks when no
    further worker does. *)
Definition sock_accept : M conn :=
  match fault w SiteAccept with
  | Some x => raise x
  | None =>
      fun st =>
        match arrivals w !! accepted st with
        | None => (Stop Blocked, st)
        | Some c =>
            (Return c,
             with_accepted (S (accepted st)) (record (EvSockAccept c) st))
        end
  end.

(** [sock.connect(...)] under the bare [except]: [true] when the call
    returned, [false] when it raised. *)
Definition sock_connect (addr : string) (port : Z) : M bool :=
  fun st =>
    let ok := connect_ok w (dialled st) in
    (Return ok,
     with_dialled (S (dialled st)) (record (EvSockConnect addr port ok) st)).

(** [subprocess.check_call(launch_cmd, shell=False)] *)
Definition check_call (launch_cmd : list string) : M Z :=
  match child w with
  | Exited rc => if (rc =? 0)%Z then ret 0 else raise (CalledProcessError rc)
  | Unsupervised e => raise e
  end.

(** *** [launch_train_task] *)

(** Lines 83-98: the module to run. *)
Definition train_cmd (task_type : string) (custom_script : option string)
  : exn + string :=
  if custom_script is Some _ then inr "graphstorm.run.launch"
  else if String.eqb task_type (BUILTIN_TASK_NODE_CLASSIFICATION cfg)
    then inr "graphstorm.run.gs_node_classification"
  else if String.eqb task_type (BUILTIN_TASK_NODE_REGRESSION cfg)
    then inr "graphstorm.run.gs_node_regression"
  else if String.eqb task_type (BUILTIN_TASK_EDGE_CLASSIFICATION cfg)
    then inr "graphstorm.run.gs_edge_classification"
  else if String.eqb task_type (BUILTIN_TASK_EDGE_REGRESSION cfg)
    then inr "graphstorm.run.gs_edge_regression"
  else if String.eqb task_type (BUILTIN_TASK_LINK_PREDICTION cfg)
    then inr "graphstorm.run.gs_link_prediction"
  else if String.eqb task_type (BUILTIN_TASK_MULTI_TASK cfg)
    then inr "graphstorm.run.gs_multi_task_learning"
  else inl (RuntimeError ("Unsupported task type " +:+ task_type)).

(** Line 101: [f"{num_gpus if int(num_gpus) > 0 else 1}"] *)
Definition num_trainers (num_gpus : Z) : Z :=
  if (num_gpus >? 0)%Z then num_gpus else 1.

(** Lines 100-115 *)
Definition build_launch_cmd (cmd : string) (num_gpus : Z)
    (graph_config save_model_path ip_list yaml_path : string)
    (extra_args : list string) (custom_script : option string)
    (restore_model_path : option string) (ld_library_path : string)
  : list string :=
  [ "python3"; "-u"; "-m"; cmd;
    "--num-trainers"; str_int (num_trainers num_gpus);
    "--num-servers"; "1";
    "--num-samplers"; "0";
    "--part-config"; graph_config;
    "--ip-config"; ip_list;
    "--extra-envs"; "LD_LIBRARY_PATH=" +:+ ld_library_path +:+ " ";
    "--ssh-port"; "22";
    "--do-nid-remap"; "False" ]
  ++ (if custom_script is Some s then [s] else [])
  ++ [ "--cf"; yaml_path; "--save-model-path"; save_model_path ]
  ++ (if restore_model_path is Some p then ["--restore-model-path"; p] else [])
  ++ extra_args.

(** Lines 118-126: the thread target. *)
Definition run (launch_cmd : list string) : M unit :=
  try_except
    (check_call launch_cmd ;; queue_put 0)
    (fun e =>
       match e with
       | CalledProcessError rc =>
           Some (logging ERROR "Called process error %s" ;; queue_put rc)
       | _ => Some (queue_put (-1))
       end).

(** A started thread, known by the command its target was given. *)
Definition thread : Type := list string.

Definition launch_train_task (task_type : string) (num_gpus : Z)
    (graph_config save_model_path ip_list yaml_path : string)
    (extra_args : list string) (custom_script : option string)
    (restore_model_path : option string) : M thread :=
  cmd <- match train_cmd task_type custom_script with
         | inr c => ret c
         | inl e => raise e
         end ;;
  ld <- environ_LD ;;
  let launch_cmd :=
    build_launch_cmd cmd num_gpus graph_config save_model_path ip_list
      yaml_path extra_args custom_script restore_model_path ld in
  logging DEBUG "Launch training %s" ;;
  ext SiteRunStart (EvRunStart launch_cmd) ;;
  emit (EvSleep 200%N) ;;
  ret launch_cmd.

(** [train_task.join()].  The target touches nothing but the queue,
    and the caller reads the queue only after the join, so the
    target's effects are placed at the join. *)
Definition thread_join (t : thread) : M unit :=
  match fault w SiteRunJoin with
  | Some x => raise x
  | None => run t ;; emit EvRunJoin
  end.

(** *** [run_train] *)

(** Lines 163-167 *)
Definition restore_model_path_of (a : args) : M (option string) :=
  if model_checkpoint_to_load a is Some _ then
    ext SiteMakedirs (EvMakedirs "/tmp/gsgnn_model_checkpoint/") ;;
    ret (Some "/tmp/gsgnn_model_checkpoint/")
  else ret None.

(** Lines 169-176 *)
Definition output_path_of (a : args) : string :=
  if truthy (model_artifact_s3 a) then "/tmp/gsgnn_model/"
  else "/opt/ml/model".

(** Lines 202-203 *)
Fixpoint log_host_ips (hs : list string) : M unit :=
  match hs with
  | [] => ret tt
  | host :: hs' =>
      resolve host ;;
      logging INFO "The %s IP is %s" ;;
      log_host_ips hs'
  end.

(** Lines 196-199: the level is whatever the [logging] module has
    under the upper-cased name, [None] when it has nothing. *)
Definition basic_config (a : args) : M unit :=
  match set_level_error (logging_getattr (upper (log_level a))) with
  | Some e => raise e
  | None => emit (EvLoggingBasicConfig (current_host (sm_dist_env a)))
  end.

(** Lines 188-205: world size, rank, logging, and the check that every
    host resolves. *)
Definition topology (a : args) : M (nat * nat) :=
  let train_env := sm_dist_env a in
  let world_size := length (hosts train_env) in
  emit (EvSetEnviron "WORLD_SIZE" (str_int (Z.of_nat world_size))) ;;
  host_rank <- match index (current_host train_env) (hosts train_env) with
               | Some r => ret r
               | None =>
                   raise (ValueError
                     (repr_str (current_host train_env)
                      +:+ " is not in list"))
               end ;;
  basic_config a ;;
  try_bare
    (log_host_ips (hosts train_env))
    (raise (RuntimeError
       ("Can not get host name of " +:+ repr_list (hosts train_env)))) ;;
  ret (world_size, host_rank).

(** Lines 218-220.  The assignment [client_list[i] = client] raises
    [IndexError] out of range. *)
Fixpoint accept_loop (idx : list nat) (client_list : list (option conn))
  : M (list (option conn)) :=
  match idx with
  | [] => ret client_list
  | i :: idx' =>
      client <- sock_accept ;;
      if decide (i < length client_list)%nat
      then accept_loop idx' (<[i := Some client]> client_list)
      else raise (OtherException "IndexError" false)
  end.

(** Lines 224-230, with [n] iterations of [range(30)] left. *)
Fixpoint connect_loop (addr : string) (port : Z) (n : nat) : M unit :=
  match n with
  | O => ret tt
  | S n' =>
      ok <- sock_connect addr port ;;
      if ok : bool then ret tt
      else
        logging INFO "Trying to connect to %s:%s..." ;;
        emit (EvSleep 10000%N) ;;
        connect_loop addr port n'
  end.

(** Lines 207-231.  The worker has no [client_list]; the empty list
    stands for the unbound variable. *)
Definition connect_peers (a : args) (world_size host_rank : nat)
  : M (list (option conn)) :=
  let master_port := get_job_port w (job_name (sm_dist_env a)) in
  if (host_rank =? 0)%nat then
    ext SiteSocket EvSocket ;;
    ext SiteBind (EvSockBind (master_addr a) master_port) ;;
    emit (EvSockListen world_size) ;;
    logging INFO "Master listening on %s:%s" ;;
    accept_loop (range 1 world_size) (replicate world_size None)
  else
    ext SiteSocket EvSocket ;;
    connect_loop (master_addr a) master_port 30 ;;
    logging INFO "Connected to %s:%s" ;;
    ret [].

(** Lines 236-237 *)
Fixpoint write_ip_list (path : string) (hs : list string) : M unit :=
  match hs with
  | [] => ret tt
  | host :: hs' =>
      ip <- resolve host ;;
      emit (EvWrite path (ip +:+ newline)) ;;
      write_ip_list path hs'
  end.

(** Lines 245-248 *)
Definition gs_model_artifact_s3 (a : args) : option string :=
  if truthy (model_artifact_s3 a)
  then rstrip "/" <$> model_artifact_s3 a
  else None.

(** The format of line 260; it holds a line feed. *)
Definition model_downloaded_fmt : string :=
  "Successfully downloaded the model into %s." +:+ newline
  +:+ " The model files are: %s.".

(** Lines 233-261: the ip list file and the downloads.  Returns
    [ip_list_path], [yaml_path] and [graph_config_path]. *)
Definition fetch_inputs (a : args) (world_size host_rank : nat)
    (restore_model_path : option string) : M (string * string * string) :=
  let ip_list_path := path_join (data_path a) "ip_list.txt" in
  ext SiteOpenIpList (EvOpen ip_list_path) ;;
  write_ip_list ip_list_path (hosts (sm_dist_env a)) ;;
  ext SiteSession (EvSession (region a)) ;;
  ext SiteDownloadYaml (EvDownloadYamlConfig (train_yaml_s3 a) (data_path a)) ;;
  ext SiteDownloadGraph
    (EvDownloadGraph (graph_data_s3 a) (graph_name a) host_rank world_size
       (data_path a)) ;;
  (if model_checkpoint_to_load a is Some model_checkpoint_s3 then
     ext SiteDownloadModel
       (EvDownloadModel model_checkpoint_s3 restore_model_path) ;;
     logging INFO model_downloaded_fmt
   else ret tt) ;;
  ret (ip_list_path, yaml_config_path w, graph_config_path w).

(** Lines 275-288: the body of the [try]. *)
Definition guarded (a : args) (unknownargs : list string)
    (graph_config save_model_path ip_list_path yaml_path : string)
    (restore_model_path : option string) : M unit :=
  queue_new ;;
  train_task <- launch_train_task (task_type a) (num_gpus a) graph_config
                  save_model_path ip_list_path yaml_path unknownargs
                  (custom_script a) restore_model_path ;;
  thread_join train_task ;;
  v <- queue_get ;;
  set_err_code v.

(** Lines 289-291: [except RuntimeError as e]. *)
Definition on_RuntimeError (e : exn) : option (M unit) :=
  if is_RuntimeError e
  then Some (emit (EvPrint e) ;; set_err_code (-1))
  else None.

(** Lines 274-291 *)
Definition launch_and_wait (a : args) (unknownargs : list string)
    (graph_config save_model_path ip_list_path yaml_path : string)
    (restore_model_path : option string) : M unit :=
  try_except
    (guarded a unknownargs graph_config save_model_path ip_list_path
       yaml_path restore_model_path)
    on_RuntimeError.

(** Lines 292-297 *)
Definition teardown (client_list : list (option conn)) (world_size : nat)
  : M unit :=
  ext SiteEventSet EvTaskEndSet ;;
  ext SiteKeepAliveJoin EvKeepAliveJoin ;;
  ext SiteTerminateWorkers (EvTerminateWorkers client_list world_size) ;;
  logging INFO "Master End".

(** Lines 265-297 *)
Definition master_main (a : args) (unknownargs : list string)
    (client_list : list (option conn)) (world_size : nat)
    (graph_config save_model_path ip_list_path yaml_path : string)
    (restore_model_path : option string) : M unit :=
  ext SiteBarrierMaster (EvBarrierMaster client_list world_size) ;;
  ext SiteKeepAliveStart (EvKeepAliveStart client_list world_size) ;;
  launch_and_wait a unknownargs graph_config save_model_path ip_list_path
    yaml_path restore_model_path ;;
  teardown client_list world_size.

(** Lines 299-303 *)
Definition worker_main : M unit :=
  ext SiteBarrier EvBarrier ;;
  ext SiteWaitForExit EvWaitForExit ;;
  logging INFO "Worker End".

(** Lines 305-314 *)
Definition finish (a : args) (save_model_path : string) : M unit :=
  ext SiteSockClose EvSockClose ;;
  code <- get_err_code ;;
  (if negb (code =? 0)%Z then
     logging ERROR "Task failed" ;;
     sys_exit (-1)
   else ret tt) ;;
  if truthy (gs_model_artifact_s3 a) && path_exists w save_model_path then
    match gs_model_artifact_s3 a with
    | Some s3 => ext SiteUpload (EvUploadModelArtifacts s3 save_model_path)
    | None => ret tt
    end
  else ret tt.

Definition run_train (a : args) (unknownargs : list string) : M unit :=
  restore_model_path <- restore_model_path_of a ;;
  let output_path := output_path_of a in
  ext SiteMakedirs (EvMakedirs output_path) ;;
  ext SiteSshStart EvServiceSshStart ;;
  logging INFO "Known args %s" ;;
  logging INFO "Unknown args %s" ;;
  let save_model_path := path_join output_path "model_checkpoint" in
  topo <- topology a ;;
  let '(world_size, host_rank) := topo in
  client_list <- connect_peers a world_size host_rank ;;
  paths <- fetch_inputs a world_size host_rank restore_model_path ;;
  let '(ip_list_path, yaml_path, graph_config) := paths in
  set_err_code 0 ;;
  (if (host_rank =? 0)%nat then
     master_main a unknownargs client_list world_size graph_config
       save_model_path ip_list_path yaml_path restore_model_path
   else worker_main) ;;
  finish a save_model_path.

End Program.

(** ** Concrete inputs

    A three-node job, as SageMaker describes it to each container. *)

Definition no_fault : site -> option exn := fun _ => None.

Definition env3 (me : string) : train_env :=
  {| hosts := ["algo-1"; "algo-2"; "algo-3"]; current_host := me;
     job_name := "job-42" |}.

Definition args3_task (task me : string) (out : option string) : args :=
  {| task_type := task; graph_name := "g";
     graph_data_s3 := "s3://b/graph"; train_yaml_s3 := "s3://b/train.yaml";
     model_artifact_s3 := out; model_checkpoint_to_load := None;
     custom_script := None; data_path := "/opt/ml/data"; num_gpus := 4;
     sm_dist_env := env3 me; region := "us-east-1";
     master_addr := "10.0.0.1"; log_level := "info" |}.

Definition args3 (me : string) (out : option string) : args :=
  args3_task "node_classification" me out.

Definition make_world3 (c : child_result) (f : site -> option exn)
    (dial : nat -> bool) (ld : option string) : world :=
  {| gethostbyname := fun h => Some ("ip-of-" +:+ h);
     get_job_port := fun _ => 12345;
     arrivals := [7; 5]%nat;
     connect_ok := dial;
     environ_LD_LIBRARY_PATH := ld;
     child := c;
     path_exists := fun _ => true;
     yaml_config_path := "/opt/ml/data/train.yaml";
     graph_config_path := "/opt/ml/data/g.json";
     fault := f |}.

(** The master is up after two refused attempts. *)
Definition world3 (c : child_result) (f : site -> option exn) : world :=
  make_world3 c f (fun n => (2 <=? n)%nat) (Some "/usr/local/lib").

(** [LD_LIBRARY_PATH] is not set in the container. *)
Definition world_no_ld : world :=
  make_world3 (Exited 0) no_fault (fun n => (2 <=? n)%nat) None.

(** The master never listens: every dial is refused.  The barrier
    helper then finds the socket unconnected. *)
Definition barrier_unconnected (s : site) : option exn :=
  match s with
  | SiteBarrier => Some (OSError "[Errno 32] Broken pipe")
  | _ => None
  end.

Definition world_refused : world :=
  make_world3 (Exited 0) barrier_unconnected (fun _ => false)
    (Some "/usr/local/lib").

(** Starting the thread raises [NotImplementedError], a class derived
    from [RuntimeError]. *)
Definition start_not_implemented (s : site) : option exn :=
  match s with
  | SiteRunStart => Some (OtherException "NotImplementedError" true)
  | _ => None
  end.

(** The three-node job with another log level. *)
Definition args3_level (level me : string) : args :=
  {| task_type := "node_classification"; graph_name := "g";
     graph_data_s3 := "s3://b/graph"; train_yaml_s3 := "s3://b/train.yaml";
     model_artifact_s3 := None; model_checkpoint_to_load := None;
     custom_script := None; data_path := "/opt/ml/data"; num_gpus := 4;
     sm_dist_env := env3 me; region := "us-east-1";
     master_addr := "10.0.0.1"; log_level := level |}.

(** The three events of one refused dial (lines 226-230). *)
Definition refused (addr : string) (port : Z) : list event :=
  [ EvSockConnect addr port false;
    EvLog INFO "Trying to connect to %s:%s...";
    EvSleep 10000%N ].

(** ** Specification vocabulary *)

(** [wp m Q E st]: run from [st], [m] ends in a state satisfying [Q]
    when it returns and [E] when it stops. *)
Definition wp {A} (m : M A) (Q : A -> state -> Prop)
    (E : stop -> state -> Prop) (st : state) : Prop :=
  match m st with
  | (Return a, st') => Q a st'
  | (Stop x, st') => E x st'
  end.

(** Kinds of events the claims speak about. *)
Definition is_queue_put (e : event) : bool :=
  match e with EvQueuePut _ => true | _ => false end.
Definition is_queue_get (e : event) : bool :=
  match e with EvQueueGet _ => true | _ => false end.
Definition is_print (e : event) : bool :=
  match e with EvPrint _ => true | _ => false end.
Definition is_task_end_set (e : event) : bool :=
  match e with EvTaskEndSet => true | _ => false end.
Definition is_keep_alive_join (e : event) : bool :=
  match e with EvKeepAliveJoin => true | _ => false end.
Definition is_terminate (e : event) : bool :=
  match e with EvTerminateWorkers _ _ => true | _ => false end.
Definition is_sock_close (e : event) : bool :=
  match e with EvSockClose => true | _ => false end.
Definition is_upload (e : event) : bool :=
  match e with EvUploadModelArtifacts _ _ => true | _ => false end.
Definition is_accept (e : event) : bool :=
  match e with EvSockAccept _ => true | _ => false end.
Definition is_barrier_master (e : event) : bool :=
  match e with EvBarrierMaster _ _ => true | _ => false end.
Definition is_connect (e : event) : bool :=
  match e with EvSockConnect _ _ _ => true | _ => false end.

(** Events of the phase before the barrier: none of the launch,
    teardown or upload calls. *)
Definition setup_event (e : event) : bool :=
  negb (is_queue_put e || is_queue_get e || is_print e || is_task_end_set e
        || is_keep_alive_join e || is_terminate e || is_sock_close e
        || is_upload e || is_barrier_master e).

(** Every [Q] event of the trace has a [P] event somewhere before it. *)
Definition precedes (P Q : event -> bool) (tr : list event) : Prop :=
  forall l1 e l2, tr = l1 ++ e :: l2 -> Q e = true -> existsb P l1 = true.

(** No [P] event of the trace comes before a [Q] event. *)
Definition never_before (P Q : event -> bool) (tr : list event) : Prop :=
  forall l1 e l2, tr = l1 ++ e :: l2 -> Q e = true -> existsb P l1 = false.

(** The value the supervising thread reports for the child's fate: its
    exit status, the [returncode] carried by a [CalledProcessError], or
    the sentinel. *)
Definition delivered (w : world) : Z :=
  match child w with
  | Exited rc => rc
  | Unsupervised (CalledProcessError rc) => rc
  | Unsupervised _ => -1
  end.

(** Number of events of a kind. *)
Definition count (P : event -> bool) (tr : list event) : nat :=
  length (List.filter P tr).

(** Events a loop of the setup phase may add without touching the
    count of accepted connections. *)
Definition plain_event (e : event) : bool :=
  setup_event e && negb (is_accept e).

(** A state of the setup phase: only setup events so far. *)
Definition Setup (st : state) : Prop :=
  forallb setup_event (trace st) = true.

(** A setup state in which [n] connections have been accepted. *)
Definition Accepted (n : nat) (st : state) : Prop :=
  Setup st /\ count is_accept (trace st) = n /\ accepted st = n.

(** The log level is one [logging.basicConfig] takes (line 196). *)
Definition valid_log_level (a : args) : Prop :=
  set_level_error (logging_getattr (upper (log_level a))) = None.

(** Why a run can stop before the barrier: an outside call raised, the
    current host is not in the host list, the log level is refused, a
    host does not resolve, or the master waits for a worker that never
    dials in. *)
Definition setup_stop (w : world) (a : args) (x : stop) : Prop :=
  (exists s e, fault w s = Some e /\ x = Raise e)
  \/ (exists e,
        set_level_error (logging_getattr (upper (log_level a))) = Some e
        /\ x = Raise e)
  \/ (index (current_host (sm_dist_env a)) (hosts (sm_dist_env a)) = None
      /\ exists m, x = Raise (ValueError m))
  \/ ((exists h, In h (hosts (sm_dist_env a)) /\ gethostbyname w h = None)
      /\ exists e, x = Raise e)
  \/ (x = Blocked
      /\ index (current_host (sm_dist_env a)) (hosts (sm_dist_env a)) = Some 0%nat
      /\ (length (arrivals w) < length (hosts (sm_dist_env a)) - 1)%nat).

(** The connection list the master holds at the barrier: one slot per
    rank, slot 0 empty, slot [i] the [i]-th connection accepted. *)
Definition Clients (w : world) (world_size : nat)
    (client_list : list (option conn)) : Prop :=
  length client_list = world_size
  /\ client_list !! 0%nat = Some None
  /\ forall i, (1 <= i < world_size)%nat ->
       exists c, arrivals w !! (i - 1)%nat = Some c
                 /\ client_list !! i = Some (Some c).

(** Executable forms of [precedes] and [never_before]; [seen] tells
    whether a [P] event has already gone by. *)
Fixpoint precedes_from (seen : bool) (P Q : event -> bool) (tr : list event)
  : bool :=
  match tr with
  | [] => true
  | e :: tr' =>
      (if Q e then seen else true) && precedes_from (seen || P e) P Q tr'
  end.

Fixpoint never_from (seen : bool) (P Q : event -> bool) (tr : list event)
  : bool :=
  match tr with
  | [] => true
  | e :: tr' =>
      (if Q e then negb seen else true) && never_from (seen || P e) P Q tr'
  end.

(** The result of the workload is settled: read from the queue, or set
    by the handler of line 289, which prints the exception first. *)
Definition is_result_known (e : event) : bool :=
  is_queue_get e || is_print e.

(** The order of the master's last steps (lines 287-305). *)
Definition teardown_order (tr : list event) : Prop :=
  never_before is_terminate is_queue_get tr
  /\ precedes is_result_known is_terminate tr
  /\ precedes is_task_end_set is_keep_alive_join tr
  /\ precedes is_task_end_set is_terminate tr
  /\ precedes is_keep_alive_join is_terminate tr
  /\ precedes is_terminate is_sock_close tr.

Definition teardown_order_b (tr : list event) : bool :=
  never_from false is_terminate is_queue_get tr
  && precedes_from false is_result_known is_terminate tr
  && precedes_from false is_task_end_set is_keep_alive_join tr
  && precedes_from false is_task_end_set is_terminate tr
  && precedes_from false is_keep_alive_join is_terminate tr
  && precedes_from false is_terminate is_sock_close tr.

(** What a run must satisfy when it has called the upload helper: the
    error code is 0, an output destination was given, the saved model
    is there, and the run returned. *)
Definition upload_justified (w : world) (a : args) (o : outcome unit)
    (st : state) : Prop :=
  existsb is_upload (trace st) = true ->
  err_code st = 0
  /\ truthy (model_artifact_s3 a) = true
  /\ path_exists w (path_join (output_path_of a) "model_checkpoint") = true
  /\ o = Return tt.

(** Once the socket is closed a nonzero error code ends the process
    with [sys.exit(-1)]. *)
Definition failure_exits (o : outcome unit) (st : state) : Prop :=
  existsb is_sock_close (trace st) = true ->
  err_code st <> 0 ->
  o = Stop (SysExit (-1)).

(** An environment in which nothing outside the program fails, and a
    configuration the setup accepts: no outside call raises, every
    host resolves, and the log level is one [logging.basicConfig]
    takes. *)
Definition sound_env (w : world) (a : args) : Prop :=
  (forall s, fault w s = None)
  /\ (forall h, In h (hosts (sm_dist_env a)) -> is_Some (gethostbyname w h))
  /\ valid_log_level a.

(** The task can be launched: the module to run is determined and the
    variable read at line 106 is set. *)
Definition launchable (cfg : config) (w : world) (a : args) : Prop :=
  (is_Some (custom_script a) \/ In (task_type a) (builtin_tasks cfg))
  /\ is_Some (environ_LD_LIBRARY_PATH w).

(** Every worker dials in. *)
Definition workers_arrive (w : world) (a : args) : Prop :=
  (length (hosts (sm_dist_env a)) - 1 <= length (arrivals w))%nat.

(** How a run of the master ends in a sound environment: the error
    code is what the supervising thread delivered; with 0 the run
    returns, having uploaded exactly when line 313 says so; with
    anything else it ends in [sys.exit(-1)] without an upload.  In both
    cases the workers were terminated and the socket closed. *)
Definition master_outcome (w : world) (a : args) (o : outcome unit)
    (st : state) : Prop :=
  err_code st = delivered w
  /\ existsb is_terminate (trace st) = true
  /\ existsb is_sock_close (trace st) = true
  /\ ((delivered w = 0
       /\ o = Return tt
       /\ existsb is_upload (trace st)
          = truthy (gs_model_artifact_s3 a)
            && path_exists w (path_join (output_path_of a) "model_checkpoint"))
      \/ (delivered w <> 0
          /\ o = Stop (SysExit (-1))
          /\ existsb is_upload (trace st) = false)).

(** The worker's last calls (lines 299-305): it passes the barrier,
    waits in [wait_for_exit] until the master's end command arrives or
    the connection is found closed, and only then closes its socket. *)
Definition worker_end : list event :=
  [EvBarrier; EvWaitForExit; EvLog INFO "Worker End"; EvSockClose].

(** How a run of a worker ends in a sound environment: after the
    calls of [worker_end], followed at most by the upload of line
    314. *)
Definition worker_outcome (o : outcome unit) (st : state) : Prop :=
  err_code st = 0
  /\ o = Return tt
  /\ existsb is_sock_close (trace st) = true
  /\ existsb is_terminate (trace st) = false
  /\ existsb is_queue_get (trace st) = false
  /\ exists pre post,
       trace st = pre ++ worker_end ++ post
       /\ existsb is_sock_close pre = false
       /\ forallb is_upload post = true
       /\ (length post <= 1)%nat.

(** *** Vocabulary for the whole-run properties *)

Definition is_run_start (e : event) : bool :=
  match e with EvRunStart _ => true | _ => false end.
Definition is_keep_alive_start (e : event) : bool :=
  match e with EvKeepAliveStart _ _ => true | _ => false end.

(** Calls only the master branch makes (lines 212-220 and 265-296). *)
Definition is_master_call (e : event) : bool :=
  match e with
  | EvSockBind _ _ | EvSockListen _ | EvSockAccept _
  | EvBarrierMaster _ _ | EvKeepAliveStart _ _ | EvQueueNew | EvRunStart _
  | EvRunJoin | EvQueuePut _ | EvQueueGet _ | EvPrint _ | EvTaskEndSet
  | EvKeepAliveJoin | EvTerminateWorkers _ _ => true
  | _ => false
  end.

(** Calls only the worker branch makes (lines 223-230 and 299-302). *)
Definition is_worker_call (e : event) : bool :=
  match e with
  | EvSockConnect _ _ _ | EvBarrier | EvWaitForExit => true
  | EvSleep ms => (ms =? 10000)%N
  | _ => false
  end.

(** Local names of [run_train]. *)
Definition ip_list_path_of (a : args) : string :=
  path_join (data_path a) "ip_list.txt".

Definition save_model_path_of (a : args) : string :=
  path_join (output_path_of a) "model_checkpoint".

Definition restore_path_for (a : args) : option string :=
  if model_checkpoint_to_load a is Some _
  then Some "/tmp/gsgnn_model_checkpoint/" else None.

Definition master_port_of (w : world) (a : args) : Z :=
  get_job_port w (job_name (sm_dist_env a)).

Definition is_master (a : args) : bool :=
  match index (current_host (sm_dist_env a)) (hosts (sm_dist_env a)) with
  | Some O => true
  | _ => false
  end.

(** The calls lines 160-261 can make, with the arguments they can have:
    what a trace holds when the run reaches line 263. *)
Definition during_setup (w : world) (a : args) (e : event) : bool :=
  let env := sm_dist_env a in
  match e with
  | EvMakedirs p =>
      String.eqb p (output_path_of a)
      || match restore_path_for a with
         | Some r => String.eqb p r
         | None => false
         end
  | EvServiceSshStart => true
  | EvSetEnviron k v =>
      String.eqb k "WORLD_SIZE"
      && String.eqb v (str_int (Z.of_nat (length (hosts env))))
  | EvLoggingBasicConfig h => String.eqb h (current_host env)
  | EvLog INFO _ => true
  | EvSocket => true
  | EvSockBind addr port =>
      is_master a && String.eqb addr (master_addr a)
      && (port =? master_port_of w a)%Z
  | EvSockListen n => is_master a && (n =? length (hosts env))%nat
  | EvSockAccept _ => is_master a
  | EvSockConnect addr port _ =>
      negb (is_master a) && String.eqb addr (master_addr a)
      && (port =? master_port_of w a)%Z
  | EvSleep ms => negb (is_master a) && (ms =? 10000)%N
  | EvOpen p => String.eqb p (ip_list_path_of a)
  | EvWrite p _ => String.eqb p (ip_list_path_of a)
  | EvSession r => String.eqb r (region a)
  | EvDownloadYamlConfig s l =>
      String.eqb s (train_yaml_s3 a) && String.eqb l (data_path a)
  | EvDownloadGraph s n r ws l =>
      String.eqb s (graph_data_s3 a) && String.eqb n (graph_name a)
      && match index (current_host env) (hosts env) with
         | Some r' => (r =? r')%nat
         | None => false
         end
      && (ws =? length (hosts env))%nat
      && String.eqb l (data_path a)
  | EvDownloadModel s l =>
      match model_checkpoint_to_load a, l with
      | Some s', Some p =>
          String.eqb s s' && String.eqb p "/tmp/gsgnn_model_checkpoint/"
      | _, _ => false
      end
  | _ => false
  end.

Definition Pre (w : world) (a : args) (st : state) : Prop :=
  forallb (during_setup w a) (trace st) = true.

(** The command of the thread [run_train] starts. *)
Definition launched_command (cfg : config) (w : world) (a : args)
    (extra : list string) (t : list string) : Prop :=
  exists c ld,
    train_cmd cfg (task_type a) (custom_script a) = inr c
    /\ environ_LD_LIBRARY_PATH w = Some ld
    /\ t = build_launch_cmd c (num_gpus a) (graph_config_path w)
             (save_model_path_of a) (ip_list_path_of a) (yaml_config_path w)
             extra (custom_script a) (restore_path_for a) ld.

(** The master's steps from the barrier to the launch, in order. *)
Definition launch_order (tr : list event) : Prop :=
  precedes is_barrier_master is_keep_alive_start tr
  /\ precedes is_keep_alive_start is_run_start tr
  /\ precedes is_run_start is_queue_put tr
  /\ precedes is_queue_put is_queue_get tr.

Definition launch_order_b (tr : list event) : bool :=
  precedes_from false is_barrier_master is_keep_alive_start tr
  && precedes_from false is_keep_alive_start is_run_start tr
  && precedes_from false is_run_start is_queue_put tr
  && precedes_from false is_queue_put is_queue_get tr.

(** A string of [n] slashes. *)
Fixpoint slashes (n : nat) : string :=
  match n with
  | O => EmptyString
  | S n' => String "/" (slashes n')
  end.


(** A world in which only one of the two workers dials in. *)
Definition world_one_arrival : world :=
  {| gethostbyname := fun h => Some ("ip-of-" +:+ h);
     get_job_port := fun _ => 12345;
     arrivals := [7]%nat;
     connect_ok := fun _ => true;
     environ_LD_LIBRARY_PATH := Some "/usr/local/lib";
     child := Exited 0;
     path_exists := fun _ => true;
     yaml_config_path := "/opt/ml/data/train.yaml";
     graph_config_path := "/opt/ml/data/g.json";
     fault := no_fault |}.

(** The addresses of the hosts up to the first one that does not
    resolve. *)
Fixpoint resolved_prefix (w : world) (hs : list string) : list string :=
  match hs with
  | [] => []
  | h :: hs' =>
      match gethostbyname w h with
      | Some ip => ip :: resolved_prefix w hs'
      | None => []
      end
  end.

Definition all_resolve (w : world) (hs : list string) : bool :=
  forallb (fun h => if gethostbyname w h is Some _ then true else false) hs.

(** A state after further calls. *)
Definition record_all (evs : list event) (st : state) : state :=
  fold_left (fun s e => record e s) evs st.

(** The calls lines 263-314 can make, by role. *)
Definition after_setup (a : args) (e : event) : bool :=
  match e with
  | EvLog _ _ | EvSockClose | EvUploadModelArtifacts _ _ => true
  | EvBarrier | EvWaitForExit => negb (is_master a)
  | EvSleep ms => is_master a && (ms =? 200)%N
  | EvBarrierMaster _ _ | EvKeepAliveStart _ _ | EvQueueNew | EvRunStart _
  | EvRunJoin | EvQueuePut _ | EvQueueGet _ | EvPrint _ | EvTaskEndSet
  | EvKeepAliveJoin | EvTerminateWorkers _ _ => is_master a
  | _ => false
  end.

Definition run_event (w : world) (a : args) (e : event) : bool :=
  during_setup w a e || after_setup a e.

(** What the end of a run says about the error code and the socket. *)
Definition run_end (o : outcome unit) (st : state) : Prop :=
  match o with
  | Return _ => err_code st = 0 /\ count is_sock_close (trace st) = 1%nat
  | Stop (SysExit c) =>
      c = -1 /\ err_code st <> 0 /\ count is_sock_close (trace st) = 1%nat
  | Stop _ => (count is_sock_close (trace st) <= 1)%nat
  end.

(** What a run that went through the handler of line 289 looks like,
    and what a run that read the queue looks like. *)
Definition result_settled (w : world) (o : outcome unit) (st : state) : Prop :=
  (forall e, In (EvPrint e) (trace st) ->
     is_RuntimeError e = true /\ err_code st = -1
     /\ (forall u, o <> Return u)
     /\ existsb is_queue_get (trace st) = false)
  /\ (forall v, In (EvQueueGet v) (trace st) ->
        v = delivered w /\ err_code st = v /\ state_q st = []
        /\ existsb is_print (trace st) = false).

(** The calls of lines 234-261 when each of them returns, for the host
    of rank [r]. *)
Definition fetched_events (w : world) (a : args) (r : nat) : list event :=
  EvOpen (ip_list_path_of a)
  :: map (fun ip => EvWrite (ip_list_path_of a) (ip +:+ newline))
       (resolved_prefix w (hosts (sm_dist_env a)))
  ++ [EvSession (region a);
      EvDownloadYamlConfig (train_yaml_s3 a) (data_path a);
      EvDownloadGraph (graph_data_s3 a) (graph_name a) r
        (length (hosts (sm_dist_env a))) (data_path a)]
  ++ match model_checkpoint_to_load a with
     | Some s =>
         [EvDownloadModel s (restore_path_for a);
          EvLog INFO model_downloaded_fmt]
     | None => []
     end.

(** A state whose latest calls are those of lines 234-261. *)
Definition Fetched (w : world) (a : args) (r : nat) (st : state) : Prop :=
  all_resolve w (hosts (sm_dist_env a)) = true
  /\ exists pre, trace st = pre ++ fetched_events w a r.

(** Calls that lines 264-314 make and lines 160-261 do not. *)
Definition is_late_call (e : event) : bool :=
  match e with
  | EvBarrierMaster _ _ | EvKeepAliveStart _ _ | EvQueueNew | EvRunStart _
  | EvRunJoin | EvQueuePut _ | EvQueueGet _ | EvPrint _ | EvTaskEndSet
  | EvKeepAliveJoin | EvTerminateWorkers _ _ | EvBarrier | EvWaitForExit
  | EvSockClose | EvUploadModelArtifacts _ _ => true
  | _ => false
  end.

(** A trace in which the calls of lines 234-261 all returned, followed
    by [post]. *)
Definition fetched_then (w : world) (a : args) (tr post : list event) : Prop :=
  all_resolve w (hosts (sm_dist_env a)) = true
  /\ exists r pre,
       index (current_host (sm_dist_env a)) (hosts (sm_dist_env a)) = Some r
       /\ tr = pre ++ fetched_events w a r ++ post.

(** ** Rules for [wp] *)

Lemma wp_run {A} (m : M A) Q E st o st' :
  wp m Q E st -> m st = (o, st') ->
  match o with Return a => Q a st' | Stop x => E x st' end.
Proof. unfold wp. intros H Heq. rewrite Heq in H. exact H. Qed.

Lemma wp_snd {A} (m : M A) (G : state -> Prop) st :
  wp m (fun _ => G) (fun _ => G) st -> G (m st).2.
Proof. unfold wp. destruct (m st) as [[a|x] st']; auto. Qed.

Lemma wp_both {A} (m : M A) (G : outcome A -> state -> Prop) st :
  wp m (fun a => G (Return a)) (fun x => G (Stop x)) st ->
  G (m st).1 (m st).2.
Proof. unfold wp. destruct (m st) as [[a|x] st']; auto. Qed.

Lemma wp_mono {A} (m : M A) (Q Q' : A -> state -> Prop)
    (E E' : stop -> state -> Prop) st :
  wp m Q E st ->
  (forall a st', Q a st' -> Q' a st') ->
  (forall x st', E x st' -> E' x st') ->
  wp m Q' E' st.
Proof.
  unfold wp. destruct (m st) as [[a|x] st']; intros H HQ HE; auto.
Qed.

Lemma wp_ret {A} (a : A) Q E st : Q a st -> wp (ret a) Q E st.
Proof. exact (fun H => H). Qed.

Lemma wp_bind {A B} (m : M A) (k : A -> M B) Q E st :
  wp m (fun a => wp (k a) Q E) E st -> wp (bind m k) Q E st.
Proof. unfold wp, bind. destruct (m st) as [[a|x] st']; auto. Qed.

Lemma wp_bind_inv {A B} (m : M A) (k : A -> M B) Q E st :
  wp (bind m k) Q E st -> wp m (fun a => wp (k a) Q E) E st.
Proof. unfold wp, bind. destruct (m st) as [[a|x] st']; auto. Qed.

Lemma wp_raise {A} (e : exn) (Q : A -> state -> Prop) E st :
  E (Raise e) st -> wp (raise e) Q E st.
Proof. exact (fun H => H). Qed.

Lemma wp_sys_exit {A} (c : Z) (Q : A -> state -> Prop) E st :
  E (SysExit c) st -> wp (sys_exit c) Q E st.
Proof. exact (fun H => H). Qed.

Lemma wp_emit (e : event) Q E st : Q tt (record e st) -> wp (emit e) Q E st.
Proof. exact (fun H => H). Qed.

Lemma wp_logging lvl fmt Q E st :
  Q tt (record (EvLog lvl fmt) st) -> wp (logging lvl fmt) Q E st.
Proof. exact (fun H => H). Qed.

Lemma wp_try_except {A} (m : M A) handler Q E st :
  wp m Q
    (fun x st' =>
       match x with
       | Raise e =>
           match handler e with
           | Some h => wp h Q E st'
           | None => E (Raise e) st'
           end
       | _ => E x st'
       end) st ->
  wp (try_except m handler) Q E st.
Proof.
  unfold wp, try_except. destruct (m st) as [[a|[e|c|]] st']; auto.
  destruct (handler e); auto.
Qed.

Lemma wp_try_bare {A} (m h : M A) Q E st :
  wp m Q
    (fun x st' =>
       match x with
       | Blocked => E Blocked st'
       | _ => wp h Q E st'
       end) st ->
  wp (try_bare m h) Q E st.
Proof.
  unfold wp, try_bare. destruct (m st) as [[a|[e|c|]] st']; auto.
Qed.

Section Rules.

Variable w : world.

Lemma wp_ext s e Q E st :
  (forall x, fault w s = Some x -> E (Raise x) st) ->
  (fault w s = None -> Q tt (record e st)) ->
  wp (ext w s e) Q E st.
Proof.
  unfold ext. intros Hx Hn. destruct (fault w s); [apply Hx|apply Hn]; auto.
Qed.

Lemma wp_set_err_code v Q E st :
  Q tt (with_err_code v st) -> wp (set_err_code v) Q E st.
Proof. exact (fun H => H). Qed.

Lemma wp_get_err_code Q E st :
  Q (err_code st) st -> wp get_err_code Q E st.
Proof. exact (fun H => H). Qed.

Lemma wp_queue_new Q E st :
  (forall x, fault w SiteQueue = Some x -> E (Raise x) st) ->
  (fault w SiteQueue = None ->
   Q tt (with_state_q [] (record EvQueueNew st))) ->
  wp (queue_new w) Q E st.
Proof.
  unfold queue_new. intros Hx Hn.
  destruct (fault w SiteQueue); [apply Hx|apply Hn]; auto.
Qed.

Lemma wp_queue_put v Q E st :
  Q tt (with_state_q (state_q st ++ [v]) (record (EvQueuePut v) st)) ->
  wp (queue_put v) Q E st.
Proof. exact (fun H => H). Qed.

Lemma wp_queue_get Q E st :
  (forall x, fault w SiteQueueGet = Some x -> E (Raise x) st) ->
  (fault w SiteQueueGet = None -> state_q st = [] -> E Blocked st) ->
  (forall v q, fault w SiteQueueGet = None -> state_q st = v :: q ->
     Q v (with_state_q q (record (EvQueueGet v) st))) ->
  wp (queue_get w) Q E st.
Proof.
  unfold queue_get, wp. intros Hx Hb Hv.
  destruct (fault w SiteQueueGet); [apply Hx; auto|].
  destruct (state_q st) eqn:Hq; [apply Hb|apply Hv]; auto.
Qed.

Lemma wp_environ_LD Q E st :
  (environ_LD_LIBRARY_PATH w = None ->
   E (Raise (KeyError "LD_LIBRARY_PATH")) st) ->
  (forall v, environ_LD_LIBRARY_PATH w = Some v -> Q v st) ->
  wp (environ_LD w) Q E st.
Proof.
  unfold environ_LD. intros Hn Hv.
  destruct (environ_LD_LIBRARY_PATH w); [apply Hv|apply Hn]; auto.
Qed.

Lemma wp_resolve host Q E st :
  (gethostbyname w host = None -> E (Raise (OSError "gaierror")) st) ->
  (forall ip, gethostbyname w host = Some ip -> Q ip st) ->
  wp (resolve w host) Q E st.
Proof.
  unfold resolve. intros Hn Hv.
  destruct (gethostbyname w host); [apply Hv|apply Hn]; auto.
Qed.

Lemma wp_sock_accept Q E st :
  (forall x, fault w SiteAccept = Some x -> E (Raise x) st) ->
  (fault w SiteAccept = None -> arrivals w !! accepted st = None ->
   E Blocked st) ->
  (forall c, fault w SiteAccept = None ->
     arrivals w !! accepted st = Some c ->
     Q c (with_accepted (S (accepted st)) (record (EvSockAccept c) st))) ->
  wp (sock_accept w) Q E st.
Proof.
  unfold sock_accept, wp. intros Hx Hb Hv.
  destruct (fault w SiteAccept); [apply Hx; auto|].
  destruct (arrivals w !! accepted st) eqn:Hq; [apply Hv|apply Hb]; auto.
Qed.

Lemma wp_sock_connect addr port Q E st :
  Q (connect_ok w (dialled st))
    (with_dialled (S (dialled st))
       (record (EvSockConnect addr port (connect_ok w (dialled st))) st)) ->
  wp (sock_connect w addr port) Q E st.
Proof. exact (fun H => H). Qed.

Lemma wp_basic_config a Q (E : stop -> state -> Prop) st :
  (forall e,
     set_level_error (logging_getattr (upper (log_level a))) = Some e ->
     E (Raise e) st) ->
  (valid_log_level a ->
   Q tt (record (EvLoggingBasicConfig (current_host (sm_dist_env a))) st)) ->
  wp (basic_config a) Q E st.
Proof.
  unfold basic_config, valid_log_level. intros He Hok.
  destruct (set_level_error _) as [e|]; [apply He|apply Hok]; reflexivity.
Qed.

Lemma wp_check_call cmd Q E st :
  (child w = Exited 0 -> Q 0 st) ->
  (forall rc, child w = Exited rc -> rc <> 0 ->
     E (Raise (CalledProcessError rc)) st) ->
  (forall e, child w = Unsupervised e -> E (Raise e) st) ->
  wp (check_call w cmd) Q E st.
Proof.
  unfold check_call. intros H0 Hrc He.
  destruct (child w) as [rc|e]; [|apply He; auto].
  destruct (Z.eqb_spec rc 0) as [->|Hne]; [apply H0|apply Hrc]; auto.
Qed.

End Rules.

(** ** Command selection and assembly *)

Section LaunchCommand.

Variable cfg : config.

Lemma train_cmd_custom task s :
  train_cmd cfg task (Some s) = inr "graphstorm.run.launch".
Proof. reflexivity. Qed.

Lemma train_cmd_unsupported task :
  ~ In task (builtin_tasks cfg) ->
  train_cmd cfg task None
  = inl (RuntimeError ("Unsupported task type " +:+ task)).
Proof.
  unfold builtin_tasks, train_cmd. cbn [In]. intros Hn.
  repeat match goal with
         | |- context [String.eqb task ?c] =>
             destruct (String.eqb_spec task c) as [->|_];
             [exfalso; apply Hn; tauto|]
         end.
  reflexivity.
Qed.

Lemma train_cmd_builtin task :
  In task (builtin_tasks cfg) -> exists c, train_cmd cfg task None = inr c.
Proof.
  unfold builtin_tasks, train_cmd. cbn [In]. intros Hin.
  repeat match goal with
         | |- context [String.eqb task ?c] =>
             destruct (String.eqb_spec task c) as [_|?]; [eauto|]
         end.
  exfalso. intuition congruence.
Qed.

Lemma train_cmd_raises task script e :
  train_cmd cfg task script = inl e ->
  script = None /\ ~ In task (builtin_tasks cfg).
Proof.
  destruct script as [s|]; [discriminate|]. intros He. split; [reflexivity|].
  intros Hin. destruct (train_cmd_builtin task Hin) as [c Hc]. congruence.
Qed.

Lemma num_trainers_pos n : 0 < n -> num_trainers n = n.
Proof. unfold num_trainers. destruct (Z.gtb_spec n 0); lia. Qed.

Lemma num_trainers_nonpos n : n <= 0 -> num_trainers n = 1.
Proof. unfold num_trainers. destruct (Z.gtb_spec n 0); lia. Qed.

Lemma num_trainers_ge_1 n : 1 <= num_trainers n.
Proof. unfold num_trainers. destruct (Z.gtb_spec n 0); lia. Qed.

End LaunchCommand.

(** ** Symbolic execution *)

Ltac wp_step :=
  lazymatch goal with
  | |- wp (bind _ _) _ _ _ => apply wp_bind
  | |- wp (ret _) _ _ _ => apply wp_ret
  | |- wp (raise _) _ _ _ => apply wp_raise
  | |- wp (sys_exit _) _ _ _ => apply wp_sys_exit
  | |- wp (emit _) _ _ _ => apply wp_emit
  | |- wp (logging _ _) _ _ _ => apply wp_logging
  | |- wp (set_err_code _) _ _ _ => apply wp_set_err_code
  | |- wp get_err_code _ _ _ => apply wp_get_err_code
  | |- wp (queue_put _) _ _ _ => apply wp_queue_put
  | |- wp (sock_connect _ _ _) _ _ _ => apply wp_sock_connect
  | |- wp (try_except _ _) _ _ _ => apply wp_try_except
  | |- wp (try_bare _ _) _ _ _ => apply wp_try_bare
  | |- wp (ext _ _ _) _ _ _ =>
      let x := fresh "x" in let Hf := fresh "Hfault" in
      apply wp_ext; [intros x Hf|intros Hf]
  | |- wp (queue_new _) _ _ _ =>
      let x := fresh "x" in let Hf := fresh "Hfault" in
      apply wp_queue_new; [intros x Hf|intros Hf]
  | |- wp (queue_get _) _ _ _ =>
      let x := fresh "x" in let Hf := fresh "Hfault" in
      let v := fresh "v" in let q := fresh "q" in let Hq := fresh "Hq" in
      apply wp_queue_get; [intros x Hf|intros Hf Hq|intros v q Hf Hq]
  | |- wp (environ_LD _) _ _ _ =>
      let v := fresh "ld" in let Hld := fresh "Hld" in
      apply wp_environ_LD; [intros Hld|intros v Hld]
  | |- wp (resolve _ _) _ _ _ =>
      let ip := fresh "ip" in let Hip := fresh "Hip" in
      apply wp_resolve; [intros Hip|intros ip Hip]
  | |- wp (sock_accept _) _ _ _ =>
      let x := fresh "x" in let Hf := fresh "Hfault" in
      let c := fresh "c" in let Hc := fresh "Hc" in
      apply wp_sock_accept; [intros x Hf|intros Hf Hc|intros c Hf Hc]
  | |- wp (basic_config _) _ _ _ =>
      let e := fresh "e" in let Hl := fresh "Hlevel" in
      apply wp_basic_config; [intros e Hl|intros Hl]
  | |- wp (check_call _ _) _ _ _ =>
      let rc := fresh "rc" in let Hch := fresh "Hchild" in
      let Hrc := fresh "Hrc" in let e := fresh "e" in
      apply wp_check_call; [intros Hch|intros rc Hch Hrc|intros e Hch]
  end; cbv beta.

Ltac wp_steps := repeat wp_step.

Section LaunchTask.

Variable cfg : config.
Variable w : world.

(** What [launch_train_task] does, in every world: it raises at line
    98, or on the unset variable, or because the thread does not
    start; or it returns the started thread, whose command is the one
    [build_launch_cmd] assembles. *)
Lemma wp_launch_train_task task n gc sp ip yp extra script rp Q
    (E : stop -> state -> Prop) st :
  (forall e, train_cmd cfg task script = inl e -> E (Raise e) st) ->
  (forall c, train_cmd cfg task script = inr c ->
     environ_LD_LIBRARY_PATH w = None ->
     E (Raise (KeyError "LD_LIBRARY_PATH")) st) ->
  (forall c ld x, train_cmd cfg task script = inr c ->
     environ_LD_LIBRARY_PATH w = Some ld ->
     fault w SiteRunStart = Some x ->
     E (Raise x) (record (EvLog DEBUG "Launch training %s") st)) ->
  (forall c ld, train_cmd cfg task script = inr c ->
     environ_LD_LIBRARY_PATH w = Some ld ->
     fault w SiteRunStart = None ->
     let t := build_launch_cmd c n gc sp ip yp extra script rp ld in
     Q t (record (EvSleep 200)
            (record (EvRunStart t)
               (record (EvLog DEBUG "Launch training %s") st)))) ->
  wp (launch_train_task cfg w task n gc sp ip yp extra script rp) Q E st.
Proof.
  intros Hinl Hkey Hstart Hok. unfold launch_train_task.
  destruct (train_cmd cfg task script) as [e|c] eqn:Hcmd.
  - wp_steps. auto.
  - wp_steps; eauto.
Qed.

Lemma launch_train_task_custom_returns task n gc sp ip yp extra s rp st t st' :
  launch_train_task cfg w task n gc sp ip yp extra (Some s) rp st
  = (Return t, st') ->
  t !! 3%nat = Some "graphstorm.run.launch".
Proof.
  intros Hrun.
  apply (wp_run _ (fun t _ => t !! 3%nat = Some "graphstorm.run.launch")
           (fun _ _ => True) _ _ _) in Hrun; [exact Hrun|].
  apply wp_launch_train_task; auto.
  intros c ld Hc _ _. rewrite train_cmd_custom in Hc.
  injection Hc as <-. reflexivity.
Qed.

Lemma launch_train_task_unsupported task n gc sp ip yp extra rp st :
  ~ In task (builtin_tasks cfg) ->
  launch_train_task cfg w task n gc sp ip yp extra None rp st
  = (Stop (Raise (RuntimeError ("Unsupported task type " +:+ task))), st).
Proof.
  intros Hn. unfold launch_train_task.
  rewrite (train_cmd_unsupported cfg task Hn). reflexivity.
Qed.

End LaunchTask.

(** ** The supervising thread *)

Lemma count_snoc P tr e :
  count P (tr ++ [e]) = (count P tr + (if P e then 1 else 0))%nat.
Proof.
  unfold count. rewrite List.filter_app, length_app. cbn [List.filter].
  destruct (P e); reflexivity.
Qed.

Lemma count_app P tr1 tr2 :
  count P (tr1 ++ tr2) = (count P tr1 + count P tr2)%nat.
Proof. unfold count. rewrite List.filter_app, length_app. reflexivity. Qed.

Section Supervision.

Variable w : world.

Lemma run_exited_zero cmd st :
  child w = Exited 0 ->
  run w cmd st
  = (Return tt, with_state_q (state_q st ++ [0]) (record (EvQueuePut 0) st)).
Proof.
  intros Hc. unfold run, try_except, bind, check_call. rewrite Hc.
  reflexivity.
Qed.

Lemma run_exited_nonzero cmd st rc :
  child w = Exited rc -> rc <> 0 ->
  let st1 := record (EvLog ERROR "Called process error %s") st in
  run w cmd st
  = (Return tt,
     with_state_q (state_q st1 ++ [rc]) (record (EvQueuePut rc) st1)).
Proof.
  intros Hc Hrc. unfold run, try_except, bind, check_call. rewrite Hc.
  destruct (Z.eqb_spec rc 0); [contradiction|]. reflexivity.
Qed.

Lemma run_called_process_error cmd st rc :
  child w = Unsupervised (CalledProcessError rc) ->
  let st1 := record (EvLog ERROR "Called process error %s") st in
  run w cmd st
  = (Return tt,
     with_state_q (state_q st1 ++ [rc]) (record (EvQueuePut rc) st1)).
Proof.
  intros Hc. unfold run, try_except, bind, check_call. rewrite Hc.
  reflexivity.
Qed.

Lemma run_unexpected cmd st e :
  child w = Unsupervised e -> is_CalledProcessError e = false ->
  run w cmd st
  = (Return tt,
     with_state_q (state_q st ++ [-1]) (record (EvQueuePut (-1)) st)).
Proof.
  intros Hc He. unfold run, try_except, bind, check_call. rewrite Hc.
  destruct e; try discriminate; reflexivity.
Qed.

Lemma run_delivers cmd st :
  exists st',
    run w cmd st = (Return tt, st') /\
    state_q st' = state_q st ++ [delivered w] /\
    err_code st' = err_code st /\
    accepted st' = accepted st /\
    dialled st' = dialled st /\
    exists evs,
      trace st' = trace st ++ evs ++ [EvQueuePut (delivered w)] /\
      (evs = [] \/ evs = [EvLog ERROR "Called process error %s"]).
Proof.
  unfold delivered. destruct (child w) as [rc|e] eqn:Hc.
  - destruct (Z.eq_dec rc 0) as [->|Hrc].
    + rewrite (run_exited_zero cmd st Hc). eexists; split; [reflexivity|].
      cbn. repeat split. exists []. auto.
    + rewrite (run_exited_nonzero cmd st rc Hc Hrc).
      eexists; split; [reflexivity|]. cbn. repeat split.
      exists [EvLog ERROR "Called process error %s"].
      rewrite <- app_assoc. auto.
  - destruct (is_CalledProcessError e) eqn:He.
    + destruct e; try discriminate.
      rewrite (run_called_process_error cmd st _ Hc).
      eexists; split; [reflexivity|]. cbn. repeat split.
      exists [EvLog ERROR "Called process error %s"].
      rewrite <- app_assoc. auto.
    + rewrite (run_unexpected cmd st e Hc He).
      eexists; split; [reflexivity|].
      assert (Hd : match e with CalledProcessError rc => rc | _ => -1 end
                   = -1) by (destruct e; try discriminate; reflexivity).
      rewrite Hd. cbn. repeat split. exists []. auto.
Qed.

End Supervision.

(** ** The setup phase *)

Lemma Setup_record e st : Setup st -> setup_event e = true -> Setup (record e st).
Proof.
  unfold Setup. cbn [trace record]. intros H He.
  rewrite forallb_app, H. cbn. rewrite He. reflexivity.
Qed.

Lemma Accepted_Setup n st : Accepted n st -> Setup st.
Proof. intros [H _]. exact H. Qed.

Lemma Accepted_record n e st :
  Accepted n st -> plain_event e = true -> Accepted n (record e st).
Proof.
  unfold plain_event. intros (Hs & Hc & Ha) [He Hna]%andb_prop.
  split; [apply Setup_record; assumption|]. split; [|exact Ha].
  cbn [trace record]. rewrite count_snoc.
  destruct (is_accept e); [discriminate|]. lia.
Qed.

Lemma Accepted_with_dialled n k st :
  Accepted n st -> Accepted n (with_dialled k st).
Proof. exact (fun H => H). Qed.

Lemma Accepted_accept n c st :
  Accepted n st ->
  Accepted (S n) (with_accepted (S (accepted st)) (record (EvSockAccept c) st)).
Proof.
  intros (Hs & Hc & Ha). split; [|split].
  - apply (Setup_record (EvSockAccept c) st Hs). reflexivity.
  - cbn [trace record with_accepted]. rewrite count_snoc. cbn. lia.
  - cbn. lia.
Qed.

Create HintDb setup.

#[local] Hint Resolve Accepted_record Accepted_with_dialled Accepted_Setup
  Setup_record : setup.

Ltac setup_state :=
  solve [ repeat (first [ eassumption
                        | apply Accepted_with_dialled
                        | eapply Accepted_Setup
                        | apply Accepted_record; [|reflexivity] ]) ].

Ltac setup_fault HE :=
  apply HE; [setup_state | left; eauto].

Section SetupPhase.

Variable cfg : config.
Variable w : world.

Lemma wp_log_host_ips hs n Q (E : stop -> state -> Prop) st :
  Accepted n st ->
  (forall st', Accepted n st' ->
     (exists h, In h hs /\ gethostbyname w h = None) ->
     E (Raise (OSError "gaierror")) st') ->
  (forall st', Accepted n st' ->
     (forall h, In h hs -> is_Some (gethostbyname w h)) -> Q tt st') ->
  wp (log_host_ips w hs) Q E st.
Proof.
  revert st. induction hs as [|h hs IH]; intros st Hst HE HQ; cbn [log_host_ips].
  - wp_steps. apply HQ; [assumption|]. intros h [].
  - wp_steps.
    + apply HE; [assumption|]. exists h. split; [left; reflexivity|assumption].
    + apply IH.
      * apply Accepted_record; [assumption|reflexivity].
      * intros st' Hst' (h' & Hin & Hnone). apply HE; [assumption|].
        exists h'. split; [right; assumption|assumption].
      * intros st' Hst' Hall. apply HQ; [assumption|].
        intros h' [<-|Hin]; [rewrite Hip; eauto|auto].
Qed.

Lemma wp_write_ip_list path hs n Q (E : stop -> state -> Prop) st :
  Accepted n st ->
  (forall h, In h hs -> is_Some (gethostbyname w h)) ->
  (forall st', Accepted n st' -> Q tt st') ->
  wp (write_ip_list w path hs) Q E st.
Proof.
  revert st. induction hs as [|h hs IH]; intros st Hst Hall HQ;
    cbn [write_ip_list].
  - wp_steps. auto.
  - wp_steps.
    + destruct (Hall h) as [ip Hsome]; [left; reflexivity|]. congruence.
    + apply IH.
      * apply Accepted_record; [assumption|reflexivity].
      * intros h' Hin. apply Hall. right. assumption.
      * assumption.
Qed.

Lemma wp_connect_loop addr port k n Q (E : stop -> state -> Prop) st :
  Accepted n st ->
  (forall st', Accepted n st' -> Q tt st') ->
  wp (connect_loop w addr port k) Q E st.
Proof.
  revert st. induction k as [|k IH]; intros st Hst HQ; cbn [connect_loop].
  - wp_steps. auto.
  - wp_steps.
    assert (Hst1 : Accepted n
              (with_dialled (S (dialled st))
                 (record (EvSockConnect addr port (connect_ok w (dialled st)))
                    st))).
    { apply Accepted_with_dialled, Accepted_record; [assumption|reflexivity]. }
    destruct (connect_ok w (dialled st)).
    + wp_steps. auto.
    + wp_steps. apply IH; [|assumption].
      repeat (apply Accepted_record; [|reflexivity]). assumption.
Qed.

Lemma wp_accept_loop k :
  forall i cl n st Q (E : stop -> state -> Prop),
    Accepted n st ->
    (i + k <= length cl)%nat ->
    (forall x st', Setup st' -> fault w SiteAccept = Some x ->
       E (Raise x) st') ->
    (forall st', Setup st' -> (length (arrivals w) < n + k)%nat ->
       E Blocked st') ->
    (forall st' cl',
       Accepted (n + k) st' ->
       length cl' = length cl ->
       (forall j, (j < i)%nat -> cl' !! j = cl !! j) ->
       (forall j, (j < k)%nat ->
          exists c, arrivals w !! (n + j)%nat = Some c
                    /\ cl' !! (i + j)%nat = Some (Some c)) ->
       Q cl' st') ->
    wp (accept_loop w (seq i k) cl) Q E st.
Proof.
  induction k as [|k IH]; intros i cl n st Q E Hst Hlen Hx Hb HQ;
    cbn [seq accept_loop].
  - wp_steps. apply HQ; auto.
    + rewrite Nat.add_0_r. assumption.
    + intros j Hj. lia.
  - pose proof Hst as (Hs & Hcnt & Hacc). wp_steps.
    + apply Hx; assumption.
    + apply Hb; [assumption|]. rewrite Hacc in Hc.
      apply lookup_ge_None in Hc. lia.
    + rewrite Hacc in Hc.
      destruct (decide (i < length cl)%nat) as [Hi|Hi]; [|lia].
      apply (IH (S i) _ (S n)).
      * apply Accepted_accept. assumption.
      * rewrite length_insert. lia.
      * assumption.
      * intros st' Hst' Hlt. apply Hb; [assumption|lia].
      * intros st' cl' Hst' Hlen' Hlow Hhigh. apply HQ.
        -- replace (n + S k)%nat with (S n + k)%nat by lia. assumption.
        -- rewrite Hlen', length_insert. reflexivity.
        -- intros j Hj. rewrite Hlow by lia.
           apply list_lookup_insert_ne. lia.
        -- intros [|j] Hj.
           ++ exists c. rewrite !Nat.add_0_r. split; [assumption|].
              rewrite Hlow by lia. apply list_lookup_insert_eq. assumption.
           ++ destruct (Hhigh j) as (c' & Harr & Hcl); [lia|].
              exists c'. split.
              ** replace (n + S j)%nat with (S n + j)%nat by lia. assumption.
              ** replace (i + S j)%nat with (S i + j)%nat by lia. assumption.
Qed.

Lemma index_Some x l r :
  index x l = Some r ->
  l !! r = Some x /\ (r < length l)%nat
  /\ forall j, (j < r)%nat -> l !! j <> Some x.
Proof.
  revert r. induction l as [|y l IH]; intros r; cbn [index]; [discriminate|].
  destruct (String.eqb_spec y x) as [->|Hne].
  - intros [= <-]. cbn. repeat split; [lia|]. intros j Hj. lia.
  - destruct (index x l) as [r'|]; [|discriminate]. intros [= <-].
    destruct (IH r' eq_refl) as (Hl & Hlt & Hfirst). cbn.
    repeat split; [assumption|lia|].
    intros [|j] Hj; cbn; [congruence|]. apply Hfirst. lia.
Qed.

Lemma index_None x l : index x l = None -> ~ In x l.
Proof.
  induction l as [|y l IH]; cbn [index]; [intros _ []|].
  destruct (String.eqb_spec y x) as [->|Hne]; [discriminate|].
  destruct (index x l); [discriminate|].
  intros _ [Heq|Hin]; [congruence|apply IH; auto].
Qed.

Lemma wp_topology a Q (E : stop -> state -> Prop) st :
  Accepted 0 st ->
  (forall x st', Setup st' -> setup_stop w a x -> E x st') ->
  (forall st' r,
     Accepted 0 st' ->
     index (current_host (sm_dist_env a)) (hosts (sm_dist_env a)) = Some r ->
     (forall h, In h (hosts (sm_dist_env a)) -> is_Some (gethostbyname w h)) ->
     Q (length (hosts (sm_dist_env a)), r) st') ->
  wp (topology w a) Q E st.
Proof.
  intros Hst HE HQ. unfold topology. wp_steps.
  destruct (index (current_host (sm_dist_env a)) (hosts (sm_dist_env a)))
    as [r|] eqn:Hidx.
  - wp_steps.
    + apply HE; [setup_state|]. right. left. eauto.
    + apply (wp_log_host_ips _ 0%nat); [setup_state| |].
      * intros st' Hst' Hbad. wp_steps. apply HE; [setup_state|].
        right. right. right. left. eauto.
      * intros st' Hst' Hall. wp_steps. apply HQ; auto.
  - wp_steps. apply HE; [setup_state|]. right. right. left. eauto.
Qed.

Lemma wp_connect_peers a r Q (E : stop -> state -> Prop) st :
  Accepted 0 st ->
  index (current_host (sm_dist_env a)) (hosts (sm_dist_env a)) = Some r ->
  (forall x st', Setup st' -> setup_stop w a x -> E x st') ->
  (forall st' cl n,
     Accepted n st' ->
     (r = 0%nat ->
      n = (length (hosts (sm_dist_env a)) - 1)%nat
      /\ Clients w (length (hosts (sm_dist_env a))) cl) ->
     Q cl st') ->
  wp (connect_peers w a (length (hosts (sm_dist_env a))) r) Q E st.
Proof.
  intros Hst Hidx HE HQ. unfold connect_peers.
  destruct (index_Some _ _ _ Hidx) as (_ & Hlt & _).
  destruct (Nat.eqb_spec r 0) as [->|Hr].
  - wp_steps; try setup_fault HE.
    unfold range.
    apply (wp_accept_loop _ _ _ 0%nat); [setup_state| | | |].
    + rewrite length_replicate. lia.
    + intros y st' Hst' Hy. apply HE; [assumption|left; eauto].
    + intros st' Hst' Hshort. apply HE; [assumption|].
      right. right. right. right. repeat split; [assumption|lia].
    + intros st' cl' Hst' Hlen Hlow Hhigh. apply (HQ st' cl' _ Hst').
      intros _. split; [reflexivity|]. rewrite length_replicate in Hlen.
      split; [assumption|]. split.
      * rewrite Hlow by lia. apply lookup_replicate_2. lia.
      * intros i Hi. destruct (Hhigh (i - 1)%nat) as (c & Harr & Hcl); [lia|].
        exists c. split; [exact Harr|].
        replace (1 + (i - 1))%nat with i in Hcl by lia. exact Hcl.
  - wp_steps; try setup_fault HE.
    apply (wp_connect_loop _ _ _ 0%nat); [setup_state|].
    intros st' Hst'. wp_steps. apply (HQ _ _ 0%nat); [setup_state|].
    intros ->. contradiction.
Qed.

Lemma wp_fetch_inputs a ws r rp n Q (E : stop -> state -> Prop) st :
  Accepted n st ->
  (forall h, In h (hosts (sm_dist_env a)) -> is_Some (gethostbyname w h)) ->
  (forall x st', Setup st' -> setup_stop w a x -> E x st') ->
  (forall st', Accepted n st' ->
     Q (path_join (data_path a) "ip_list.txt", yaml_config_path w,
        graph_config_path w) st') ->
  wp (fetch_inputs w a ws r rp) Q E st.
Proof.
  intros Hst Hall HE HQ. unfold fetch_inputs. wp_steps; try setup_fault HE.
  apply (wp_write_ip_list _ _ n); [setup_state|assumption|].
  intros st' Hst'. wp_steps; try setup_fault HE.
  destruct (model_checkpoint_to_load a);
    wp_steps; try setup_fault HE; apply HQ; setup_state.
Qed.

End SetupPhase.

(** ** [run_train] up to the barrier *)

Section UpToBarrier.

Variable cfg : config.
Variable w : world.

Lemma Accepted_init : Accepted 0 init_state.
Proof. repeat split. Qed.

(** In every world [run_train] either stops during setup, for one of
    the reasons of [setup_stop], or reaches line 263 with the rank,
    the world size and (on the master) the connection list settled;
    what follows is the master or worker branch and the finish. *)
Lemma wp_run_train a extra Q (E : stop -> state -> Prop) :
  let env := sm_dist_env a in
  let sp := path_join (output_path_of a) "model_checkpoint" in
  (forall x st, Setup st -> setup_stop w a x -> E x st) ->
  (forall st r n cl rp,
     Accepted n st ->
     index (current_host env) (hosts env) = Some r ->
     (forall h, In h (hosts env) -> is_Some (gethostbyname w h)) ->
     (r = 0%nat ->
      n = (length (hosts env) - 1)%nat /\ Clients w (length (hosts env)) cl) ->
     rp = (if model_checkpoint_to_load a is Some _
           then Some "/tmp/gsgnn_model_checkpoint/" else None) ->
     wp ((if (r =? 0)%nat
          then master_main cfg w a extra cl (length (hosts env))
                 (graph_config_path w) sp
                 (path_join (data_path a) "ip_list.txt")
                 (yaml_config_path w) rp
          else worker_main w) ;;
         finish w a sp) Q E (with_err_code 0 st)) ->
  wp (run_train cfg w a extra) Q E init_state.
Proof.
  intros env sp HE HQ. unfold run_train, restore_model_path_of.
  pose proof Accepted_init as H0.
  assert (Hmain : forall rp st,
    rp = (if model_checkpoint_to_load a is Some _
          then Some "/tmp/gsgnn_model_checkpoint/" else None) ->
    Accepted 0 st ->
    wp (ext w SiteMakedirs (EvMakedirs (output_path_of a));;
        ext w SiteSshStart EvServiceSshStart;;
        logging INFO "Known args %s";;
        logging INFO "Unknown args %s";;
        topo <- topology w a;;
        (let '(world_size, host_rank) := topo in
         client_list <- connect_peers w a world_size host_rank;;
         paths <- fetch_inputs w a world_size host_rank rp;;
         (let '(ip_list_path, yaml_path, graph_config) := paths in
          set_err_code 0;;
          (if (host_rank =? 0)%nat
           then master_main cfg w a extra client_list world_size
                  graph_config
                  (path_join (output_path_of a) "model_checkpoint")
                  ip_list_path yaml_path rp
           else worker_main w);;
          finish w a (path_join (output_path_of a) "model_checkpoint"))))
      Q E st).
  { intros rp st Hrp Hst. wp_steps; try setup_fault HE.
    apply wp_topology; [setup_state|assumption|].
    intros st1 r Hst1 Hidx Hall. wp_steps.
    apply wp_connect_peers; [assumption|assumption|assumption|].
    intros st2 cl n Hst2 Hcl. wp_steps.
    apply (wp_fetch_inputs w a _ _ _ n); [assumption|assumption|assumption|].
    intros st3 Hst3. wp_steps.
    apply wp_bind_inv. apply (HQ st3 r n cl rp); assumption. }
  destruct (model_checkpoint_to_load a).
  - do 3 wp_step; [setup_fault HE|].
    wp_step. apply Hmain; [reflexivity|setup_state].
  - do 2 wp_step. apply Hmain; [reflexivity|assumption].
Qed.

End UpToBarrier.

(** ** The master and worker branches *)

Section Branches.

Variable cfg : config.
Variable w : world.

Lemma wp_thread_join t Q (E : stop -> state -> Prop) st :
  (forall x, fault w SiteRunJoin = Some x -> E (Raise x) st) ->
  (forall st' evs,
     fault w SiteRunJoin = None ->
     state_q st' = state_q st ++ [delivered w] ->
     err_code st' = err_code st ->
     trace st' = trace st ++ evs ++ [EvQueuePut (delivered w)] ->
     evs = [] \/ evs = [EvLog ERROR "Called process error %s"] ->
     Q tt (record EvRunJoin st')) ->
  wp (thread_join w t) Q E st.
Proof.
  intros Hx HQ. unfold thread_join.
  destruct (fault w SiteRunJoin) as [x|] eqn:Hf; [apply Hx; reflexivity|].
  apply wp_bind. unfold wp at 1.
  destruct (run_delivers w t st)
    as (st' & -> & Hq & He & _ & _ & evs & Htr & Hevs).
  wp_steps. eapply HQ; eauto.
Qed.

Lemma on_RuntimeError_cases e :
  (is_RuntimeError e = true
   /\ on_RuntimeError e = Some (emit (EvPrint e) ;; set_err_code (-1)))
  \/ (is_RuntimeError e = false /\ on_RuntimeError e = None).
Proof.
  unfold on_RuntimeError. destruct (is_RuntimeError e); auto.
Qed.

End Branches.

Ltac state_simpl :=
  cbn [trace err_code state_q accepted dialled record with_err_code
       with_state_q with_accepted with_dialled fst snd] in *.

Ltac branch_step :=
  first
    [ wp_step
    | apply wp_launch_train_task;
      [ let e := fresh "e" in let Hcmd := fresh "Hcmd" in intros e Hcmd
      | let c := fresh "c" in let Hcmd := fresh "Hcmd" in
        let Hld := fresh "Hld" in intros c Hcmd Hld
      | let c := fresh "c" in let ld := fresh "ld" in let x := fresh "x" in
        let Hcmd := fresh "Hcmd" in let Hld := fresh "Hld" in
        let Hf := fresh "Hfault" in intros c ld x Hcmd Hld Hf
      | let c := fresh "c" in let ld := fresh "ld" in
        let Hcmd := fresh "Hcmd" in let Hld := fresh "Hld" in
        let Hf := fresh "Hfault" in intros c ld Hcmd Hld Hf; cbv zeta ]
    | apply wp_thread_join;
      [ let x := fresh "x" in let Hf := fresh "Hfault" in intros x Hf
      | let st' := fresh "st" in let evs := fresh "evs" in
        let Hf := fresh "Hfault" in let Hq := fresh "Hq" in
        let He := fresh "Herr" in let Htr := fresh "Htr" in
        let Hevs := fresh "Hevs" in
        intros st' evs Hf Hq He Htr Hevs ]
    | match goal with
      | |- match on_RuntimeError ?e with _ => _ end =>
          let Hre := fresh "Hre" in
          destruct (on_RuntimeError_cases e) as [[Hre ->]|[Hre ->]]
      | |- wp (if negb (?c =? 0)%Z then _ else _) _ _ _ =>
          progress state_simpl
      | |- wp (if negb (?c =? 0)%Z then _ else _) _ _ _ =>
          let Hc := fresh "Hcode" in
          destruct (Z.eqb_spec c 0) as [Hc|Hc]; cbn [negb]
      | |- wp (if ?b then _ else _) _ _ _ =>
          let Hb := fresh "Hcond" in destruct b eqn:Hb
      | |- wp (match ?o with _ => _ end) _ _ _ =>
          let Ho := fresh "Hopt" in destruct o eqn:Ho
      end ].

Ltac branch_steps := repeat branch_step.

(** ** Order of events in a trace *)

Lemma precedes_from_sound P Q tr :
  forall seen, precedes_from seen P Q tr = true ->
  forall l1 e l2, tr = l1 ++ e :: l2 -> Q e = true ->
  seen || existsb P l1 = true.
Proof.
  induction tr as [|e0 tr IH]; intros seen Hchk l1 e l2 Heq HQ.
  - destruct l1; discriminate.
  - cbn [precedes_from] in Hchk. apply andb_prop in Hchk as [Hhead Htail].
    destruct l1 as [|e1 l1]; cbn [app] in Heq; injection Heq as -> ->.
    + rewrite HQ in Hhead. rewrite Hhead. reflexivity.
    + specialize (IH _ Htail l1 e l2 eq_refl HQ). cbn [existsb].
      rewrite orb_assoc. exact IH.
Qed.

Lemma never_from_sound P Q tr :
  forall seen, never_from seen P Q tr = true ->
  forall l1 e l2, tr = l1 ++ e :: l2 -> Q e = true ->
  seen || existsb P l1 = false.
Proof.
  induction tr as [|e0 tr IH]; intros seen Hchk l1 e l2 Heq HQ.
  - destruct l1; discriminate.
  - cbn [never_from] in Hchk. apply andb_prop in Hchk as [Hhead Htail].
    destruct l1 as [|e1 l1]; cbn [app] in Heq; injection Heq as -> ->.
    + rewrite HQ in Hhead. destruct seen; [discriminate|reflexivity].
    + specialize (IH _ Htail l1 e l2 eq_refl HQ). cbn [existsb].
      rewrite orb_assoc. exact IH.
Qed.

(** Where an event of [pre ++ suf] sits. *)
Lemma split_app_cons (pre suf l1 l2 : list event) e :
  pre ++ suf = l1 ++ e :: l2 ->
  (exists l, pre = l1 ++ e :: l /\ l2 = l ++ suf)
  \/ (exists l, l1 = pre ++ l /\ suf = l ++ e :: l2).
Proof.
  revert l1. induction pre as [|p pre IH]; intros l1 Heq.
  - right. exists l1. split; [reflexivity|exact Heq].
  - destruct l1 as [|e1 l1]; cbn [app] in Heq; injection Heq as -> Heq.
    + left. exists pre. split; [reflexivity|symmetry; exact Heq].
    + destruct (IH _ Heq) as [(l & -> & ->)|(l & -> & ->)].
      * left. exists l. split; reflexivity.
      * right. exists l. split; reflexivity.
Qed.

Lemma forallb_setup_not (K : event -> bool) pre :
  (forall e, setup_event e = true -> K e = false) ->
  forallb setup_event pre = true -> existsb K pre = false.
Proof.
  intros HK. induction pre as [|e pre IH]; cbn; [reflexivity|].
  intros [He Hpre]%andb_prop. rewrite (HK e He), (IH Hpre). reflexivity.
Qed.

Lemma precedes_suffix P Q pre suf :
  existsb Q pre = false ->
  precedes_from false P Q suf = true ->
  precedes P Q (pre ++ suf).
Proof.
  intros Hpre Hchk l1 e l2 Heq HQ.
  destruct (split_app_cons _ _ _ _ _ Heq) as [(l & -> & ->)|(l & -> & ->)].
  - rewrite existsb_app in Hpre. cbn in Hpre. rewrite HQ in Hpre.
    rewrite orb_true_r in Hpre. discriminate.
  - rewrite existsb_app.
    pose proof (precedes_from_sound P Q _ false Hchk l e l2 eq_refl HQ) as H.
    cbn [orb] in H. rewrite H. apply orb_true_r.
Qed.

Lemma never_before_suffix P Q pre suf :
  existsb P pre = false ->
  never_from false P Q suf = true ->
  never_before P Q (pre ++ suf).
Proof.
  intros Hpre Hchk l1 e l2 Heq HQ.
  destruct (split_app_cons _ _ _ _ _ Heq) as [(l & -> & ->)|(l & -> & ->)].
  - rewrite existsb_app in Hpre. apply orb_false_elim in Hpre as [H1 _].
    exact H1.
  - rewrite existsb_app, Hpre.
    exact (never_from_sound P Q _ false Hchk l e l2 eq_refl HQ).
Qed.

Lemma teardown_order_suffix pre suf :
  forallb setup_event pre = true ->
  teardown_order_b suf = true ->
  teardown_order (pre ++ suf).
Proof.
  intros Hpre Hchk. unfold teardown_order_b in Hchk.
  repeat (apply andb_prop in Hchk as [Hchk ?]).
  assert (Hno : forall K, (forall e, setup_event e = true -> K e = false) ->
                          existsb K pre = false).
  { intros K HK. apply forallb_setup_not; assumption. }
  assert (Hterm : existsb is_terminate pre = false).
  { apply Hno. intros [] He; try reflexivity; discriminate He. }
  assert (Hjoin : existsb is_keep_alive_join pre = false).
  { apply Hno. intros [] He; try reflexivity; discriminate He. }
  assert (Hclose : existsb is_sock_close pre = false).
  { apply Hno. intros [] He; try reflexivity; discriminate He. }
  unfold teardown_order.
  repeat split;
    first [apply never_before_suffix | apply precedes_suffix]; assumption.
Qed.

Ltac trace_form :=
  state_simpl;
  repeat match goal with
         | Hevs : _ = [] \/ _ = [_] |- _ => destruct Hevs as [-> | ->]
         | Htr : trace ?s = _ |- context [trace ?s] => rewrite Htr
         end;
  state_simpl; rewrite <- ?app_assoc; cbn [app].

Ltac unfold_branches :=
  unfold master_main, worker_main, launch_and_wait, guarded, teardown, finish.

(** ** Teardown order *)

Section TeardownOrder.

Variable cfg : config.
Variable w : world.

Lemma master_branch_order a extra cl ws gc sp ip yp rp st :
  Setup st ->
  wp (master_main cfg w a extra cl ws gc sp ip yp rp ;; finish w a sp)
    (fun _ st' => teardown_order (trace st'))
    (fun _ st' => teardown_order (trace st')) st.
Proof.
  intros Hst. unfold_branches. branch_steps.
  all: trace_form.
  all: first [ apply teardown_order_suffix
             | rewrite <- (app_nil_r (trace st));
               apply teardown_order_suffix ];
       [exact Hst|reflexivity].
Qed.

(** C5 (amended): in every execution of the master (rank 0), whatever
    the environment does: each call of [terminate_workers] comes after
    the result is settled, which is by a read of the result queue or,
    when the [try] raised a [RuntimeError], by the handler of line
    289, in which case the queue is never read; no call of
    [terminate_workers] comes before a read of the queue;
    [task_end.set()] comes before the join of the keep-alive thread,
    and both come before [terminate_workers]; [sock.close()] comes
    after [terminate_workers]. *)
Theorem master_teardown_order a extra :
  index (current_host (sm_dist_env a)) (hosts (sm_dist_env a)) = Some 0%nat ->
  teardown_order (trace (run_train cfg w a extra init_state).2).
Proof.
  intros Hrank.
  apply (wp_snd _ (fun st => teardown_order (trace st))).
  apply wp_run_train.
  - intros x st Hst _. rewrite <- (app_nil_r (trace st)).
    apply teardown_order_suffix; [exact Hst|reflexivity].
  - intros st r n cl rp [Hst _] Hidx _ _ _.
    assert (r = 0%nat) as -> by congruence. cbn [Nat.eqb].
    apply master_branch_order. exact Hst.
Qed.

End TeardownOrder.

(** ** The upload step *)

Lemma gs_model_artifact_s3_truthy a :
  truthy (gs_model_artifact_s3 a) = true -> truthy (model_artifact_s3 a) = true.
Proof.
  unfold gs_model_artifact_s3. destruct (truthy (model_artifact_s3 a)); auto.
Qed.

Lemma Setup_no_upload st : Setup st -> existsb is_upload (trace st) = false.
Proof.
  apply forallb_setup_not. intros [] He; try reflexivity; discriminate He.
Qed.

Lemma Setup_no_close st : Setup st -> existsb is_sock_close (trace st) = false.
Proof.
  apply forallb_setup_not. intros [] He; try reflexivity; discriminate He.
Qed.

Section Upload.

Variable cfg : config.
Variable w : world.

Ltac upload_path Hst :=
  split; [ unfold upload_justified | unfold failure_exits ];
  trace_form;
  rewrite ?existsb_app, ?(Setup_no_upload _ Hst), ?(Setup_no_close _ Hst);
  cbn [existsb is_upload is_sock_close orb];
  intros; try discriminate; try contradiction; try lia;
  repeat match goal with
         | H : _ && _ = true |- _ => apply andb_prop in H as [? ?]
         end;
  repeat split; auto;
  try (apply gs_model_artifact_s3_truthy; congruence).

Lemma branch_upload a extra cl ws gc ip yp rp r st :
  let sp := path_join (output_path_of a) "model_checkpoint" in
  Setup st ->
  wp ((if (r =? 0)%nat
       then master_main cfg w a extra cl ws gc sp ip yp rp
       else worker_main w) ;; finish w a sp)
    (fun u st' =>
       upload_justified w a (Return u) st' /\ failure_exits (Return u) st')
    (fun x st' =>
       upload_justified w a (Stop x) st' /\ failure_exits (Stop x) st')
    (with_err_code 0 st).
Proof.
  intros sp Hst. subst sp. destruct (r =? 0)%nat.
  - unfold_branches. branch_steps. all: upload_path Hst.
  - unfold_branches. branch_steps. all: upload_path Hst.
Qed.

End Upload.

Section UploadClaim.

Variable cfg : config.
Variable w : world.

(** C7: in every run, if [upload_model_artifacts] was called then the
    error code is 0, [model_artifact_s3] was given (and is not empty),
    the saved model path exists and the run returned; once the socket
    is closed a nonzero error code ends the run with [sys.exit(-1)]
    and without an upload; and without an output destination no run
    calls the upload. *)
Theorem upload_only_after_success a extra :
  let o := (run_train cfg w a extra init_state).1 in
  let st := (run_train cfg w a extra init_state).2 in
  (existsb is_upload (trace st) = true ->
     err_code st = 0
     /\ truthy (model_artifact_s3 a) = true
     /\ path_exists w (path_join (output_path_of a) "model_checkpoint") = true
     /\ o = Return tt)
  /\ (existsb is_sock_close (trace st) = true -> err_code st <> 0 ->
        o = Stop (SysExit (-1)) /\ existsb is_upload (trace st) = false)
  /\ (truthy (model_artifact_s3 a) = false ->
        existsb is_upload (trace st) = false).
Proof.
  intros o st.
  assert (H : upload_justified w a o st /\ failure_exits o st).
  { subst o st.
    apply (wp_both _ (fun o st => upload_justified w a o st
                                   /\ failure_exits o st)).
    apply wp_run_train.
    - intros x st Hst _. split.
      + intros Hup. rewrite (Setup_no_upload _ Hst) in Hup. discriminate.
      + intros Hcl. rewrite (Setup_no_close _ Hst) in Hcl. discriminate.
    - intros st r n cl rp [Hst _] _ _ _ _.
      apply branch_upload. exact Hst. }
  destruct H as [Hup Hfail]. split; [exact Hup|]. split.
  - intros Hcl Herr. split; [apply Hfail; assumption|].
    destruct (existsb is_upload (trace st)) eqn:Hex; [|reflexivity].
    destruct (Hup Hex) as (H0 & _). contradiction.
  - intros Hno.
    destruct (existsb is_upload (trace st)) eqn:Hex; [|reflexivity].
    destruct (Hup Hex) as (_ & Htr & _). congruence.
Qed.

End UploadClaim.

(** ** Exit status *)

Ltac queue_facts :=
  state_simpl;
  repeat match goal with
         | H1 : state_q ?s = _ ++ _, H2 : state_q ?s = _ :: _ |- _ =>
             rewrite H1 in H2; cbn [app] in H2; injection H2 as ? ?; subst
         | H1 : state_q ?s = _ ++ _, H2 : state_q ?s = [] |- _ =>
             rewrite H1 in H2; discriminate H2
         end.

Lemma delivered_exited w K : child w = Exited K -> delivered w = K.
Proof. unfold delivered. intros ->. reflexivity. Qed.

Lemma delivered_sentinel w e :
  child w = Unsupervised e -> is_CalledProcessError e = false ->
  delivered w = -1.
Proof. unfold delivered. intros -> He. destruct e; try discriminate; reflexivity. Qed.

Lemma setup_stop_not_exit w a x :
  setup_stop w a x -> exit_status (Stop x : outcome unit) <> Some 0.
Proof.
  intros [(s & e & _ & ->)|[(e & _ & ->)|[(_ & m & ->)|[(_ & e & ->)
                                                          |(-> & _)]]]];
    discriminate.
Qed.

Lemma sound_env_no_setup_stop w a x :
  sound_env w a ->
  is_Some (index (current_host (sm_dist_env a)) (hosts (sm_dist_env a))) ->
  (index (current_host (sm_dist_env a)) (hosts (sm_dist_env a)) = Some 0%nat ->
   workers_arrive w a) ->
  setup_stop w a x -> False.
Proof.
  intros (Hnf & Hres & Hlvl) [r Hidx] Harr
    [(s & e & Hf & _)|[(e & He & _)|[(Hnone & _)|[((h & Hin & Hh) & _)
                                                 |(_ & H0 & Hlt)]]]].
  - rewrite Hnf in Hf. discriminate.
  - unfold valid_log_level in Hlvl. congruence.
  - congruence.
  - destruct (Hres h Hin) as [ip Hip]. congruence.
  - specialize (Harr H0). unfold workers_arrive in Harr. lia.
Qed.

Section ExitStatus.

Variable cfg : config.
Variable w : world.

Lemma launchable_train_cmd a :
  launchable cfg w a ->
  exists c, train_cmd cfg (task_type a) (custom_script a) = inr c.
Proof.
  intros [[[s Hs]|Hin] _].
  - rewrite Hs. eexists. apply train_cmd_custom.
  - destruct (custom_script a) as [s|].
    + eexists. apply train_cmd_custom.
    + apply train_cmd_builtin. assumption.
Qed.

(** The master never returns normally, nor exits with status 0, when
    the supervising thread delivers a nonzero code. *)
Lemma master_branch_failure a extra cl ws gc sp ip yp rp st :
  delivered w <> 0 ->
  wp (master_main cfg w a extra cl ws gc sp ip yp rp ;; finish w a sp)
    (fun _ _ => False)
    (fun x _ => exit_status (Stop x : outcome unit) <> Some 0)
    (with_err_code 0 st).
Proof.
  intros Hd. unfold_branches. branch_steps.
  all: queue_facts; try discriminate; try contradiction; try lia.
Qed.

Lemma master_failure_not_zero a extra :
  index (current_host (sm_dist_env a)) (hosts (sm_dist_env a)) = Some 0%nat ->
  delivered w <> 0 ->
  exit_status (run_train cfg w a extra init_state).1 <> Some 0.
Proof.
  intros Hrank Hd.
  apply (wp_both _ (fun o _ => exit_status o <> Some 0)).
  eapply wp_mono; [apply wp_run_train| |].
  - intros x st _ Hstop. exact (setup_stop_not_exit w a x Hstop).
  - intros st r n cl rp _ Hidx _ _ _.
    assert (r = 0%nat) as -> by congruence. cbn [Nat.eqb].
    apply master_branch_failure. exact Hd.
  - cbv beta. intros _ _ [].
  - cbv beta. auto.
Qed.

Lemma master_branch_sound a extra cl ws gc ip yp rp st :
  let sp := path_join (output_path_of a) "model_checkpoint" in
  (forall s, fault w s = None) ->
  launchable cfg w a ->
  Setup st ->
  wp (master_main cfg w a extra cl ws gc sp ip yp rp ;; finish w a sp)
    (fun u st' => master_outcome w a (Return u) st')
    (fun x st' => master_outcome w a (Stop x) st')
    (with_err_code 0 st).
Proof.
  intros sp Hnf Hl Hst. subst sp.
  destruct (launchable_train_cmd a Hl) as [c0 Hc0].
  destruct Hl as [_ [ld0 Hld0]].
  unfold_branches. branch_steps.
  all: try match goal with
           | H : fault _ ?s = Some _ |- _ =>
               rewrite (Hnf s) in H; discriminate H
           end.
  all: try congruence.
  all: queue_facts; try lia.
  all: unfold master_outcome; trace_form.
  all: rewrite ?existsb_app, ?(Setup_no_upload _ Hst);
       cbn [existsb is_upload is_sock_close is_terminate orb];
       rewrite ?orb_true_r.
  all: repeat split; auto.
  all: try match goal with
           | H : truthy None && _ = true |- _ => discriminate H
           end.
  all: left; repeat split; auto; congruence.
Qed.

Lemma worker_branch_sound a sp st :
  (forall s, fault w s = None) ->
  Setup st ->
  wp (worker_main w ;; finish w a sp)
    (fun u st' => worker_outcome (Return u) st')
    (fun x st' => worker_outcome (Stop x) st')
    (with_err_code 0 st).
Proof.
  intros Hnf Hst. unfold_branches. branch_steps.
  all: try match goal with
           | H : fault _ ?s = Some _ |- _ =>
               rewrite (Hnf s) in H; discriminate H
           end.
  all: try (exfalso; state_simpl; lia).
  all: unfold worker_outcome; trace_form.
  all: rewrite ?existsb_app,
         ?(forallb_setup_not is_terminate _
             ltac:(intros [] He; try reflexivity; discriminate He) Hst),
         ?(forallb_setup_not is_queue_get _
             ltac:(intros [] He; try reflexivity; discriminate He) Hst);
       cbn [existsb is_sock_close is_terminate is_queue_get orb];
       rewrite ?orb_true_r.
  all: do 5 (split; [auto|]).
  all: first
         [ exists (trace st), []; repeat split;
           [apply Setup_no_close; exact Hst|cbn; lia]
         | eexists (trace st), [_]; repeat split;
           [apply Setup_no_close; exact Hst|cbn; lia] ].
Qed.

(** [run_train] on the master, in a sound environment in which every
    worker dials in and the task can be launched. *)
Lemma master_run_sound a extra :
  index (current_host (sm_dist_env a)) (hosts (sm_dist_env a)) = Some 0%nat ->
  sound_env w a -> launchable cfg w a -> workers_arrive w a ->
  master_outcome w a (run_train cfg w a extra init_state).1
    (run_train cfg w a extra init_state).2.
Proof.
  intros Hrank Henv Hl Harr.
  apply (wp_both _ (master_outcome w a)). apply wp_run_train.
  - intros x st _ Hstop. exfalso.
    apply (sound_env_no_setup_stop w a x Henv); eauto.
  - intros st r n cl rp [Hst _] Hidx _ _ _.
    assert (r = 0%nat) as -> by congruence. cbn [Nat.eqb].
    apply master_branch_sound; [apply Henv|assumption|assumption].
Qed.

Lemma worker_run_sound a extra r :
  index (current_host (sm_dist_env a)) (hosts (sm_dist_env a)) = Some r ->
  r <> 0%nat ->
  sound_env w a ->
  worker_outcome (run_train cfg w a extra init_state).1
    (run_train cfg w a extra init_state).2.
Proof.
  intros Hrank Hr Henv.
  apply (wp_both _ worker_outcome). apply wp_run_train.
  - intros x st _ Hstop. exfalso.
    apply (sound_env_no_setup_stop w a x Henv); eauto.
    intros H0. congruence.
  - intros st r' n cl rp [Hst _] Hidx _ _ _.
    assert (r' = r) as -> by congruence.
    destruct (Nat.eqb_spec r 0) as [->|_]; [contradiction|].
    apply worker_branch_sound; [apply Henv|assumption].
Qed.

End ExitStatus.

Section ExitStatusClaims.

Variable cfg : config.
Variable w : world.

(** C1: on the master (rank 0), with [K] the code the supervising
    thread delivers (the child's exit status, or the sentinel -1):
    whatever else happens, a run with [K <> 0] does not end with exit
    status 0; and in a sound environment (no outside call raises,
    every host resolves, the log level is one [logging.basicConfig]
    takes) in which the task can be launched and the workers dial in,
    the error code is [K], with [K = 0] the run returns (exit status
    0) after the upload step of line 313, and with [K <> 0] it ends in
    [sys.exit(-1)], exit status 255, without an upload. *)
Theorem exit_status_follows_workload a extra :
  index (current_host (sm_dist_env a)) (hosts (sm_dist_env a)) = Some 0%nat ->
  let o := (run_train cfg w a extra init_state).1 in
  let st := (run_train cfg w a extra init_state).2 in
  let K := delivered w in
  (forall k, child w = Exited k -> K = k)
  /\ (forall e, child w = Unsupervised e -> is_CalledProcessError e = false ->
        K = -1)
  /\ (K <> 0 -> exit_status o <> Some 0)
  /\ (sound_env w a -> launchable cfg w a -> workers_arrive w a ->
        err_code st = K
        /\ (K = 0 ->
              o = Return tt /\ exit_status o = Some 0
              /\ existsb is_upload (trace st)
                 = truthy (gs_model_artifact_s3 a)
                   && path_exists w
                        (path_join (output_path_of a) "model_checkpoint"))
        /\ (K <> 0 ->
              o = Stop (SysExit (-1)) /\ exit_status o = Some 255
              /\ existsb is_upload (trace st) = false)).
Proof.
  intros Hrank o st K.
  split; [intros k Hk; apply delivered_exited; exact Hk|].
  split; [intros e He Hne; eapply delivered_sentinel; eauto|].
  split; [intros HK; apply master_failure_not_zero; assumption|].
  intros Henv Hl Harr.
  destruct (master_run_sound cfg w a extra Hrank Henv Hl Harr)
    as (Herr & _ & _ & Hcase).
  fold o st in Herr, Hcase. split; [exact Herr|].
  destruct Hcase as [(H0 & Ho & Hup)|(Hn & Ho & Hup)].
  - split; [|intros HK; contradiction].
    intros _. rewrite Ho. repeat split. exact Hup.
  - split; [intros HK; contradiction|].
    intros _. rewrite Ho. repeat split. exact Hup.
Qed.

(** C6: a worker (rank other than 0), in a sound environment (no
    outside call raises, every host resolves, the log level is one
    [logging.basicConfig] takes) and whatever the workload does: the
    error code stays 0 and the run returns, exit status 0, and it does
    so only after [wait_for_exit] has returned, that is, after the
    master's end command arrived or the connection was found closed:
    the last calls of the run are [barrier], [wait_for_exit], the log
    line "Worker End" and the one [sock.close()], followed at most by
    the upload of line 314.  The worker never reads a result; whereas
    the master of the same job does not end with exit status 0 when
    the workload failed. *)
Theorem worker_exits_zero a extra r :
  index (current_host (sm_dist_env a)) (hosts (sm_dist_env a)) = Some r ->
  r <> 0%nat ->
  sound_env w a ->
  let o := (run_train cfg w a extra init_state).1 in
  let st := (run_train cfg w a extra init_state).2 in
  err_code st = 0
  /\ o = Return tt
  /\ exit_status o = Some 0
  /\ (exists pre post,
        trace st
        = pre ++ [EvBarrier; EvWaitForExit; EvLog INFO "Worker End";
                  EvSockClose] ++ post
        /\ existsb is_sock_close pre = false
        /\ forallb is_upload post = true
        /\ (length post <= 1)%nat)
  /\ existsb is_sock_close (trace st) = true
  /\ existsb is_queue_get (trace st) = false
  /\ (forall a0 extra0,
        index (current_host (sm_dist_env a0)) (hosts (sm_dist_env a0))
        = Some 0%nat ->
        delivered w <> 0 ->
        exit_status (run_train cfg w a0 extra0 init_state).1 <> Some 0).
Proof.
  intros Hrank Hr Henv o st.
  destruct (worker_run_sound cfg w a extra r Hrank Hr Henv)
    as (Herr & Ho & Hcl & _ & Hget & Hend).
  fold o st in Herr, Ho, Hcl, Hget, Hend.
  split; [exact Herr|]. split; [exact Ho|].
  split; [rewrite Ho; reflexivity|].
  split; [exact Hend|]. split; [exact Hcl|]. split; [exact Hget|].
  intros a0 extra0 H0 Hd. apply master_failure_not_zero; assumption.
Qed.

End ExitStatusClaims.

(** ** Connections at the barrier *)

Lemma Setup_no_barrier st cl ws :
  Setup st -> ~ In (EvBarrierMaster cl ws) (trace st).
Proof.
  unfold Setup. intros Hst Hin.
  rewrite forallb_forall in Hst. specialize (Hst _ Hin). discriminate.
Qed.

Lemma Setup_no_barrier_b st :
  Setup st -> existsb is_barrier_master (trace st) = false.
Proof.
  apply forallb_setup_not. intros [] He; try reflexivity; discriminate He.
Qed.

Section Barrier.

Variable cfg : config.
Variable w : world.

Ltac barrier_in Hst :=
  trace_form;
  let cl' := fresh "cl'" in let ws' := fresh "ws'" in
  let Hin := fresh "Hin" in
  intros cl' ws' Hin;
  first [ exfalso; exact (Setup_no_barrier _ _ _ Hst Hin)
        | apply in_app_or in Hin; destruct Hin as [Hin|Hin];
          [ exfalso; exact (Setup_no_barrier _ _ _ Hst Hin) | ];
          cbn [In] in Hin;
          repeat match goal with
                 | H : _ \/ _ |- _ => destruct H as [H|H]
                 end;
          try discriminate; try contradiction ].

Lemma branch_barrier a extra cl ws gc sp ip yp rp r n st :
  Accepted n st ->
  wp ((if (r =? 0)%nat
       then master_main cfg w a extra cl ws gc sp ip yp rp
       else worker_main w) ;; finish w a sp)
    (fun _ st' =>
       forall cl' ws', In (EvBarrierMaster cl' ws') (trace st') ->
         r = 0%nat /\ cl' = cl /\ ws' = ws
         /\ count is_accept (trace st') = n
         /\ never_before is_barrier_master is_accept (trace st'))
    (fun _ st' =>
       forall cl' ws', In (EvBarrierMaster cl' ws') (trace st') ->
         r = 0%nat /\ cl' = cl /\ ws' = ws
         /\ count is_accept (trace st') = n
         /\ never_before is_barrier_master is_accept (trace st'))
    (with_err_code 0 st).
Proof.
  intros (Hst & Hcnt & _). destruct (Nat.eqb_spec r 0) as [->|Hr].
  - unfold_branches. branch_steps.
    all: barrier_in Hst.
    all: match goal with
         | H : EvBarrierMaster _ _ = EvBarrierMaster _ _ |- _ =>
             injection H as <- <-
         end.
    all: do 3 (split; [reflexivity|]); split.
    all: try (rewrite count_app, Hcnt; cbn; lia).
    all: apply never_before_suffix;
         [apply Setup_no_barrier_b; exact Hst|reflexivity].
  - unfold_branches. branch_steps.
    all: barrier_in Hst.
Qed.

Lemma branch_reaches_barrier a extra cl ws gc sp ip yp rp st :
  (forall s, fault w s = None) ->
  wp (master_main cfg w a extra cl ws gc sp ip yp rp ;; finish w a sp)
    (fun _ st' => In (EvBarrierMaster cl ws) (trace st'))
    (fun _ st' => In (EvBarrierMaster cl ws) (trace st'))
    (with_err_code 0 st).
Proof.
  intros Hnf. unfold_branches. branch_steps.
  all: try match goal with
           | H : fault _ SiteBarrierMaster = Some _ |- _ =>
               rewrite (Hnf SiteBarrierMaster) in H; discriminate H
           end.
  all: trace_form; apply in_or_app; right; left; reflexivity.
Qed.

Lemma wp_True {A} (m : M A) st : wp m (fun _ _ => True) (fun _ _ => True) st.
Proof. unfold wp. destruct (m st) as [[?|?] ?]; exact I. Qed.

Lemma topology_returns a st ws r st' :
  topology w a st = (Return (ws, r), st') ->
  ws = length (hosts (sm_dist_env a))
  /\ index (current_host (sm_dist_env a)) (hosts (sm_dist_env a)) = Some r.
Proof.
  intros Hrun.
  apply (wp_run _
           (fun p _ =>
              p.1 = length (hosts (sm_dist_env a))
              /\ index (current_host (sm_dist_env a)) (hosts (sm_dist_env a))
                 = Some p.2)
           (fun _ _ => True)) in Hrun; [exact Hrun|].
  unfold topology. wp_steps.
  destruct (index (current_host (sm_dist_env a)) (hosts (sm_dist_env a)))
    as [r0|]; wp_steps; try exact I.
  eapply wp_mono; [apply wp_True| |]; cbv beta.
  - intros _ st1 _. wp_steps. split; reflexivity.
  - intros [e|c|] st1 _; exact I.
Qed.

(** C8: the world size [topology] returns is the length of the host
    list and the rank is the index of the current host in it (its
    first position); and in every run that calls [barrier_master]
    the host has rank 0, the call gets that world size [N] and a
    connection list of [N] slots, slot 0 empty and slot [i] holding
    the [i]-th connection accepted, for whatever connections arrive
    in whatever order; exactly [N - 1] connections were accepted, all
    of them before the barrier.  In a sound environment (no outside
    call raises, every host resolves, the log level is one
    [logging.basicConfig] takes) in which the workers dial in, the
    master does reach the barrier. *)
Theorem master_accepts_every_worker a extra :
  let env := sm_dist_env a in
  let N := length (hosts env) in
  let st := (run_train cfg w a extra init_state).2 in
  (forall st0 ws r st1,
     topology w a st0 = (Return (ws, r), st1) ->
     ws = N
     /\ index (current_host env) (hosts env) = Some r
     /\ hosts env !! r = Some (current_host env)
     /\ forall j, (j < r)%nat -> hosts env !! j <> Some (current_host env))
  /\ (forall cl ws,
        In (EvBarrierMaster cl ws) (trace st) ->
        index (current_host env) (hosts env) = Some 0%nat
        /\ ws = N
        /\ Clients w N cl
        /\ count is_accept (trace st) = (N - 1)%nat
        /\ never_before is_barrier_master is_accept (trace st))
  /\ (index (current_host env) (hosts env) = Some 0%nat ->
      sound_env w a -> workers_arrive w a ->
      exists cl, In (EvBarrierMaster cl N) (trace st)).
Proof.
  intros env N st. split; [|split].
  - intros st0 ws r st1 Hrun.
    destruct (topology_returns _ _ _ _ _ Hrun) as [-> Hidx].
    destruct (index_Some _ _ _ Hidx) as (Hl & _ & Hfirst).
    repeat split; assumption.
  - subst st.
    apply (wp_snd _ (fun st =>
             forall cl ws, In (EvBarrierMaster cl ws) (trace st) ->
               index (current_host env) (hosts env) = Some 0%nat
               /\ ws = N /\ Clients w N cl
               /\ count is_accept (trace st) = (N - 1)%nat
               /\ never_before is_barrier_master is_accept (trace st))).
    apply wp_run_train.
    + intros x st Hst _ cl ws Hin.
      destruct (Setup_no_barrier _ _ _ Hst Hin).
    + intros st r n cl rp Hst Hidx _ Hcl _.
      eapply wp_mono; [apply branch_barrier; exact Hst| |];
        cbv beta; intros _ st' Hb cl' ws' Hin;
        destruct (Hb cl' ws' Hin) as (-> & -> & -> & Hcnt & Hnb);
        destruct (Hcl eq_refl) as [-> Hclients];
        repeat split; try assumption; apply Hclients.
  - intros Hrank Henv Harr. subst st. unfold env in Hrank.
    apply (wp_snd _ (fun st => exists cl, In (EvBarrierMaster cl N) (trace st))).
    apply wp_run_train.
    + intros x st _ Hstop. exfalso.
      apply (sound_env_no_setup_stop w a x Henv); eauto.
    + intros st r n cl rp _ Hidx _ _ _.
      assert (r = 0%nat) as -> by congruence. cbn [Nat.eqb].
      eapply wp_mono;
        [apply branch_reaches_barrier; apply Henv| |]; cbv beta; eauto.
Qed.

End Barrier.

(** ** The result queue *)

Lemma Setup_no_put st : Setup st -> count is_queue_put (trace st) = 0%nat.
Proof.
  unfold Setup, count. induction (trace st) as [|e tr IH]; [reflexivity|].
  cbn [forallb List.filter]. intros [He Htr]%andb_prop.
  destruct e; try discriminate He; cbn; auto.
Qed.

Section LaunchClaims.

Variable cfg : config.
Variable w : world.

Lemma branch_one_put a extra cl ws gc sp ip yp rp r st :
  Setup st ->
  wp ((if (r =? 0)%nat
       then master_main cfg w a extra cl ws gc sp ip yp rp
       else worker_main w) ;; finish w a sp)
    (fun _ st' =>
       (count is_queue_put (trace st') <= 1)%nat
       /\ forall v, In (EvQueuePut v) (trace st') -> v = delivered w)
    (fun _ st' =>
       (count is_queue_put (trace st') <= 1)%nat
       /\ forall v, In (EvQueuePut v) (trace st') -> v = delivered w)
    (with_err_code 0 st).
Proof.
  intros Hst.
  assert (Hno : forall v, ~ In (EvQueuePut v) (trace st)).
  { intros v Hin. unfold Setup in Hst. rewrite forallb_forall in Hst.
    specialize (Hst _ Hin). discriminate. }
  pose proof (Setup_no_put st Hst) as H0.
  destruct (r =? 0)%nat; unfold_branches; branch_steps.
  all: trace_form; try rewrite <- (app_nil_r (trace st)) at 1.
  all: split;
    [ rewrite ?count_app, ?H0; cbn; lia
    | let v := fresh "v" in let Hin := fresh "Hin" in
      intros v Hin;
      first [ destruct (Hno _ Hin)
            | apply in_app_or in Hin; destruct Hin as [Hin|Hin];
              [ destruct (Hno _ Hin) | ];
              cbn [In] in Hin;
              repeat match goal with
                     | H : _ \/ _ |- _ => destruct H as [H|H]
                     end;
              try discriminate; try contradiction;
              injection Hin as <-; reflexivity ] ].
Qed.

(** C4: the thread target [run] always returns, having put exactly
    one value on the result queue: 0 when the child exits with 0, the
    child's return code when [check_call] raises
    [CalledProcessError], and -1 when it raises anything else.  A
    whole run of [run_train] puts at most one value on the queue, and
    only that one. *)
Theorem run_delivers_exactly_one_result cmd st :
  let o := (run w cmd st).1 in
  let st' := (run w cmd st).2 in
  o = Return tt
  /\ state_q st' = state_q st ++ [delivered w]
  /\ count is_queue_put (trace st') = S (count is_queue_put (trace st))
  /\ (child w = Exited 0 -> delivered w = 0)
  /\ (forall rc, child w = Exited rc -> delivered w = rc)
  /\ (forall rc, child w = Unsupervised (CalledProcessError rc) ->
        delivered w = rc)
  /\ (forall e, child w = Unsupervised e ->
        is_CalledProcessError e = false -> delivered w = -1)
  /\ (forall a extra,
        let tr := trace (run_train cfg w a extra init_state).2 in
        (count is_queue_put tr <= 1)%nat
        /\ forall v, In (EvQueuePut v) tr -> v = delivered w).
Proof.
  intros o st'. subst o st'.
  destruct (run_delivers w cmd st)
    as (st1 & -> & Hq & _ & _ & _ & evs & Htr & Hevs).
  cbn [fst snd]. split; [reflexivity|]. split; [exact Hq|]. split.
  { rewrite Htr, !count_app.
    destruct Hevs as [-> | ->]; cbn; lia. }
  split; [intros H; apply delivered_exited; exact H|].
  split; [intros rc H; apply delivered_exited; exact H|].
  split; [intros rc H; unfold delivered; rewrite H; reflexivity|].
  split; [intros e H He; eapply delivered_sentinel; eauto|].
  intros a extra.
  apply (wp_snd _ (fun st =>
           (count is_queue_put (trace st) <= 1)%nat
           /\ forall v, In (EvQueuePut v) (trace st) -> v = delivered w)).
  apply wp_run_train.
  - intros x st0 Hst _. split.
    + rewrite (Setup_no_put _ Hst). lia.
    + intros v Hin. unfold Setup in Hst. rewrite forallb_forall in Hst.
      specialize (Hst _ Hin). discriminate.
  - intros st0 r n cl rp [Hst _] _ _ _ _. apply branch_one_put. exact Hst.
Qed.

End LaunchClaims.

Section CommandClaims.

Variable cfg : config.
Variable w : world.

Lemma train_cmd_inl task script e :
  train_cmd cfg task script = inl e ->
  e = RuntimeError ("Unsupported task type " +:+ task).
Proof.
  intros He. destruct (train_cmd_raises cfg task script e He) as [-> Hn].
  rewrite (train_cmd_unsupported cfg task Hn) in He. congruence.
Qed.

(** C9: with a custom script the module is [graphstorm.run.launch]
    whatever the task type, also in the command of the started
    thread; line 98 raises [RuntimeError("Unsupported task type ...")]
    exactly when there is no custom script and the task type is none
    of the six builtin ones, and [launch_train_task] then raises it
    before doing anything else. *)
Theorem launch_command_selection :
  (forall task s, train_cmd cfg task (Some s) = inr "graphstorm.run.launch")
  /\ (forall task script,
        train_cmd cfg task script
        = inl (RuntimeError ("Unsupported task type " +:+ task))
        <-> script = None /\ ~ In task (builtin_tasks cfg))
  /\ (forall task script e,
        train_cmd cfg task script = inl e ->
        e = RuntimeError ("Unsupported task type " +:+ task))
  /\ (forall task n gc sp ip yp extra s rp st t st',
        launch_train_task cfg w task n gc sp ip yp extra (Some s) rp st
        = (Return t, st') ->
        t !! 3%nat = Some "graphstorm.run.launch")
  /\ (forall task n gc sp ip yp extra rp st,
        ~ In task (builtin_tasks cfg) ->
        launch_train_task cfg w task n gc sp ip yp extra None rp st
        = (Stop (Raise (RuntimeError ("Unsupported task type " +:+ task))),
           st)).
Proof.
  split; [intros; apply train_cmd_custom|].
  split.
  { intros task script. split.
    - apply train_cmd_raises.
    - intros [-> Hn]. apply train_cmd_unsupported. exact Hn. }
  split; [apply train_cmd_inl|].
  split.
  - intros. eapply launch_train_task_custom_returns. eassumption.
  - intros. apply launch_train_task_unsupported. assumption.
Qed.

Lemma launch_train_task_returns task n gc sp ip yp extra script rp st t st' :
  launch_train_task cfg w task n gc sp ip yp extra script rp st
  = (Return t, st') ->
  (exists c ld, t = build_launch_cmd c n gc sp ip yp extra script rp ld)
  /\ In (EvRunStart t) (trace st').
Proof.
  intros Hrun.
  apply (wp_run _
           (fun t st' =>
              (exists c ld,
                 t = build_launch_cmd c n gc sp ip yp extra script rp ld)
              /\ In (EvRunStart t) (trace st'))
           (fun _ _ => True)) in Hrun; [exact Hrun|].
  apply wp_launch_train_task; auto.
  intros c ld _ _ _ t0. split; [eauto|].
  state_simpl. rewrite <- !app_assoc. cbn [app].
  apply in_or_app. right. right. left. reflexivity.
Qed.

(** C10: the argument after [--num-trainers] in the assembled command,
    and in the command of every started thread, is the decimal
    rendering of [num_gpus] when [num_gpus > 0] and of 1 otherwise;
    the number it denotes is at least 1. *)
Theorem launch_command_num_trainers :
  (forall n,
     1 <= num_trainers n
     /\ (0 < n -> num_trainers n = n)
     /\ (n <= 0 -> num_trainers n = 1))
  /\ (forall c n gc sp ip yp extra script rp ld,
        let t := build_launch_cmd c n gc sp ip yp extra script rp ld in
        t !! 4%nat = Some "--num-trainers"
        /\ t !! 5%nat = Some (str_int (num_trainers n)))
  /\ (forall task n gc sp ip yp extra script rp st t st',
        launch_train_task cfg w task n gc sp ip yp extra script rp st
        = (Return t, st') ->
        t !! 4%nat = Some "--num-trainers"
        /\ t !! 5%nat = Some (str_int (num_trainers n))
        /\ In (EvRunStart t) (trace st'))
  /\ (forall n k, str_int (num_trainers n) = str_int k -> 1 <= k).
Proof.
  split.
  { intros n. split; [apply num_trainers_ge_1|].
    split; [apply num_trainers_pos|apply num_trainers_nonpos]. }
  split; [intros; split; reflexivity|].
  split.
  - intros task n gc sp ip yp extra script rp st t st' Hrun.
    destruct (launch_train_task_returns _ _ _ _ _ _ _ _ _ _ _ _ Hrun)
      as [(c & ld & ->) Hin].
    repeat split; assumption.
  - intros n k Heq. unfold str_int in Heq.
    apply (inj pretty) in Heq. subst k. apply num_trainers_ge_1.
Qed.

End CommandClaims.

(** ** The handler of line 289 *)

Section Handler.

Variable cfg : config.
Variable w : world.

Lemma launch_and_wait_caught a extra gc sp ip yp rp st e st1 :
  guarded cfg w a extra gc sp ip yp rp st = (Stop (Raise e), st1) ->
  is_RuntimeError e = true ->
  launch_and_wait cfg w a extra gc sp ip yp rp st
  = (Return tt, with_err_code (-1) (record (EvPrint e) st1)).
Proof.
  intros Hg He. unfold launch_and_wait, try_except, on_RuntimeError.
  rewrite Hg, He. reflexivity.
Qed.

Lemma launch_and_wait_escapes a extra gc sp ip yp rp st e st1 :
  guarded cfg w a extra gc sp ip yp rp st = (Stop (Raise e), st1) ->
  is_RuntimeError e = false ->
  launch_and_wait cfg w a extra gc sp ip yp rp st = (Stop (Raise e), st1).
Proof.
  intros Hg He. unfold launch_and_wait, try_except, on_RuntimeError.
  rewrite Hg, He. reflexivity.
Qed.

Lemma teardown_finish_failed a sp cl ws st :
  fault w SiteEventSet = None ->
  fault w SiteKeepAliveJoin = None ->
  fault w SiteTerminateWorkers = None ->
  fault w SiteSockClose = None ->
  err_code st <> 0 ->
  (teardown w cl ws ;; finish w a sp) st
  = (Stop (SysExit (-1)),
     record (EvLog ERROR "Task failed")
       (record EvSockClose
          (record (EvLog INFO "Master End")
             (record (EvTerminateWorkers cl ws)
                (record EvKeepAliveJoin (record EvTaskEndSet st)))))).
Proof.
  intros H1 H2 H3 H4 Herr.
  unfold teardown, finish, ext, bind, emit, logging, get_err_code, sys_exit.
  rewrite H1, H2, H3, H4. unfold emit. cbn [err_code record].
  destruct (Z.eqb_spec (err_code st) 0) as [|_]; [contradiction|].
  reflexivity.
Qed.

(** C2 (amended): when the body of the [try] (launching the task,
    joining it, reading its result) raises an instance of
    [RuntimeError] (of the class itself or of a class derived from it,
    such as [NotImplementedError]), the handler catches it, prints it
    and sets the error code to -1, so whatever follows the [try] runs;
    when the teardown calls themselves return, the cancellation event
    is set, the keep-alive thread joined, the workers terminated and
    the socket closed, in this order, and the run ends in
    [sys.exit(-1)].  An exception that is not an instance of
    [RuntimeError] is not caught: it leaves [launch_and_wait] as it
    was raised. *)
Theorem runtime_error_is_caught a extra cl ws gc sp ip yp rp st e st1 :
  guarded cfg w a extra gc sp ip yp rp st = (Stop (Raise e), st1) ->
  let st2 := with_err_code (-1) (record (EvPrint e) st1) in
  let tail := (teardown w cl ws ;; finish w a sp) in
  (is_RuntimeError e = true ->
     launch_and_wait cfg w a extra gc sp ip yp rp st = (Return tt, st2)
     /\ (launch_and_wait cfg w a extra gc sp ip yp rp ;; tail) st = tail st2
     /\ (fault w SiteEventSet = None ->
         fault w SiteKeepAliveJoin = None ->
         fault w SiteTerminateWorkers = None ->
         fault w SiteSockClose = None ->
         let r := (launch_and_wait cfg w a extra gc sp ip yp rp ;; tail) st in
         r.1 = Stop (SysExit (-1))
         /\ err_code r.2 = -1
         /\ trace r.2
            = trace st1
              ++ [ EvPrint e; EvTaskEndSet; EvKeepAliveJoin;
                   EvTerminateWorkers cl ws; EvLog INFO "Master End";
                   EvSockClose; EvLog ERROR "Task failed" ]))
  /\ (is_RuntimeError e = false ->
      launch_and_wait cfg w a extra gc sp ip yp rp st
      = (Stop (Raise e), st1)).
Proof.
  intros Hg st2 tail. split.
  - intros He.
    pose proof (launch_and_wait_caught _ _ _ _ _ _ _ _ _ _ Hg He) as Hl.
    fold st2 in Hl.
    assert (Hb : (launch_and_wait cfg w a extra gc sp ip yp rp ;; tail) st
                 = tail st2).
    { unfold bind at 1. rewrite Hl. reflexivity. }
    split; [exact Hl|]. split; [exact Hb|].
    intros H1 H2 H3 H4 r. subst r. rewrite Hb. subst tail.
    rewrite (teardown_finish_failed a sp cl ws st2 H1 H2 H3 H4)
      by (subst st2; cbn; discriminate).
    subst st2. cbn [fst snd trace err_code record with_err_code].
    rewrite <- !app_assoc. repeat split.
  - intros He. apply launch_and_wait_escapes; assumption.
Qed.

End Handler.

(** ** The worker's connect loop *)

Section ConnectLoop.

Variable w : world.

Lemma connect_loop_step addr port n st :
  connect_ok w (dialled st) = false ->
  connect_loop w addr port (S n) st
  = connect_loop w addr port n
      (record (EvSleep 10000%N)
         (record (EvLog INFO "Trying to connect to %s:%s...")
            (with_dialled (S (dialled st))
               (record (EvSockConnect addr port false) st)))).
Proof.
  intros Hok. cbn [connect_loop].
  unfold bind, sock_connect, logging, emit. rewrite Hok. reflexivity.
Qed.

(** Every refused dial is followed by a sleep of ten seconds and the
    next dial, until the budget is used up; the loop then ends
    normally. *)
Lemma connect_loop_refused addr port n :
  forall st,
    (forall k, connect_ok w k = false) ->
    (connect_loop w addr port n st).1 = Return tt
    /\ dialled (connect_loop w addr port n st).2 = (dialled st + n)%nat
    /\ trace (connect_loop w addr port n st).2
       = trace st ++ concat (replicate n (refused addr port)).
Proof.
  induction n as [|n IH]; intros st Hall.
  - cbn. rewrite Nat.add_0_r, app_nil_r. auto.
  - rewrite (connect_loop_step addr port n st (Hall _)).
    match goal with
    | |- context [connect_loop w addr port n ?s] =>
        destruct (IH s Hall) as (Ho & Hd & Ht)
    end.
    rewrite Ho, Hd, Ht. cbn [dialled trace record with_dialled].
    split; [reflexivity|]. split; [lia|].
    cbn [replicate concat]. unfold refused at 2.
    rewrite <- !app_assoc. reflexivity.
Qed.

(** The first dial that succeeds ends the loop. *)
Lemma connect_loop_connected addr port n st :
  connect_ok w (dialled st) = true ->
  connect_loop w addr port (S n) st
  = (Return tt,
     with_dialled (S (dialled st))
       (record (EvSockConnect addr port true) st)).
Proof.
  intros Hok. cbn [connect_loop]. unfold bind, sock_connect.
  rewrite Hok. reflexivity.
Qed.

End ConnectLoop.

(** ** Concrete runs *)

(** C3: a worker (rank 1 of three hosts) whose thirty dials are all
    refused.  The loop of lines 224-230 sleeps ten seconds after each of
    them and then ends normally: [connect_peers] returns, its last act
    the log line "Connected to ...", and [run_train] goes on to write
    the ip list and to download its inputs before the barrier helper
    fails on the unconnected socket. *)
Theorem worker_continues_after_refused_dials :
  let a := args3 "algo-2" None in
  let c := connect_peers world_refused a 3 1 init_state in
  let r := run_train graphstorm_config world_refused a [] init_state in
  c.1 = Return []
  /\ dialled c.2 = 30%nat
  /\ trace c.2
     = [EvSocket] ++ concat (replicate 30 (refused "10.0.0.1" 12345))
       ++ [EvLog INFO "Connected to %s:%s"]
  /\ count is_connect (trace r.2) = 30%nat
  /\ drop 100 (trace r.2)
     = [ EvLog INFO "Connected to %s:%s";
         EvOpen "/opt/ml/data/ip_list.txt";
         EvWrite "/opt/ml/data/ip_list.txt" ("ip-of-algo-1" +:+ newline);
         EvWrite "/opt/ml/data/ip_list.txt" ("ip-of-algo-2" +:+ newline);
         EvWrite "/opt/ml/data/ip_list.txt" ("ip-of-algo-3" +:+ newline);
         EvSession "us-east-1";
         EvDownloadYamlConfig "s3://b/train.yaml" "/opt/ml/data";
         EvDownloadGraph "s3://b/graph" "g" 1 3 "/opt/ml/data" ]
  /\ r.1 = Stop (Raise (OSError "[Errno 32] Broken pipe")).
Proof. vm_compute. repeat split. Qed.

(** C2, as stated, fails: with [LD_LIBRARY_PATH] unset the master, past
    the barrier and inside the [try], raises [KeyError]; the handler of
    line 289 does not catch it, and the run ends there: the error code
    is still 0, the cancellation event is not set, the keep-alive thread
    is not joined, no worker is terminated and the socket is not
    closed. *)
Lemma key_error_skips_teardown :
  let a := args3 "algo-1" None in
  let r := run_train graphstorm_config world_no_ld a [] init_state in
  r.1 = Stop (Raise (KeyError "LD_LIBRARY_PATH"))
  /\ err_code r.2 = 0
  /\ drop 22 (trace r.2)
     = [ EvBarrierMaster [None; Some 7%nat; Some 5%nat] 3;
         EvKeepAliveStart [None; Some 7%nat; Some 5%nat] 3;
         EvQueueNew ]
  /\ existsb is_task_end_set (trace r.2) = false
  /\ existsb is_keep_alive_join (trace r.2) = false
  /\ existsb is_terminate (trace r.2) = false
  /\ existsb is_sock_close (trace r.2) = false.
Proof. vm_compute. repeat split. Qed.

(** The same job when everything works: the master's trace from the
    barrier on. *)
Lemma master_run_example :
  let a := args3 "algo-1" (Some "s3://out/") in
  let r := run_train graphstorm_config (world3 (Exited 0) no_fault) a ["--x"]
             init_state in
  r.1 = Return tt
  /\ filter (fun e => setup_event e = false) (trace r.2)
     = [ EvBarrierMaster [None; Some 7%nat; Some 5%nat] 3;
         EvQueuePut 0; EvQueueGet 0; EvTaskEndSet; EvKeepAliveJoin;
         EvTerminateWorkers [None; Some 7%nat; Some 5%nat] 3;
         EvSockClose;
         EvUploadModelArtifacts "s3://out" "/tmp/gsgnn_model/model_checkpoint" ].
Proof. vm_compute. repeat split. Qed.

Lemma sound_world3 c me out : sound_env (world3 c no_fault) (args3 me out).
Proof.
  split; [reflexivity|]. split; [|reflexivity].
  intros h _. eexists. reflexivity.
Defined.

(** The master of the three-node job when the workload exits with 3. *)
Lemma exit_status_follows_workload_witness :
  index "algo-1" ["algo-1"; "algo-2"; "algo-3"] = Some 0%nat
  /\ exit_status
       (run_train graphstorm_config (world3 (Exited 3) no_fault)
          (args3 "algo-1" None) [] init_state).1 = Some 255.
Proof.
  split; [reflexivity|].
  destruct (exit_status_follows_workload graphstorm_config
              (world3 (Exited 3) no_fault) (args3 "algo-1" None) [] eq_refl)
    as (_ & _ & _ & H).
  destruct H as (_ & _ & H).
  - apply sound_world3.
  - split; [right; vm_compute; tauto|eexists; reflexivity].
  - vm_compute. lia.
  - apply H. vm_compute. discriminate.
Defined.



(** A task type that is none of the builtin ones: the handler of line
    289 catches the [RuntimeError] of line 98 and the teardown runs. *)
Lemma unsupported_task_example :
  let a := args3_task "graph_classification" "algo-1" None in
  let r := run_train graphstorm_config (world3 (Exited 0) no_fault) a []
             init_state in
  r.1 = Stop (SysExit (-1))
  /\ err_code r.2 = -1
  /\ drop 22 (trace r.2)
     = [ EvBarrierMaster [None; Some 7%nat; Some 5%nat] 3;
         EvKeepAliveStart [None; Some 7%nat; Some 5%nat] 3;
         EvQueueNew;
         EvPrint (RuntimeError "Unsupported task type graph_classification");
         EvTaskEndSet; EvKeepAliveJoin;
         EvTerminateWorkers [None; Some 7%nat; Some 5%nat] 3;
         EvLog INFO "Master End"; EvSockClose; EvLog ERROR "Task failed" ].
Proof. vm_compute. repeat split. Qed.

(** C5, as stated, fails: with a task type that is none of the builtin
    ones the master raises the [RuntimeError] of line 98 inside the
    [try]; the handler sets the error code, and [terminate_workers] is
    called although nothing was put on the result queue and nothing
    was ever taken from it. *)
Lemma terminate_without_queue_read :
  let a := args3_task "graph_classification" "algo-1" None in
  let r := run_train graphstorm_config (world3 (Exited 0) no_fault) a []
             init_state in
  index (current_host (sm_dist_env a)) (hosts (sm_dist_env a)) = Some 0%nat
  /\ existsb is_terminate (trace r.2) = true
  /\ existsb is_queue_put (trace r.2) = false
  /\ existsb is_queue_get (trace r.2) = false
  /\ precedes_from false is_queue_get is_terminate (trace r.2) = false.
Proof. vm_compute. repeat split. Qed.

(** A [NotImplementedError] raised when the thread is started is an
    instance of [RuntimeError]: the handler catches it and the
    teardown runs. *)
Lemma not_implemented_error_example :
  let a := args3 "algo-1" None in
  let r := run_train graphstorm_config
             (world3 (Exited 0) start_not_implemented) a [] init_state in
  r.1 = Stop (SysExit (-1))
  /\ err_code r.2 = -1
  /\ drop 22 (trace r.2)
     = [ EvBarrierMaster [None; Some 7%nat; Some 5%nat] 3;
         EvKeepAliveStart [None; Some 7%nat; Some 5%nat] 3;
         EvQueueNew; EvLog DEBUG "Launch training %s";
         EvPrint (OtherException "NotImplementedError" true);
         EvTaskEndSet; EvKeepAliveJoin;
         EvTerminateWorkers [None; Some 7%nat; Some 5%nat] 3;
         EvLog INFO "Master End"; EvSockClose; EvLog ERROR "Task failed" ].
Proof. vm_compute. repeat split. Qed.

(** The log level [basic_format] names the format string of the
    [logging] module, which is no level: line 196 raises and the run
    ends before a socket is opened.  A name the module does not have
    leaves the level alone. *)
Lemma log_level_example :
  let r := run_train graphstorm_config (world3 (Exited 0) no_fault)
             (args3_level "basic_format" "algo-1") [] init_state in
  r.1 = Stop (Raise (ValueError
          "Unknown level: '%(levelname)s:%(name)s:%(message)s'"))
  /\ trace r.2
     = [ EvMakedirs "/opt/ml/model"; EvServiceSshStart;
         EvLog INFO "Known args %s"; EvLog INFO "Unknown args %s";
         EvSetEnviron "WORLD_SIZE" "3" ]
  /\ set_level_error (logging_getattr (upper "Debug")) = None
  /\ set_level_error (logging_getattr (upper "verbose")) = None
  /\ set_level_error (logging_getattr (upper "_styles"))
     = Some (OtherException "TypeError" false).
Proof. vm_compute. repeat split. Qed.

(** [repr] picks double quotes for an item that holds a single quote,
    and escapes the backslash. *)
Lemma repr_example :
  repr_list ["algo-1"; "algo-2"] = "['algo-1', 'algo-2']"
  /\ repr_str "al'go" = String dquote ("al'go" +:+ String dquote "")
  /\ repr_str (String backslash "n")
     = "'" +:+ String backslash (String backslash "n'").
Proof. vm_compute. repeat split. Qed.

(** The handler at work on the [RuntimeError] of line 98. *)
Lemma runtime_error_is_caught_witness :
  let a := args3_task "graph_classification" "algo-1" None in
  let w := world3 (Exited 0) no_fault in
  let cl := [None; Some 7%nat; Some 5%nat] in
  let body :=
    guarded graphstorm_config w a [] "g.json" "/opt/ml/model/model_checkpoint"
      "ip_list.txt" "train.yaml" None in
  let whole :=
    (launch_and_wait graphstorm_config w a [] "g.json"
       "/opt/ml/model/model_checkpoint" "ip_list.txt" "train.yaml" None ;;
     teardown w cl 3 ;; finish w a "/opt/ml/model/model_checkpoint")%py in
  (body init_state).1
  = Stop (Raise (RuntimeError "Unsupported task type graph_classification"))
  /\ (whole init_state).1 = Stop (SysExit (-1))
  /\ err_code (whole init_state).2 = -1.
Proof.
  cbv zeta. split; [reflexivity|].
  pose proof
    (runtime_error_is_caught graphstorm_config (world3 (Exited 0) no_fault)
       (args3_task "graph_classification" "algo-1" None) []
       [None; Some 7%nat; Some 5%nat] 3%nat "g.json"
       "/opt/ml/model/model_checkpoint" "ip_list.txt" "train.yaml" None
       init_state
       (RuntimeError "Unsupported task type graph_classification")
       (with_state_q [] (record EvQueueNew init_state)) eq_refl) as [H _].
  destruct (H eq_refl) as (_ & _ & H3).
  destruct (H3 eq_refl eq_refl eq_refl eq_refl) as (Ho & He & _).
  split; assumption.
Defined.

(** The order of the master's last steps in the three-node job. *)
Lemma master_teardown_order_witness :
  index "algo-1" ["algo-1"; "algo-2"; "algo-3"] = Some 0%nat
  /\ teardown_order
       (trace (run_train graphstorm_config (world3 (Exited 3) no_fault)
                 (args3 "algo-1" None) [] init_state).2).
Proof.
  split; [reflexivity|].
  apply (master_teardown_order graphstorm_config (world3 (Exited 3) no_fault)
           (args3 "algo-1" None) []).
  reflexivity.
Defined.

(** Worker [algo-2] of the three-node job while the workload exits
    with 3. *)
Lemma worker_exits_zero_witness :
  index "algo-2" ["algo-1"; "algo-2"; "algo-3"] = Some 1%nat
  /\ (run_train graphstorm_config (world3 (Exited 3) no_fault)
        (args3 "algo-2" None) [] init_state).1 = Return tt
  /\ exit_status
       (run_train graphstorm_config (world3 (Exited 3) no_fault)
          (args3 "algo-2" None) [] init_state).1 = Some 0.
Proof.
  split; [reflexivity|].
  destruct (worker_exits_zero graphstorm_config (world3 (Exited 3) no_fault)
              (args3 "algo-2" None) [] 1%nat eq_refl
              ltac:(discriminate) (sound_world3 _ _ _))
    as (_ & Ho & Hs & _).
  split; assumption.
Defined.

(** ** How a run ends *)

Lemma existsb_false_count P (tr : list event) :
  existsb P tr = false -> count P tr = 0%nat.
Proof.
  unfold count. induction tr as [|e tr IH]; [reflexivity|].
  cbn [existsb List.filter]. intros [He Htr]%orb_false_elim.
  rewrite He. auto.
Qed.

Section RunEnd.

Variable cfg : config.
Variable w : world.

Lemma branch_run_end a extra cl ws gc sp ip yp rp r st :
  Setup st ->
  wp ((if (r =? 0)%nat
       then master_main cfg w a extra cl ws gc sp ip yp rp
       else worker_main w) ;; finish w a sp)
    (fun u st' => run_end (Return u) st')
    (fun x st' => run_end (Stop x) st')
    (with_err_code 0 st).
Proof.
  intros Hst.
  pose proof (existsb_false_count _ _ (Setup_no_close _ Hst)) as H0.
  destruct (r =? 0)%nat; unfold_branches; branch_steps.
  all: unfold run_end; trace_form; rewrite ?count_app, ?H0;
       cbn [count List.filter is_sock_close length Nat.add];
       repeat split; try assumption; try lia; try discriminate.
Qed.

Lemma run_train_end a extra :
  run_end (run_train cfg w a extra init_state).1
    (run_train cfg w a extra init_state).2.
Proof.
  apply (wp_both _ run_end). apply wp_run_train.
  - intros x st Hst Hstop.
    pose proof (existsb_false_count _ _ (Setup_no_close _ Hst)) as H0.
    destruct Hstop
      as [(s & e & _ & ->)|[(e & _ & ->)|[(_ & m & ->)|[(_ & e & ->)
                                                       |(-> & _)]]]];
      cbn; lia.
  - intros st r n cl rp [Hst _] _ _ _ _. apply branch_run_end. exact Hst.
Qed.

(** X1: a run of [run_train] returns, or stops on an exception, or
    blocks, or ends in [sys.exit(-1)]: whatever code the child
    returned, the exit status of the process is 0, 1 or 255.  The run
    returns only with error code 0, and calls [sys.exit] only with a
    nonzero one and always with -1. *)
Theorem exit_status_is_0_1_or_255 a extra :
  let o := (run_train cfg w a extra init_state).1 in
  let st := (run_train cfg w a extra init_state).2 in
  (exit_status o = None \/ exit_status o = Some 0 \/ exit_status o = Some 1
   \/ exit_status o = Some 255)
  /\ (forall c, o = Stop (SysExit c) -> c = -1 /\ err_code st <> 0)
  /\ (forall u, o = Return u -> err_code st = 0).
Proof.
  intros o st. pose proof (run_train_end a extra) as H. fold o st in H.
  split; [|split].
  - destruct o as [u|[e|c|]]; cbn in *; auto.
    destruct H as (-> & _). auto.
  - intros c ->. cbn in H. tauto.
  - intros u ->. cbn in H. tauto.
Qed.

(** X2: whenever a run returns or ends in [sys.exit], [sock.close()]
    was called, exactly once; no run calls it twice. *)
Theorem socket_closed_once_before_exit a extra :
  let o := (run_train cfg w a extra init_state).1 in
  let tr := trace (run_train cfg w a extra init_state).2 in
  (count is_sock_close tr <= 1)%nat
  /\ (forall u, o = Return u -> count is_sock_close tr = 1%nat)
  /\ (forall c, o = Stop (SysExit c) -> count is_sock_close tr = 1%nat).
Proof.
  intros o tr. pose proof (run_train_end a extra) as H. fold o in H.
  unfold tr. split; [|split].
  - destruct o as [u|[e|c|]]; cbn in H; intuition lia.
  - intros u ->. cbn in H. tauto.
  - intros c ->. cbn in H. tauto.
Qed.

End RunEnd.

(** ** The handler and the result *)

Lemma Setup_no_print st e : Setup st -> ~ In (EvPrint e) (trace st).
Proof.
  unfold Setup. intros Hst Hin.
  rewrite forallb_forall in Hst. specialize (Hst _ Hin). discriminate.
Qed.

Lemma Setup_no_get st v : Setup st -> ~ In (EvQueueGet v) (trace st).
Proof.
  unfold Setup. intros Hst Hin.
  rewrite forallb_forall in Hst. specialize (Hst _ Hin). discriminate.
Qed.

Lemma Setup_no_upload_in st s p :
  Setup st -> ~ In (EvUploadModelArtifacts s p) (trace st).
Proof.
  unfold Setup. intros Hst Hin.
  rewrite forallb_forall in Hst. specialize (Hst _ Hin). discriminate.
Qed.

(** Membership in a trace that extends a setup trace by known events. *)
Ltac in_suffix Hno :=
  let Hin := fresh "Hin" in
  intros Hin;
  first [ exfalso; exact (Hno _ Hin)
        | apply in_app_or in Hin; destruct Hin as [Hin|Hin];
          [ exfalso; exact (Hno _ Hin) | ];
          cbn [In] in Hin;
          repeat match goal with
                 | H : _ \/ _ |- _ => destruct H as [H|H]
                 end;
          try discriminate; try contradiction ].

Section Handler2.

Variable cfg : config.
Variable w : world.

Lemma branch_result_settled a extra cl ws gc sp ip yp rp r st :
  Setup st ->
  wp ((if (r =? 0)%nat
       then master_main cfg w a extra cl ws gc sp ip yp rp
       else worker_main w) ;; finish w a sp)
    (fun u st' => result_settled w (Return u) st')
    (fun x st' => result_settled w (Stop x) st')
    (with_err_code 0 st).
Proof.
  intros Hst.
  assert (Hnp : forall e, ~ In (EvPrint e) (trace st))
    by (intros e; apply Setup_no_print; exact Hst).
  assert (Hng : forall v, ~ In (EvQueueGet v) (trace st))
    by (intros v; apply Setup_no_get; exact Hst).
  assert (Hgb : existsb is_queue_get (trace st) = false).
  { apply forallb_setup_not; [|exact Hst].
    intros [] He; try reflexivity; discriminate He. }
  assert (Hpb : existsb is_print (trace st) = false).
  { apply forallb_setup_not; [|exact Hst].
    intros [] He; try reflexivity; discriminate He. }
  destruct (r =? 0)%nat; unfold_branches; branch_steps.
  all: queue_facts; unfold result_settled; trace_form.
  all: split;
    [ let e := fresh "e" in intros e; in_suffix Hnp
    | let v := fresh "v" in intros v; in_suffix Hng ].
  all: try match goal with
           | H : EvPrint _ = EvPrint _ |- _ => injection H as <-
           | H : EvQueueGet _ = EvQueueGet _ |- _ => injection H as <-
           end.
  all: rewrite ?existsb_app, ?Hgb, ?Hpb;
       cbn [existsb is_queue_get is_print orb];
       repeat split; try assumption; try reflexivity; try lia;
       try discriminate.
Qed.

Lemma run_train_result_settled a extra :
  result_settled w (run_train cfg w a extra init_state).1
    (run_train cfg w a extra init_state).2.
Proof.
  apply (wp_both _ (result_settled w)). apply wp_run_train.
  - intros x st Hst _. split.
    + intros e Hin. destruct (Setup_no_print _ _ Hst Hin).
    + intros v Hin. destruct (Setup_no_get _ _ Hst Hin).
  - intros st r n cl rp [Hst _] _ _ _ _. apply branch_result_settled.
    exact Hst.
Qed.

(** X3: in every run, an exception printed by the handler of line 289
    is a [RuntimeError]; the run then has error code -1, has not read
    the result queue, and does not return normally. *)
Theorem printed_exception_means_failure a extra e :
  let o := (run_train cfg w a extra init_state).1 in
  let st := (run_train cfg w a extra init_state).2 in
  In (EvPrint e) (trace st) ->
  is_RuntimeError e = true
  /\ err_code st = -1
  /\ (forall u, o <> Return u)
  /\ existsb is_queue_get (trace st) = false.
Proof.
  intros o st Hin.
  destruct (run_train_result_settled a extra) as [H _]. exact (H e Hin).
Qed.

(** X4: in every run, a value read from the result queue is the one
    the supervising thread delivered; it becomes the error code, the
    queue is empty afterwards, and the handler of line 289 has not
    run. *)
Theorem queue_read_is_delivered a extra v :
  let st := (run_train cfg w a extra init_state).2 in
  In (EvQueueGet v) (trace st) ->
  v = delivered w /\ err_code st = v /\ state_q st = []
  /\ existsb is_print (trace st) = false.
Proof.
  intros st Hin.
  destruct (run_train_result_settled a extra) as [_ H]. exact (H v Hin).
Qed.

(** X5: the body of the [try] never blocks on the result queue: the
    join has let the thread deliver before the read.  When the body
    returns, the error code is the delivered value and the queue is
    empty again. *)
Theorem guarded_never_blocks a extra gc sp ip yp rp st :
  let r := guarded cfg w a extra gc sp ip yp rp st in
  r.1 <> Stop Blocked
  /\ (forall u, r.1 = Return u ->
        err_code r.2 = delivered w /\ state_q r.2 = []).
Proof.
  intros r. subst r.
  apply (wp_both _ (fun o st' =>
           o <> Stop Blocked
           /\ (forall u, o = Return u ->
                 err_code st' = delivered w /\ state_q st' = []))).
  unfold guarded. branch_steps.
  all: queue_facts; split; try discriminate; intros; try discriminate;
       split; reflexivity.
Qed.

End Handler2.

(** ** The upload destination *)

Lemma rstrip_no_trailing c s t : rstrip c s <> t +:+ String c EmptyString.
Proof.
  revert t. induction s as [|a s IH]; intros t; cbn [rstrip].
  - destruct t; discriminate.
  - destruct (Ascii.eqb_spec a c) as [->|Hac]; cbn [andb].
    + destruct (String.eqb_spec (rstrip c s) "") as [Hr|Hr].
      * destruct t; discriminate.
      * destruct t as [|b t]; cbn.
        -- intros [= Hs]. contradiction.
        -- intros [= _ Hs]. exact (IH _ Hs).
    + destruct t as [|b t]; cbn.
      * intros [= Ha _]. contradiction.
      * intros [= _ Hs]. exact (IH _ Hs).
Qed.

Lemma rstrip_slashes_suffix s : exists n, s = rstrip "/" s +:+ slashes n.
Proof.
  induction s as [|a s [n IH]]; cbn [rstrip].
  - exists 0%nat. reflexivity.
  - destruct (Ascii.eqb_spec a "/") as [->|Hac]; cbn [andb].
    + destruct (String.eqb_spec (rstrip "/" s) "") as [Hr|Hr].
      * exists (S n). rewrite Hr in IH.
        apply (f_equal (String "/")) in IH. exact IH.
      * exists n. apply (f_equal (String "/")) in IH. exact IH.
    + exists n. apply (f_equal (String a)) in IH. exact IH.
Qed.

Lemma rstrip_slashes n : rstrip "/" (slashes n) = "".
Proof.
  induction n as [|n IH]; [reflexivity|].
  cbn [slashes rstrip]. rewrite IH. reflexivity.
Qed.

Lemma truthy_nonempty s : truthy (Some s) = true -> s <> "".
Proof. cbn. destruct (String.eqb_spec s ""); [discriminate|auto]. Qed.

Section UploadDestination.

Variable cfg : config.
Variable w : world.

Lemma branch_upload_destination a extra cl ws gc ip yp rp r st :
  Setup st ->
  wp ((if (r =? 0)%nat
       then master_main cfg w a extra cl ws gc (save_model_path_of a) ip yp rp
       else worker_main w) ;; finish w a (save_model_path_of a))
    (fun _ st' =>
       (count is_upload (trace st') <= 1)%nat
       /\ forall s3 p, In (EvUploadModelArtifacts s3 p) (trace st') ->
            gs_model_artifact_s3 a = Some s3 /\ s3 <> ""
            /\ p = save_model_path_of a)
    (fun _ st' =>
       (count is_upload (trace st') <= 1)%nat
       /\ forall s3 p, In (EvUploadModelArtifacts s3 p) (trace st') ->
            gs_model_artifact_s3 a = Some s3 /\ s3 <> ""
            /\ p = save_model_path_of a)
    (with_err_code 0 st).
Proof.
  intros Hst.
  pose proof (existsb_false_count _ _ (Setup_no_upload _ Hst)) as H0.
  destruct (r =? 0)%nat; unfold_branches; branch_steps.
  all: trace_form.
  all: split.
  all: try (rewrite ?count_app, ?H0;
            cbn [count List.filter is_upload length Nat.add]; lia).
  all: let s3 := fresh "s3" in let p := fresh "p" in let Hin := fresh "Hin" in
       intros s3 p Hin;
       first [ exfalso; exact (Setup_no_upload_in _ _ _ Hst Hin)
             | apply in_app_or in Hin; destruct Hin as [Hin|Hin];
               [ exfalso; exact (Setup_no_upload_in _ _ _ Hst Hin) | ];
               cbn [In] in Hin;
               repeat match goal with
                      | H : _ \/ _ |- _ => destruct H as [H|H]
                      end;
               try discriminate; try contradiction ].
  all: match goal with
       | H : EvUploadModelArtifacts _ _ = EvUploadModelArtifacts _ _ |- _ =>
           injection H as <- <-
       end.
  all: match goal with
       | H : _ && _ = true |- _ => apply andb_prop in H as [Ht _]
       end.
  all: repeat split; try assumption; apply truthy_nonempty; exact Ht.
Qed.

Lemma run_train_upload_destination a extra :
  let tr := trace (run_train cfg w a extra init_state).2 in
  (count is_upload tr <= 1)%nat
  /\ forall s3 p, In (EvUploadModelArtifacts s3 p) tr ->
       gs_model_artifact_s3 a = Some s3 /\ s3 <> ""
       /\ p = save_model_path_of a.
Proof.
  cbv zeta.
  apply (wp_snd _ (fun st =>
           (count is_upload (trace st) <= 1)%nat
           /\ forall s3 p, In (EvUploadModelArtifacts s3 p) (trace st) ->
                gs_model_artifact_s3 a = Some s3 /\ s3 <> ""
                /\ p = save_model_path_of a)).
  apply wp_run_train.
  - intros x st Hst _. split.
    + rewrite (existsb_false_count _ _ (Setup_no_upload _ Hst)). lia.
    + intros s3 p Hin. destruct (Setup_no_upload_in _ _ _ Hst Hin).
  - intros st r n cl rp [Hst _] _ _ _ _.
    apply branch_upload_destination. exact Hst.
Qed.

(** X6: in every run the upload helper is called at most once, from
    the path the workload was told to save to, and to the destination
    [model_artifact_s3] with its trailing slashes removed: a non-empty
    string that does not end in a slash. *)
Theorem upload_destination_is_stripped a extra s3 p :
  let tr := trace (run_train cfg w a extra init_state).2 in
  In (EvUploadModelArtifacts s3 p) tr ->
  (count is_upload tr <= 1)%nat
  /\ p = save_model_path_of a
  /\ s3 <> ""
  /\ (forall t, s3 <> t +:+ "/")
  /\ exists n, model_artifact_s3 a = Some (s3 +:+ slashes n).
Proof.
  intros tr Hin.
  destruct (run_train_upload_destination a extra) as [Hc H].
  destruct (H s3 p Hin) as (Hgs & Hne & ->).
  split; [exact Hc|]. split; [reflexivity|]. split; [exact Hne|].
  unfold gs_model_artifact_s3 in Hgs.
  destruct (truthy (model_artifact_s3 a)); [|discriminate].
  destruct (model_artifact_s3 a) as [m|]; [|discriminate].
  cbn in Hgs. injection Hgs as <-. split.
  - intros t. apply rstrip_no_trailing.
  - destruct (rstrip_slashes_suffix m) as [n Hn]. exists n. congruence.
Qed.

(** X7: a destination made of slashes only counts as given when the
    output path is chosen (the model is saved under /tmp/gsgnn_model/)
    but strips to the empty string, so no run uploads anything. *)
Theorem slashes_only_destination_never_uploads a extra n :
  model_artifact_s3 a = Some (slashes (S n)) ->
  save_model_path_of a = "/tmp/gsgnn_model/model_checkpoint"
  /\ gs_model_artifact_s3 a = Some ""
  /\ existsb is_upload (trace (run_train cfg w a extra init_state).2) = false.
Proof.
  intros Hm.
  assert (Hgs : gs_model_artifact_s3 a = Some "").
  { unfold gs_model_artifact_s3. rewrite Hm. cbn [truthy slashes String.eqb].
    cbn. rewrite rstrip_slashes. reflexivity. }
  split; [|split; [exact Hgs|]].
  - unfold save_model_path_of, output_path_of. rewrite Hm. reflexivity.
  - destruct (existsb is_upload _) eqn:Hex; [|reflexivity].
    apply existsb_exists in Hex as (e & Hin & He).
    destruct e; try discriminate He.
    destruct (run_train_upload_destination a extra) as [_ H].
    destruct (H _ _ Hin) as (Hgs' & Hne & _). congruence.
Qed.

End UploadDestination.

(** ** Stops before the barrier *)

Section BeforeBarrier.

Variable cfg : config.
Variable w : world.

(** X8: when fewer than [N - 1] workers ever dial in, the master, in
    an otherwise sound environment (no outside call raises, every host
    resolves, the log level is one [logging.basicConfig] takes),
    blocks for ever in [sock.accept()]: the run neither returns nor
    fails, and it never reaches the barrier, let alone the launch. *)
Theorem master_blocks_without_workers a extra :
  index (current_host (sm_dist_env a)) (hosts (sm_dist_env a)) = Some 0%nat ->
  sound_env w a ->
  (length (arrivals w) < length (hosts (sm_dist_env a)) - 1)%nat ->
  let r := run_train cfg w a extra init_state in
  r.1 = Stop Blocked
  /\ existsb is_barrier_master (trace r.2) = false
  /\ existsb is_queue_put (trace r.2) = false
  /\ existsb is_sock_close (trace r.2) = false.
Proof.
  intros Hrank Henv Hshort r. subst r.
  apply (wp_both _ (fun o st =>
           o = Stop Blocked
           /\ existsb is_barrier_master (trace st) = false
           /\ existsb is_queue_put (trace st) = false
           /\ existsb is_sock_close (trace st) = false)).
  apply wp_run_train.
  - intros x st Hst Hstop. split; [|split; [|split]].
    + destruct Henv as (Hnf & Hres & Hlvl).
      destruct Hstop
        as [(s & e & Hf & _)|[(e & He & _)|[(Hn & _)|[((h & Hin & Hh) & _)
                                                     |(-> & _)]]]].
      * rewrite Hnf in Hf. discriminate.
      * unfold valid_log_level in Hlvl. congruence.
      * congruence.
      * destruct (Hres h Hin) as [ip Hip]. congruence.
      * reflexivity.
    + apply Setup_no_barrier_b. exact Hst.
    + apply forallb_setup_not; [|exact Hst].
      intros [] He; try reflexivity; discriminate He.
    + apply Setup_no_close. exact Hst.
  - intros st r n cl rp _ Hidx _ Hcl _. exfalso.
    assert (r = 0%nat) as -> by congruence.
    destruct (Hcl eq_refl) as (_ & _ & _ & Hslots).
    destruct (Hslots (S (length (arrivals w)))) as (c & Hc & _); [lia|].
    replace (S (length (arrivals w)) - 1)%nat with (length (arrivals w))
      in Hc by lia.
    apply lookup_lt_Some in Hc. lia.
Qed.



End BeforeBarrier.

(** ** The ip list, the dial loop and the launch *)

Lemma record_all_trace evs st : trace (record_all evs st) = trace st ++ evs.
Proof.
  revert st. induction evs as [|e evs IH]; intros st; cbn [record_all fold_left].
  - rewrite app_nil_r. reflexivity.
  - change (trace (record_all evs (record e st)) = trace st ++ e :: evs).
    rewrite IH. cbn [trace record]. rewrite <- app_assoc. reflexivity.
Qed.

Section Loops.

Variable cfg : config.
Variable w : world.

Lemma write_ip_list_run path hs st :
  write_ip_list w path hs st
  = (if all_resolve w hs then Return tt
     else Stop (Raise (OSError "gaierror")),
     record_all
       (map (fun ip => EvWrite path (ip +:+ newline)) (resolved_prefix w hs))
       st).
Proof.
  revert st. induction hs as [|h hs IH]; intros st; [reflexivity|].
  cbn [write_ip_list all_resolve forallb resolved_prefix].
  unfold bind at 1, resolve.
  destruct (gethostbyname w h) as [ip|]; [|reflexivity].
  unfold ret. unfold bind at 1, emit. cbn [andb map].
  rewrite IH. reflexivity.
Qed.

Lemma wp_write_ip_list_run path hs Q (E : stop -> state -> Prop) st :
  (let st' :=
     record_all
       (map (fun ip => EvWrite path (ip +:+ newline)) (resolved_prefix w hs))
       st in
   if all_resolve w hs then Q tt st' else E (Raise (OSError "gaierror")) st') ->
  wp (write_ip_list w path hs) Q E st.
Proof.
  unfold wp. rewrite write_ip_list_run. cbv zeta.
  destruct (all_resolve w hs); auto.
Qed.

(** X10: the ip list file gets one line per host, in the order of the
    host list, each the address of the host followed by a line feed;
    when a host does not resolve the loop raises there, leaving the
    lines of the hosts before it. *)
Theorem ip_list_has_one_line_per_host path hs st :
  write_ip_list w path hs st
  = (if all_resolve w hs then Return tt
     else Stop (Raise (OSError "gaierror")),
     record_all
       (map (fun ip => EvWrite path (ip +:+ newline)) (resolved_prefix w hs))
       st)
  /\ trace (write_ip_list w path hs st).2
     = trace st
       ++ map (fun ip => EvWrite path (ip +:+ newline)) (resolved_prefix w hs)
  /\ (all_resolve w hs = true ->
      length (resolved_prefix w hs) = length hs
      /\ forall i h, hs !! i = Some h ->
           exists ip, gethostbyname w h = Some ip
                      /\ resolved_prefix w hs !! i = Some ip).
Proof.
  split; [apply write_ip_list_run|]. split.
  - rewrite write_ip_list_run. apply record_all_trace.
  - induction hs as [|h hs IH]; cbn [all_resolve forallb resolved_prefix].
    + intros _. split; [reflexivity|]. intros i h Hi. discriminate.
    + destruct (gethostbyname w h) as [ip|] eqn:Hh; [|discriminate].
      cbn [andb]. intros Hall. destruct (IH Hall) as [Hlen Hnth].
      split; [cbn; lia|].
      intros [|i] h' Hi; cbn in Hi.
      * injection Hi as <-. exists ip. split; [exact Hh|reflexivity].
      * exact (Hnth i h' Hi).
Qed.

(** X11: the worker's dial loop stops at the first dial that succeeds:
    when the first [k] dials are refused and the next one accepted,
    with [k] below the budget, the loop makes exactly [k + 1] dials,
    sleeping ten seconds after each refused one and not after the
    accepted one. *)
Theorem connect_loop_stops_at_first_success addr port n k :
  forall st,
    (k < n)%nat ->
    (forall j, (j < k)%nat -> connect_ok w (dialled st + j) = false) ->
    connect_ok w (dialled st + k) = true ->
    (connect_loop w addr port n st).1 = Return tt
    /\ dialled (connect_loop w addr port n st).2 = (dialled st + S k)%nat
    /\ trace (connect_loop w addr port n st).2
       = trace st ++ concat (replicate k (refused addr port))
         ++ [EvSockConnect addr port true].
Proof.
  revert n. induction k as [|k IH]; intros n st Hlt Hfail Hok.
  - destruct n as [|n]; [lia|]. rewrite Nat.add_0_r in Hok.
    rewrite (connect_loop_connected w addr port n st Hok).
    cbn. repeat split. lia.
  - destruct n as [|n]; [lia|].
    assert (H0 : connect_ok w (dialled st) = false).
    { rewrite <- (Nat.add_0_r (dialled st)). apply Hfail. lia. }
    rewrite (connect_loop_step w addr port n st H0).
    match goal with
    | |- context [connect_loop w addr port n ?s] =>
        destruct (IH n s) as (Ho & Hd & Ht)
    end.
    + lia.
    + intros j Hj. cbn [dialled record with_dialled].
      replace (S (dialled st) + j)%nat with (dialled st + S j)%nat by lia.
      apply Hfail. lia.
    + cbn [dialled record with_dialled].
      replace (S (dialled st) + k)%nat with (dialled st + S k)%nat by lia.
      exact Hok.
    + rewrite Ho, Hd, Ht. cbn [dialled trace record with_dialled].
      split; [reflexivity|]. split; [lia|].
      cbn [replicate concat]. unfold refused at 2.
      rewrite <- !app_assoc. reflexivity.
Qed.

(** X12: [launch_train_task] starts the thread only once the command
    is complete.  When it raises (unsupported task type, unset
    [LD_LIBRARY_PATH], thread not started) no thread has been started;
    when it returns it has started exactly one, with the command it
    returns, and slept 200 ms.  It touches neither the result queue
    nor the error code. *)
Theorem launch_starts_thread_only_on_return
    task n gc sp ip yp extra script rp st :
  let r := launch_train_task cfg w task n gc sp ip yp extra script rp st in
  state_q r.2 = state_q st
  /\ err_code r.2 = err_code st
  /\ match r.1 with
     | Return t =>
         trace r.2
         = trace st
           ++ [EvLog DEBUG "Launch training %s"; EvRunStart t; EvSleep 200%N]
     | Stop x =>
         count is_run_start (trace r.2) = count is_run_start (trace st)
         /\ exists e, x = Raise e
     end.
Proof.
  intros r. subst r.
  apply (wp_both _ (fun o st' =>
           state_q st' = state_q st
           /\ err_code st' = err_code st
           /\ match o with
              | Return t =>
                  trace st'
                  = trace st
                    ++ [EvLog DEBUG "Launch training %s"; EvRunStart t;
                        EvSleep 200%N]
              | Stop x =>
                  count is_run_start (trace st') = count is_run_start (trace st)
                  /\ exists e, x = Raise e
              end)).
  apply wp_launch_train_task.
  - intros e _. repeat split. eauto.
  - intros c _ _. repeat split. eauto.
  - intros c ld x _ _ _. state_simpl. repeat split; [|eauto].
    rewrite count_snoc. cbn. lia.
  - intros c ld _ _ _ t. state_simpl. repeat split.
    rewrite <- !app_assoc. reflexivity.
Qed.

End Loops.

(** ** What the trace holds at line 263 *)

Lemma Pre_record w a e st :
  Pre w a st -> during_setup w a e = true -> Pre w a (record e st).
Proof.
  unfold Pre. cbn [trace record]. intros H He.
  rewrite forallb_app, H. cbn. rewrite He. reflexivity.
Qed.

Lemma is_master_rank a r :
  index (current_host (sm_dist_env a)) (hosts (sm_dist_env a)) = Some r ->
  is_master a = (r =? 0)%nat.
Proof. unfold is_master. intros ->. destruct r; reflexivity. Qed.

Ltac during_setup_ok :=
  cbn [during_setup];
  unfold master_port_of, ip_list_path_of, restore_path_for in *;
  repeat match goal with
         | H : is_master _ = _ |- _ => rewrite H
         | H : index _ _ = Some _ |- _ => rewrite H
         | H : model_checkpoint_to_load _ = _ |- _ => rewrite H
         end;
  rewrite ?String.eqb_refl, ?Z.eqb_refl, ?Nat.eqb_refl, ?N.eqb_refl;
  cbn [andb orb negb];
  rewrite ?orb_true_r;
  reflexivity.

Ltac pre_state :=
  solve [ repeat (first [ eassumption
                        | apply Pre_record; [|during_setup_ok] ]) ].

Lemma wp_conj {A} (m : M A) (Q1 Q2 : A -> state -> Prop)
    (E1 E2 : stop -> state -> Prop) st :
  wp m Q1 E1 st -> wp m Q2 E2 st ->
  wp m (fun v s => Q1 v s /\ Q2 v s) (fun x s => E1 x s /\ E2 x s) st.
Proof. unfold wp. destruct (m st) as [[v|x] st']; auto. Qed.

Section PrePhase.

Variable cfg : config.
Variable w : world.
Variable a : args.

Lemma pre_log_host_ips hs st :
  Pre w a st ->
  wp (log_host_ips w hs) (fun _ => Pre w a) (fun _ => Pre w a) st.
Proof.
  revert st. induction hs as [|h hs IH]; intros st Hst; cbn [log_host_ips].
  - wp_steps. assumption.
  - wp_steps; [assumption|]. apply IH. pre_state.
Qed.

Lemma pre_write_ip_list hs st :
  Pre w a st ->
  wp (write_ip_list w (ip_list_path_of a) hs)
    (fun _ => Pre w a) (fun _ => Pre w a) st.
Proof.
  revert st. induction hs as [|h hs IH]; intros st Hst; cbn [write_ip_list].
  - wp_steps. assumption.
  - wp_steps; [assumption|]. apply IH. pre_state.
Qed.

Lemma pre_connect_loop n st :
  is_master a = false ->
  Pre w a st ->
  wp (connect_loop w (master_addr a) (master_port_of w a) n)
    (fun _ => Pre w a) (fun _ => Pre w a) st.
Proof.
  intros Hm. revert st. induction n as [|n IH]; intros st Hst;
    cbn [connect_loop].
  - wp_steps. assumption.
  - wp_steps.
    assert (Hst1 : Pre w a
              (with_dialled (S (dialled st))
                 (record (EvSockConnect (master_addr a) (master_port_of w a)
                            (connect_ok w (dialled st))) st))).
    { change (Pre w a (record (EvSockConnect (master_addr a)
                                 (master_port_of w a)
                                 (connect_ok w (dialled st))) st)).
      pre_state. }
    destruct (connect_ok w (dialled st)).
    + wp_steps. assumption.
    + wp_steps. apply IH.
      change (Pre w a
                (record (EvSleep 10000%N)
                   (record (EvLog INFO "Trying to connect to %s:%s...")
                      (record (EvSockConnect (master_addr a)
                                 (master_port_of w a) false) st)))).
      pre_state.
Qed.

Lemma pre_accept_loop idx :
  forall cl st,
    is_master a = true ->
    Pre w a st ->
    wp (accept_loop w idx cl) (fun _ => Pre w a) (fun _ => Pre w a) st.
Proof.
  induction idx as [|i idx IH]; intros cl st Hm Hst; cbn [accept_loop].
  - wp_steps. assumption.
  - wp_steps; try assumption.
    assert (Hst1 : Pre w a
              (with_accepted (S (accepted st)) (record (EvSockAccept c) st))).
    { change (Pre w a (record (EvSockAccept c) st)). pre_state. }
    destruct (decide (i < length cl)%nat).
    + apply IH; assumption.
    + wp_steps. assumption.
Qed.

Lemma fetch_inputs_trace r st :
  wp (fetch_inputs w a (length (hosts (sm_dist_env a))) r (restore_path_for a))
    (fun _ st' =>
       all_resolve w (hosts (sm_dist_env a)) = true
       /\ trace st' = trace st ++ fetched_events w a r)
    (fun _ _ => True) st.
Proof.
  unfold fetch_inputs. fold (ip_list_path_of a).
  wp_steps; try exact I.
  apply wp_write_ip_list_run. cbv zeta.
  destruct (all_resolve w (hosts (sm_dist_env a))); [|exact I].
  wp_steps; try exact I.
  unfold fetched_events.
  destruct (model_checkpoint_to_load a) eqn:Hck.
  - wp_steps; try exact I. split; [reflexivity|]. state_simpl.
    rewrite record_all_trace. state_simpl. rewrite <- !app_assoc. reflexivity.
  - wp_steps. split; [reflexivity|]. state_simpl.
    rewrite record_all_trace. state_simpl. rewrite <- !app_assoc. reflexivity.
Qed.

Lemma pre_fetch_inputs r st :
  index (current_host (sm_dist_env a)) (hosts (sm_dist_env a)) = Some r ->
  Pre w a st ->
  wp (fetch_inputs w a (length (hosts (sm_dist_env a))) r (restore_path_for a))
    (fun paths st' =>
       paths = (ip_list_path_of a, yaml_config_path w, graph_config_path w)
       /\ Pre w a st')
    (fun _ => Pre w a) st.
Proof.
  intros Hidx Hst. unfold fetch_inputs. fold (ip_list_path_of a).
  wp_steps; try pre_state.
  eapply wp_mono; [apply pre_write_ip_list; pre_state| |]; cbv beta;
    [|intros; assumption].
  intros _ st3 Hst3. wp_steps; try pre_state.
  destruct (model_checkpoint_to_load a) eqn:Hck.
  - wp_step. wp_step; [pre_state|].
    wp_steps. split; [reflexivity|pre_state].
  - wp_steps. split; [reflexivity|pre_state].
Qed.

(** In every world [run_train] either stops before line 263, having
    made only the calls of [during_setup], or reaches it having made
    only those, the last of them the calls of lines 234-261. *)
Lemma wp_run_train_fetched extra Q (E : stop -> state -> Prop) :
  (forall x st, Pre w a st -> E x st) ->
  (forall st r cl,
     Pre w a st -> Fetched w a r st ->
     index (current_host (sm_dist_env a)) (hosts (sm_dist_env a)) = Some r ->
     wp ((if (r =? 0)%nat
          then master_main cfg w a extra cl (length (hosts (sm_dist_env a)))
                 (graph_config_path w) (save_model_path_of a)
                 (ip_list_path_of a) (yaml_config_path w) (restore_path_for a)
          else worker_main w) ;;
         finish w a (save_model_path_of a)) Q E (with_err_code 0 st)) ->
  wp (run_train cfg w a extra) Q E init_state.
Proof.
  intros HE HQ. unfold run_train, restore_model_path_of.
  assert (H0 : Pre w a init_state) by reflexivity.
  assert (Hmain : forall st,
    Pre w a st ->
    wp (ext w SiteMakedirs (EvMakedirs (output_path_of a));;
        ext w SiteSshStart EvServiceSshStart;;
        logging INFO "Known args %s";;
        logging INFO "Unknown args %s";;
        topo <- topology w a;;
        (let '(world_size, host_rank) := topo in
         client_list <- connect_peers w a world_size host_rank;;
         paths <- fetch_inputs w a world_size host_rank (restore_path_for a);;
         (let '(ip_list_path, yaml_path, graph_config) := paths in
          set_err_code 0;;
          (if (host_rank =? 0)%nat
           then master_main cfg w a extra client_list world_size
                  graph_config
                  (path_join (output_path_of a) "model_checkpoint")
                  ip_list_path yaml_path (restore_path_for a)
           else worker_main w);;
          finish w a (path_join (output_path_of a) "model_checkpoint"))))
      Q E st).
  { intros st Hst. wp_steps; try (apply HE; pre_state).
    unfold topology. wp_steps.
    destruct (index (current_host (sm_dist_env a)) (hosts (sm_dist_env a)))
      as [r|] eqn:Hidx; wp_steps;
      [apply HE; pre_state| |apply HE; pre_state].
    eapply wp_mono; [apply pre_log_host_ips; pre_state| |]; cbv beta.
    2:{ intros [e|c|] st1 Hst1; [wp_steps; apply HE; assumption
                                |wp_steps; apply HE; assumption
                                |apply HE; assumption]. }
    intros _ st1 Hst1. wp_steps.
    pose proof (is_master_rank a r Hidx) as Hm.
    assert (Hconn : wp (connect_peers w a (length (hosts (sm_dist_env a))) r)
                      (fun _ => Pre w a) (fun _ => Pre w a) st1).
    { unfold connect_peers.
      fold (master_port_of w a).
      destruct (r =? 0)%nat.
      - wp_steps; try pre_state.
        apply pre_accept_loop; [assumption|pre_state].
      - wp_steps; try pre_state.
        eapply wp_mono; [apply pre_connect_loop; [assumption|pre_state]| |];
          cbv beta; [|auto].
        intros _ st2 Hst2. wp_steps. pre_state. }
    eapply wp_mono; [exact Hconn| |]; cbv beta; [|intros; apply HE; assumption].
    intros cl st2 Hst2. apply wp_bind.
    eapply wp_mono;
      [exact (wp_conj _ _ _ _ _ _ (pre_fetch_inputs r st2 Hidx Hst2)
                (fetch_inputs_trace r st2))| |]; cbv beta;
      [|intros x st3 [Hst3 _]; apply HE; exact Hst3].
    intros paths st3 [[-> Hst3] [Hall Htr]].
    wp_steps. apply wp_bind_inv.
    apply (HQ st3 r cl Hst3); [|reflexivity].
    split; [exact Hall|]. exists (trace st2). exact Htr. }
  unfold restore_path_for in Hmain.
  destruct (model_checkpoint_to_load a) eqn:Hck.
  - do 3 wp_step; [apply HE; assumption|].
    wp_step. apply Hmain. pre_state.
  - do 2 wp_step. apply Hmain. assumption.
Qed.

(** The same, forgetting what the latest calls were. *)
Lemma wp_run_train_pre extra Q (E : stop -> state -> Prop) :
  (forall x st, Pre w a st -> E x st) ->
  (forall st r cl,
     Pre w a st ->
     index (current_host (sm_dist_env a)) (hosts (sm_dist_env a)) = Some r ->
     wp ((if (r =? 0)%nat
          then master_main cfg w a extra cl (length (hosts (sm_dist_env a)))
                 (graph_config_path w) (save_model_path_of a)
                 (ip_list_path_of a) (yaml_config_path w) (restore_path_for a)
          else worker_main w) ;;
         finish w a (save_model_path_of a)) Q E (with_err_code 0 st)) ->
  wp (run_train cfg w a extra) Q E init_state.
Proof.
  intros HE HQ. apply wp_run_train_fetched; [exact HE|].
  intros st r cl Hst _ Hidx. exact (HQ st r cl Hst Hidx).
Qed.

End PrePhase.

(** ** Every call of a run *)

Lemma forallb_weaken (P Q : event -> bool) tr :
  (forall e, P e = true -> Q e = true) ->
  forallb P tr = true -> forallb Q tr = true.
Proof.
  intros HPQ. induction tr as [|e tr IH]; cbn; [reflexivity|].
  intros [He Htr]%andb_prop. rewrite (HPQ e He), (IH Htr). reflexivity.
Qed.

Lemma Pre_not w a (K : event -> bool) st :
  (forall e, during_setup w a e = true -> K e = false) ->
  Pre w a st -> existsb K (trace st) = false.
Proof.
  intros HK. unfold Pre. induction (trace st) as [|e tr IH]; cbn;
    [reflexivity|].
  intros [He Htr]%andb_prop. rewrite (HK e He), (IH Htr). reflexivity.
Qed.

Section EveryCall.

Variable cfg : config.
Variable w : world.

Lemma branch_run_events a extra cl ws gc sp ip yp rp r st :
  is_master a = (r =? 0)%nat ->
  Pre w a st ->
  wp ((if (r =? 0)%nat
       then master_main cfg w a extra cl ws gc sp ip yp rp
       else worker_main w) ;; finish w a sp)
    (fun _ st' => forallb (run_event w a) (trace st') = true)
    (fun _ st' => forallb (run_event w a) (trace st') = true)
    (with_err_code 0 st).
Proof.
  intros Hm Hst.
  assert (H0 : forallb (run_event w a) (trace st) = true).
  { apply (forallb_weaken (during_setup w a)); [|exact Hst].
    intros e He. unfold run_event. rewrite He. reflexivity. }
  destruct (r =? 0)%nat; unfold_branches; branch_steps.
  all: trace_form; rewrite ?forallb_app, ?H0.
  all: unfold run_event;
       cbn [forallb during_setup after_setup orb andb negb];
       rewrite ?Hm; reflexivity.
Qed.

Lemma run_train_events a extra :
  forallb (run_event w a) (trace (run_train cfg w a extra init_state).2) = true.
Proof.
  apply (wp_snd _ (fun st => forallb (run_event w a) (trace st) = true)).
  apply wp_run_train_pre.
  - intros x st Hst. apply (forallb_weaken (during_setup w a)); [|exact Hst].
    intros e He. unfold run_event. rewrite He. reflexivity.
  - intros st r cl Hst Hidx. apply branch_run_events; [|exact Hst].
    apply is_master_rank. exact Hidx.
Qed.

Lemma run_train_event_in a extra e :
  In e (trace (run_train cfg w a extra init_state).2) ->
  during_setup w a e = true \/ after_setup a e = true.
Proof.
  intros Hin. pose proof (run_train_events a extra) as H.
  rewrite forallb_forall in H. apply orb_prop. exact (H e Hin).
Qed.

(** X13: in every run, the master binds and the workers dial the same
    endpoint, [args.master_addr] and the port [get_job_port] derives
    from the job name; the listen backlog is the world size. *)
Theorem master_and_workers_use_one_endpoint a extra :
  let tr := trace (run_train cfg w a extra init_state).2 in
  (forall addr port,
     In (EvSockBind addr port) tr ->
     addr = master_addr a /\ port = get_job_port w (job_name (sm_dist_env a)))
  /\ (forall addr port ok,
        In (EvSockConnect addr port ok) tr ->
        addr = master_addr a
        /\ port = get_job_port w (job_name (sm_dist_env a)))
  /\ (forall n, In (EvSockListen n) tr -> n = length (hosts (sm_dist_env a))).
Proof.
  cbv zeta. split; [|split].
  - intros addr port Hin.
    destruct (run_train_event_in _ _ _ Hin) as [H|H]; [|discriminate H].
    cbn [during_setup] in H.
    apply andb_prop in H as [[_ Ha]%andb_prop Hp].
    apply String.eqb_eq in Ha. apply Z.eqb_eq in Hp. auto.
  - intros addr port ok Hin.
    destruct (run_train_event_in _ _ _ Hin) as [H|H]; [|discriminate H].
    cbn [during_setup] in H.
    apply andb_prop in H as [[_ Ha]%andb_prop Hp].
    apply String.eqb_eq in Ha. apply Z.eqb_eq in Hp. auto.
  - intros n Hin.
    destruct (run_train_event_in _ _ _ Hin) as [H|H]; [|discriminate H].
    cbn [during_setup] in H. apply andb_prop in H as [_ Hn].
    apply Nat.eqb_eq in Hn. exact Hn.
Qed.

(** X14: in every run, [WORLD_SIZE] is set to the decimal length of
    the host list, and [download_graph] is called for this host's own
    rank (the index of the current host) and that world size, with the
    graph location, name and local path of the arguments. *)
Theorem topology_reaches_environment_and_download a extra :
  let env := sm_dist_env a in
  let tr := trace (run_train cfg w a extra init_state).2 in
  (forall k v,
     In (EvSetEnviron k v) tr ->
     k = "WORLD_SIZE" /\ v = str_int (Z.of_nat (length (hosts env))))
  /\ (forall s n r ws l,
        In (EvDownloadGraph s n r ws l) tr ->
        index (current_host env) (hosts env) = Some r
        /\ ws = length (hosts env)
        /\ s = graph_data_s3 a /\ n = graph_name a /\ l = data_path a).
Proof.
  cbv zeta. split.
  - intros k v Hin.
    destruct (run_train_event_in _ _ _ Hin) as [H|H]; [|discriminate H].
    cbn [during_setup] in H. apply andb_prop in H as [Hk Hv].
    apply String.eqb_eq in Hk. apply String.eqb_eq in Hv. auto.
  - intros s n r ws l Hin.
    destruct (run_train_event_in _ _ _ Hin) as [H|H]; [|discriminate H].
    cbn [during_setup] in H.
    repeat (apply andb_prop in H as [H ?]).
    destruct (index (current_host (sm_dist_env a)) (hosts (sm_dist_env a)))
      as [r'|]; [|discriminate].
    repeat match goal with
           | H : String.eqb _ _ = true |- _ => apply String.eqb_eq in H
           | H : Nat.eqb _ _ = true |- _ => apply Nat.eqb_eq in H
           end.
    subst. auto.
Qed.

(** X15: the two roles do not mix.  A worker (rank other than 0) never
    binds, listens or accepts, never calls [barrier_master], never
    starts the keep-alive thread or the training task, and never
    terminates workers; the master never dials, never sleeps the
    retry delay and never calls [barrier] or [wait_for_exit]. *)
Theorem roles_do_not_mix a extra r :
  index (current_host (sm_dist_env a)) (hosts (sm_dist_env a)) = Some r ->
  let tr := trace (run_train cfg w a extra init_state).2 in
  (r <> 0%nat -> existsb is_master_call tr = false)
  /\ (r = 0%nat -> existsb is_worker_call tr = false).
Proof.
  intros Hidx tr. pose proof (is_master_rank a r Hidx) as Hm. split.
  - intros Hr. destruct (Nat.eqb_spec r 0) as [|_]; [contradiction|].
    destruct (existsb is_master_call tr) eqn:Hex; [|reflexivity].
    apply existsb_exists in Hex as (e & Hin & He).
    destruct (run_train_event_in _ _ _ Hin) as [H|H];
      destruct e; try discriminate He;
      cbn [during_setup after_setup] in H; rewrite ?Hm in H;
      discriminate H.
  - intros ->. cbn in Hm.
    destruct (existsb is_worker_call tr) eqn:Hex; [|reflexivity].
    apply existsb_exists in Hex as (e & Hin & He).
    destruct (run_train_event_in _ _ _ Hin) as [H|H];
      destruct e; try discriminate He;
      cbn [during_setup after_setup is_worker_call] in H, He;
      rewrite ?Hm in H; cbn [andb negb] in H; try discriminate H.
    apply N.eqb_eq in H. subst. discriminate He.
Qed.

End EveryCall.

(** ** The launch *)

Lemma launch_order_suffix w a st suf :
  Pre w a st ->
  launch_order_b suf = true ->
  launch_order (trace st ++ suf).
Proof.
  intros Hst Hchk. unfold launch_order_b in Hchk.
  repeat (apply andb_prop in Hchk as [Hchk ?]).
  unfold launch_order.
  repeat split; apply precedes_suffix; try assumption;
    (apply (Pre_not w a); [|exact Hst]);
    intros [] He; try reflexivity; try discriminate He;
    destruct level; discriminate He.
Qed.

Lemma Pre_no_run_start w a st t : Pre w a st -> ~ In (EvRunStart t) (trace st).
Proof.
  unfold Pre. intros Hst Hin.
  rewrite forallb_forall in Hst. specialize (Hst _ Hin). discriminate.
Qed.

Section Launch.

Variable cfg : config.
Variable w : world.

Lemma branch_launch a extra cl ws r st :
  Pre w a st ->
  wp ((if (r =? 0)%nat
       then master_main cfg w a extra cl ws (graph_config_path w)
              (save_model_path_of a) (ip_list_path_of a) (yaml_config_path w)
              (restore_path_for a)
       else worker_main w) ;; finish w a (save_model_path_of a))
    (fun _ st' =>
       launch_order (trace st')
       /\ (count is_run_start (trace st') <= 1)%nat
       /\ forall t, In (EvRunStart t) (trace st') ->
            r = 0%nat /\ launched_command cfg w a extra t)
    (fun _ st' =>
       launch_order (trace st')
       /\ (count is_run_start (trace st') <= 1)%nat
       /\ forall t, In (EvRunStart t) (trace st') ->
            r = 0%nat /\ launched_command cfg w a extra t)
    (with_err_code 0 st).
Proof.
  intros Hst.
  assert (H0 : count is_run_start (trace st) = 0%nat).
  { apply existsb_false_count. apply (Pre_not w a); [|exact Hst].
    intros [] He; try reflexivity; discriminate He. }
  destruct (Nat.eqb_spec r 0) as [->|Hr]; unfold_branches; branch_steps.
  all: trace_form.
  all: split;
    [ first [ apply (launch_order_suffix w a); [exact Hst|reflexivity]
            | rewrite <- (app_nil_r (trace st));
              apply (launch_order_suffix w a); [exact Hst|reflexivity] ]
    | split ].
  all: try (rewrite ?count_app, ?H0;
            cbn [count List.filter is_run_start length Nat.add]; lia).
  all: let t := fresh "t" in let Hin := fresh "Hin" in
       intros t Hin;
       first [ exfalso; exact (Pre_no_run_start _ _ _ _ Hst Hin)
             | apply in_app_or in Hin; destruct Hin as [Hin|Hin];
               [ exfalso; exact (Pre_no_run_start _ _ _ _ Hst Hin) | ];
               cbn [In] in Hin;
               repeat match goal with
                      | H : _ \/ _ |- _ => destruct H as [H|H]
                      end;
               try discriminate; try contradiction ].
  all: match goal with
       | H : EvRunStart _ = EvRunStart _ |- _ => injection H as <-
       end.
  all: split; [reflexivity|]; unfold launched_command; eauto.
Qed.

Lemma run_train_launch a extra :
  let tr := trace (run_train cfg w a extra init_state).2 in
  launch_order tr
  /\ (count is_run_start tr <= 1)%nat
  /\ forall t, In (EvRunStart t) tr ->
       index (current_host (sm_dist_env a)) (hosts (sm_dist_env a))
       = Some 0%nat
       /\ launched_command cfg w a extra t.
Proof.
  cbv zeta.
  apply (wp_snd _ (fun st =>
           launch_order (trace st)
           /\ (count is_run_start (trace st) <= 1)%nat
           /\ forall t, In (EvRunStart t) (trace st) ->
                index (current_host (sm_dist_env a)) (hosts (sm_dist_env a))
                = Some 0%nat
                /\ launched_command cfg w a extra t)).
  apply wp_run_train_pre.
  - intros x st Hst. split; [|split].
    + rewrite <- (app_nil_r (trace st)).
      apply (launch_order_suffix w a); [exact Hst|reflexivity].
    + rewrite existsb_false_count; [lia|].
      apply (Pre_not w a); [|exact Hst].
      intros [] He; try reflexivity; discriminate He.
    + intros t Hin. destruct (Pre_no_run_start _ _ _ _ Hst Hin).
  - intros st r cl Hst Hidx.
    eapply wp_mono; [apply branch_launch; exact Hst| |]; cbv beta;
      intros _ st' (Ho & Hc & Ht); (split; [exact Ho|]); (split; [exact Hc|]);
      intros t Hin; destruct (Ht t Hin) as [-> Hl]; auto.
Qed.

(** X16: in every run the training task is started at most once, and
    only after [barrier_master] has returned and the keep-alive thread
    has been started; a result is put on the queue only after the
    start and read only after it was put. *)
Theorem launch_follows_barrier a extra :
  let tr := trace (run_train cfg w a extra init_state).2 in
  (count is_run_start tr <= 1)%nat
  /\ precedes is_barrier_master is_keep_alive_start tr
  /\ precedes is_keep_alive_start is_run_start tr
  /\ precedes is_run_start is_queue_put tr
  /\ precedes is_queue_put is_queue_get tr.
Proof.
  cbv zeta. destruct (run_train_launch a extra) as (Ho & Hc & _).
  split; [exact Hc|exact Ho].
Qed.

(** X17: in every run, the command of a started training task is the
    one [build_launch_cmd] assembles from [run_train]'s own values: the
    module for the task type, [num_gpus], the graph config and yaml
    paths the downloads returned, the save path that line 313 later
    uploads from, the ip list file written before, the pass-through
    arguments, and the restore path exactly when a checkpoint was
    given.  Only the master starts one. *)
Theorem started_command_is_the_assembled_one a extra t :
  In (EvRunStart t) (trace (run_train cfg w a extra init_state).2) ->
  index (current_host (sm_dist_env a)) (hosts (sm_dist_env a)) = Some 0%nat
  /\ (exists c ld,
        train_cmd cfg (task_type a) (custom_script a) = inr c
        /\ environ_LD_LIBRARY_PATH w = Some ld
        /\ t = build_launch_cmd c (num_gpus a) (graph_config_path w)
                 (save_model_path_of a) (ip_list_path_of a)
                 (yaml_config_path w) extra (custom_script a)
                 (restore_path_for a) ld)
  /\ t !! 11%nat = Some (graph_config_path w)
  /\ t !! 13%nat = Some (ip_list_path_of a).
Proof.
  intros Hin. destruct (run_train_launch a extra) as (_ & _ & H).
  destruct (H t Hin) as [Hidx Hl]. split; [exact Hidx|].
  split; [exact Hl|].
  destruct Hl as (c & ld & _ & _ & ->).
  split; reflexivity.
Qed.

End Launch.

(** ** The inputs come first *)

Lemma count_pos_In P (tr : list event) :
  (0 < count P tr)%nat -> exists e, In e tr /\ P e = true.
Proof.
  unfold count. destruct (List.filter P tr) as [|e l] eqn:Hf; cbn; [lia|].
  intros _. exists e. apply filter_In. rewrite Hf. left. reflexivity.
Qed.

Lemma Pre_no_late w a st e :
  Pre w a st -> In e (trace st) -> is_late_call e = false.
Proof.
  unfold Pre. intros Hst Hin. rewrite forallb_forall in Hst.
  specialize (Hst e Hin). destruct e; try reflexivity; discriminate Hst.
Qed.

Section FetchedFirst.

Variable cfg : config.
Variable w : world.

Lemma branch_extends a extra cl ws gc sp ip yp rp r st :
  wp ((if (r =? 0)%nat
       then master_main cfg w a extra cl ws gc sp ip yp rp
       else worker_main w) ;; finish w a sp)
    (fun _ st' => exists suf, trace st' = trace st ++ suf)
    (fun _ st' => exists suf, trace st' = trace st ++ suf)
    (with_err_code 0 st).
Proof.
  destruct (r =? 0)%nat; unfold_branches; branch_steps.
  all: trace_form.
  all: first [ eexists; reflexivity
             | exists []; rewrite app_nil_r; reflexivity ].
Qed.

Lemma run_train_fetched_first a extra :
  forall e,
    In e (trace (run_train cfg w a extra init_state).2) ->
    is_late_call e = true ->
    exists post,
      fetched_then w a (trace (run_train cfg w a extra init_state).2) post
      /\ In e post.
Proof.
  apply (wp_snd _ (fun st =>
           forall e, In e (trace st) -> is_late_call e = true ->
           exists post, fetched_then w a (trace st) post /\ In e post)).
  apply wp_run_train_fetched.
  - intros _ st Hst e Hin He.
    rewrite (Pre_no_late _ _ _ _ Hst Hin) in He. discriminate.
  - intros st r cl Hst [Hall [pre Hpre]] Hidx.
    eapply wp_mono; [apply branch_extends| |]; cbv beta.
    all: intros _ st' [suf Htr] e Hin He; exists suf.
    all: rewrite Htr in Hin |- *; change (trace (with_err_code 0 st))
           with (trace st) in *.
    all: split;
      [ split; [exact Hall|]; exists r, pre; split; [exact Hidx|];
        rewrite Hpre, <- app_assoc; reflexivity
      | apply in_app_or in Hin as [Hin|Hin]; [|exact Hin];
        rewrite (Pre_no_late _ _ _ _ Hst Hin) in He; discriminate ].
Qed.

(** X18: nothing of lines 264-314 happens before the inputs are in
    place.  Whenever a run calls a barrier, starts the keep-alive
    thread or the training task, touches the result queue, tears down,
    closes the socket or uploads, then every host resolved and, before
    that call, the ip list was opened and written with one line per
    host, the session created, the yaml and the graph downloaded for
    this host's rank, and the checkpoint downloaded when one was given,
    in this order with nothing in between.  The same holds of every
    run that returns or ends in [sys.exit]. *)
Theorem inputs_are_fetched_first a extra :
  let o := (run_train cfg w a extra init_state).1 in
  let tr := trace (run_train cfg w a extra init_state).2 in
  (forall e, In e tr -> is_late_call e = true ->
     exists post, fetched_then w a tr post /\ In e post)
  /\ (forall u, o = Return u -> exists post, fetched_then w a tr post)
  /\ (forall c, o = Stop (SysExit c) -> exists post, fetched_then w a tr post).
Proof.
  intros o tr.
  assert (Hclose : (0 < count is_sock_close tr)%nat ->
                   exists post, fetched_then w a tr post).
  { intros Hc. destruct (count_pos_In _ _ Hc) as (e & Hin & He).
    destruct e; try discriminate He.
    destruct (run_train_fetched_first a extra _ Hin eq_refl) as (post & H & _).
    exists post. exact H. }
  pose proof (run_train_end cfg w a extra) as Hend. fold o in Hend.
  split; [exact (run_train_fetched_first a extra)|]. split.
  - intros u Ho. rewrite Ho in Hend. destruct Hend as (_ & Hc).
    apply Hclose. unfold tr. rewrite Hc. lia.
  - intros c Ho. rewrite Ho in Hend. destruct Hend as (_ & _ & Hc).
    apply Hclose. unfold tr. rewrite Hc. lia.
Qed.

End FetchedFirst.

(** ** The connections torn down *)

Lemma Setup_no_terminate st cl ws :
  Setup st -> ~ In (EvTerminateWorkers cl ws) (trace st).
Proof.
  unfold Setup. intros Hst Hin.
  rewrite forallb_forall in Hst. specialize (Hst _ Hin). discriminate.
Qed.

Section Terminate.

Variable cfg : config.
Variable w : world.

Lemma branch_terminate a extra cl ws gc sp ip yp rp r st :
  Setup st ->
  wp ((if (r =? 0)%nat
       then master_main cfg w a extra cl ws gc sp ip yp rp
       else worker_main w) ;; finish w a sp)
    (fun _ st' =>
       forall cl' ws', In (EvTerminateWorkers cl' ws') (trace st') ->
         r = 0%nat /\ cl' = cl /\ ws' = ws
         /\ In (EvBarrierMaster cl ws) (trace st')
         /\ In (EvKeepAliveStart cl ws) (trace st'))
    (fun _ st' =>
       forall cl' ws', In (EvTerminateWorkers cl' ws') (trace st') ->
         r = 0%nat /\ cl' = cl /\ ws' = ws
         /\ In (EvBarrierMaster cl ws) (trace st')
         /\ In (EvKeepAliveStart cl ws) (trace st'))
    (with_err_code 0 st).
Proof.
  intros Hst. destruct (Nat.eqb_spec r 0) as [->|Hr];
    unfold_branches; branch_steps.
  all: trace_form.
  all: let cl' := fresh "cl'" in let ws' := fresh "ws'" in
       let Hin := fresh "Hin" in
       intros cl' ws' Hin;
       first [ exfalso; exact (Setup_no_terminate _ _ _ Hst Hin)
             | apply in_app_or in Hin; destruct Hin as [Hin|Hin];
               [ exfalso; exact (Setup_no_terminate _ _ _ Hst Hin) | ];
               cbn [In] in Hin;
               repeat match goal with
                      | H : _ \/ _ |- _ => destruct H as [H|H]
                      end;
               try discriminate; try contradiction ].
  all: match goal with
       | H : EvTerminateWorkers _ _ = EvTerminateWorkers _ _ |- _ =>
           injection H as <- <-
       end.
  all: do 3 (split; [reflexivity|]).
  all: split; apply in_or_app; right; cbn [In]; tauto.
Qed.

(** X19: the connections torn down are the ones accepted.  Whenever
    [terminate_workers] is called, the host is the master, and the
    call gets the world size [N] and the list of [N] slots built by
    the accept loop (slot 0 empty, slot [i] the [i]-th connection
    accepted); [barrier_master] and the keep-alive thread were given
    the same list and size. *)
Theorem terminated_clients_are_the_accepted_ones a extra :
  let env := sm_dist_env a in
  let N := length (hosts env) in
  let tr := trace (run_train cfg w a extra init_state).2 in
  forall cl ws,
    In (EvTerminateWorkers cl ws) tr ->
    index (current_host env) (hosts env) = Some 0%nat
    /\ ws = N
    /\ Clients w N cl
    /\ In (EvBarrierMaster cl ws) tr
    /\ In (EvKeepAliveStart cl ws) tr.
Proof.
  intros env N tr. subst tr.
  apply (wp_snd _ (fun st =>
           forall cl ws, In (EvTerminateWorkers cl ws) (trace st) ->
             index (current_host env) (hosts env) = Some 0%nat
             /\ ws = N /\ Clients w N cl
             /\ In (EvBarrierMaster cl ws) (trace st)
             /\ In (EvKeepAliveStart cl ws) (trace st))).
  apply wp_run_train.
  - intros x st Hst _ cl ws Hin.
    destruct (Setup_no_terminate _ _ _ Hst Hin).
  - intros st r n cl rp [Hst _] Hidx _ Hcl _.
    eapply wp_mono; [apply branch_terminate; exact Hst| |];
      cbv beta; intros _ st' Hb cl' ws' Hin;
      destruct (Hb cl' ws' Hin) as (-> & -> & -> & Hbm & Hka);
      destruct (Hcl eq_refl) as [-> Hclients];
      repeat split; try assumption; apply Hclients.
Qed.

End Terminate.

(** ** Files and downloads *)

Section Footprint.

Variable cfg : config.
Variable w : world.

(** X20: what a run touches on the local disk and fetches.  It creates
    no directory but the output directory ([/tmp/gsgnn_model/] or
    [/opt/ml/model]) and, when a checkpoint was given, the restore
    directory; it opens and writes no file but [ip_list.txt] under the
    data path; it downloads a model only when a checkpoint was given,
    that checkpoint, into the restore directory; and the yaml download
    gets the location and the data path of the arguments. *)
Theorem local_files_touched a extra :
  let tr := trace (run_train cfg w a extra init_state).2 in
  (forall p, In (EvMakedirs p) tr ->
     (p = output_path_of a
      /\ (p = "/tmp/gsgnn_model/" \/ p = "/opt/ml/model"))
     \/ (p = "/tmp/gsgnn_model_checkpoint/"
         /\ exists s, model_checkpoint_to_load a = Some s))
  /\ (forall p, In (EvOpen p) tr -> p = path_join (data_path a) "ip_list.txt")
  /\ (forall p s, In (EvWrite p s) tr ->
        p = path_join (data_path a) "ip_list.txt")
  /\ (forall s l, In (EvDownloadModel s l) tr ->
        model_checkpoint_to_load a = Some s
        /\ l = Some "/tmp/gsgnn_model_checkpoint/")
  /\ (forall s l, In (EvDownloadYamlConfig s l) tr ->
        s = train_yaml_s3 a /\ l = data_path a).
Proof.
  cbv zeta. split; [|split; [|split; [|split]]].
  - intros p Hin.
    destruct (run_train_event_in _ _ _ _ _ Hin) as [H|H]; [|discriminate H].
    cbn [during_setup] in H. apply orb_prop in H as [H|H].
    + apply String.eqb_eq in H. left. split; [exact H|]. subst p.
      unfold output_path_of. destruct (truthy _); auto.
    + unfold restore_path_for in H.
      destruct (model_checkpoint_to_load a) as [s|]; [|discriminate].
      apply String.eqb_eq in H. right. eauto.
  - intros p Hin.
    destruct (run_train_event_in _ _ _ _ _ Hin) as [H|H]; [|discriminate H].
    cbn [during_setup] in H. apply String.eqb_eq in H. exact H.
  - intros p s Hin.
    destruct (run_train_event_in _ _ _ _ _ Hin) as [H|H]; [|discriminate H].
    cbn [during_setup] in H. apply String.eqb_eq in H. exact H.
  - intros s l Hin.
    destruct (run_train_event_in _ _ _ _ _ Hin) as [H|H]; [|discriminate H].
    cbn [during_setup] in H.
    destruct (model_checkpoint_to_load a) as [s'|]; [|discriminate].
    destruct l as [p|]; [|discriminate].
    apply andb_prop in H as [Hs Hp].
    apply String.eqb_eq in Hs. apply String.eqb_eq in Hp.
    split; congruence.
  - intros s l Hin.
    destruct (run_train_event_in _ _ _ _ _ Hin) as [H|H]; [|discriminate H].
    cbn [during_setup] in H.
    apply andb_prop in H as [Hs Hp].
    apply String.eqb_eq in Hs. apply String.eqb_eq in Hp. auto.
Qed.

End Footprint.

(** ** The properties on the three-node job *)

Ltac in_trace := vm_compute; repeat (first [left; reflexivity | right]).

(** The handler on the master of a job with an unsupported task type. *)
Lemma printed_exception_means_failure_witness :
  err_code
    (run_train graphstorm_config (world3 (Exited 0) no_fault)
       (args3_task "graph_classification" "algo-1" None) [] init_state).2
  = -1.
Proof.
  refine (proj1 (proj2
    (printed_exception_means_failure graphstorm_config
       (world3 (Exited 0) no_fault)
       (args3_task "graph_classification" "algo-1" None) []
       (RuntimeError "Unsupported task type graph_classification") _))).
  in_trace.
Defined.

(** The master reads the 3 the workload exited with. *)
Lemma queue_read_is_delivered_witness :
  err_code
    (run_train graphstorm_config (world3 (Exited 3) no_fault)
       (args3 "algo-1" None) [] init_state).2
  = 3.
Proof.
  refine (proj1 (proj2
    (queue_read_is_delivered graphstorm_config (world3 (Exited 3) no_fault)
       (args3 "algo-1" None) [] 3 _))).
  in_trace.
Defined.

(** The destination [s3://out/] is uploaded to as [s3://out]. *)
Lemma upload_destination_is_stripped_witness :
  In (EvUploadModelArtifacts "s3://out" "/tmp/gsgnn_model/model_checkpoint")
    (trace (run_train graphstorm_config (world3 (Exited 0) no_fault)
              (args3 "algo-1" (Some "s3://out/")) [] init_state).2)
  /\ exists n, Some "s3://out/" = Some ("s3://out" +:+ slashes n).
Proof.
  assert (Hin :
    In (EvUploadModelArtifacts "s3://out" "/tmp/gsgnn_model/model_checkpoint")
      (trace (run_train graphstorm_config (world3 (Exited 0) no_fault)
                (args3 "algo-1" (Some "s3://out/")) [] init_state).2))
    by in_trace.
  split; [exact Hin|].
  destruct (upload_destination_is_stripped graphstorm_config
              (world3 (Exited 0) no_fault) (args3 "algo-1" (Some "s3://out/"))
              [] _ _ Hin) as (_ & _ & _ & _ & Hn).
  exact Hn.
Defined.

(** The destination [/] saves under /tmp and uploads nothing. *)
Lemma slashes_only_destination_never_uploads_witness :
  model_artifact_s3 (args3 "algo-1" (Some "/")) = Some (slashes 1)
  /\ existsb is_upload
       (trace (run_train graphstorm_config (world3 (Exited 0) no_fault)
                 (args3 "algo-1" (Some "/")) [] init_state).2) = false.
Proof.
  split; [reflexivity|].
  destruct (slashes_only_destination_never_uploads graphstorm_config
              (world3 (Exited 0) no_fault) (args3 "algo-1" (Some "/")) []
              0%nat eq_refl) as (_ & _ & H).
  exact H.
Defined.

Lemma sound_world_one_arrival me out :
  sound_env world_one_arrival (args3 me out).
Proof.
  split; [reflexivity|]. split; [|reflexivity].
  intros h _. eexists. reflexivity.
Defined.

(** Three hosts, one worker dials in: the master waits for ever. *)
Lemma master_blocks_without_workers_witness :
  (length (arrivals world_one_arrival) < 3 - 1)%nat
  /\ (run_train graphstorm_config world_one_arrival (args3 "algo-1" None) []
        init_state).1 = Stop Blocked.
Proof.
  split; [vm_compute; lia|].
  destruct (master_blocks_without_workers graphstorm_config world_one_arrival
              (args3 "algo-1" None) [] eq_refl (sound_world_one_arrival _ _)
              ltac:(vm_compute; lia)) as (H & _).
  exact H.
Defined.


(** Two refused dials, then the third is accepted. *)
Lemma connect_loop_stops_at_first_success_witness :
  connect_ok (world3 (Exited 0) no_fault) 2 = true
  /\ dialled
       (connect_loop (world3 (Exited 0) no_fault) "10.0.0.1" 12345 30
          init_state).2 = 3%nat.
Proof.
  split; [reflexivity|].
  destruct (connect_loop_stops_at_first_success (world3 (Exited 0) no_fault)
              "10.0.0.1" 12345 30%nat 2%nat init_state
              ltac:(lia)
              ltac:(intros [|[|j]] Hj; [reflexivity|reflexivity|lia])
              eq_refl) as (_ & H & _).
  exact H.
Defined.

(** Worker [algo-2] makes no call of the master's. *)
Lemma roles_do_not_mix_witness :
  index "algo-2" ["algo-1"; "algo-2"; "algo-3"] = Some 1%nat
  /\ existsb is_master_call
       (trace (run_train graphstorm_config (world3 (Exited 3) no_fault)
                 (args3 "algo-2" None) [] init_state).2) = false.
Proof.
  split; [reflexivity|].
  destruct (roles_do_not_mix graphstorm_config (world3 (Exited 3) no_fault)
              (args3 "algo-2" None) [] 1%nat eq_refl) as (H & _).
  apply H. discriminate.
Defined.

(** The command the master of the three-node job starts. *)
Lemma started_command_is_the_assembled_one_witness :
  let t :=
    build_launch_cmd "graphstorm.run.gs_node_classification" 4
      "/opt/ml/data/g.json" "/opt/ml/model/model_checkpoint"
      "/opt/ml/data/ip_list.txt" "/opt/ml/data/train.yaml" ["--x"] None None
      "/usr/local/lib" in
  In (EvRunStart t)
    (trace (run_train graphstorm_config (world3 (Exited 0) no_fault)
              (args3 "algo-1" None) ["--x"] init_state).2)
  /\ t !! 13%nat = Some "/opt/ml/data/ip_list.txt".
Proof.
  cbv zeta.
  assert (Hin :
    In (EvRunStart
          (build_launch_cmd "graphstorm.run.gs_node_classification" 4
             "/opt/ml/data/g.json" "/opt/ml/model/model_checkpoint"
             "/opt/ml/data/ip_list.txt" "/opt/ml/data/train.yaml" ["--x"]
             None None "/usr/local/lib"))
      (trace (run_train graphstorm_config (world3 (Exited 0) no_fault)
                (args3 "algo-1" None) ["--x"] init_state).2))
    by in_trace.
  split; [exact Hin|].
  destruct (started_command_is_the_assembled_one graphstorm_config
              (world3 (Exited 0) no_fault) (args3 "algo-1" None) ["--x"] _ Hin)
    as (_ & _ & _ & H).
  exact H.
Defined.

(** The master of the three-node job tears down the two connections it
    accepted. *)
Lemma terminated_clients_are_the_accepted_ones_witness :
  In (EvTerminateWorkers [None; Some 7%nat; Some 5%nat] 3)
    (trace (run_train graphstorm_config (world3 (Exited 0) no_fault)
              (args3 "algo-1" None) [] init_state).2)
  /\ In (EvKeepAliveStart [None; Some 7%nat; Some 5%nat] 3)
       (trace (run_train graphstorm_config (world3 (Exited 0) no_fault)
                 (args3 "algo-1" None) [] init_state).2).
Proof.
  assert (Hin :
    In (EvTerminateWorkers [None; Some 7%nat; Some 5%nat] 3)
      (trace (run_train graphstorm_config (world3 (Exited 0) no_fault)
                (args3 "algo-1" None) [] init_state).2))
    by in_trace.
  split; [exact Hin|].
  destruct (terminated_clients_are_the_accepted_ones graphstorm_config
              (world3 (Exited 0) no_fault) (args3 "algo-1" None) [] _ _ Hin)
    as (_ & _ & _ & _ & H).
  exact H.
Defined.
